(** * TradeWizard: realized P&L and win/loss analytics

    A shallow embedding of [backend/app/modules/tradelog/service.py]
    (class [TradeLogService]) together with the parts of Python's
    [decimal], [float] and [datetime] that the service relies on.

    Layout:
    - exceptions as a small error monad;
    - [Decimal] values (coefficient and exponent, default context:
      28 significant digits, ROUND_HALF_EVEN, trapped division signals);
    - binary64 floats through the primitive floats of the library;
    - the data base rows and the service methods, in source order;
    - the CSV import, with the library calls it makes as a record of
      functions, and the deletion of a trade;
    - theorems about position reconstruction, the dashboard rollup, the
      breakdown calculator, the grouped views, the import and the
      deletion. *)

From Stdlib Require Import ZArith List Bool String Ascii Lia Permutation Sorted.
From Stdlib Require Import Floats.
From Stdlib Require DecimalString.
Import ListNotations.

Local Open Scope string_scope.
Local Open Scope list_scope.
Local Open Scope Z_scope.

(* ===================================================================== *)
(** * Exceptions *)
(* ===================================================================== *)

(** The exception classes that the modelled code can raise. *)
Inductive exn : Type :=
| TypeError          (* unsupported operand type(s) *)
| DivisionByZero     (* decimal.DivisionByZero, a ZeroDivisionError *)
| InvalidOperation   (* decimal.InvalidOperation (0 / 0) *)
| ZeroDivisionError  (* int or float division by zero *)
| OverflowError.     (* datetime arithmetic out of range *)

Inductive result (A : Type) : Type :=
| Return (a : A)
| Raise (e : exn).
Arguments Return {A} a.
Arguments Raise {A} e.

Definition bind {A B} (m : result A) (k : A -> result B) : result B :=
  match m with
  | Return a => k a
  | Raise e => Raise e
  end.

Declare Scope py_scope.
Delimit Scope py_scope with py.
Notation "x <- m ;; k" := (bind m (fun x => k))
  (at level 61, m at next level, right associativity) : py_scope.
Notation "' pat <- m ;; k" := (bind m (fun x => match x with pat => k end))
  (at level 61, pat pattern, m at next level, right associativity) : py_scope.
Local Open Scope py_scope.

Definition fmap {A B} (f : A -> B) (m : result A) : result B :=
  x <- m ;; Return (f x).

(** A [for] loop whose body may raise: the accumulator is threaded
    through the iterations, the first exception ends the loop. *)
Fixpoint for_each {A S} (body : A -> S -> result S) (l : list A) (s : S)
  : result S :=
  match l with
  | [] => Return s
  | x :: l' => s' <- body x s ;; for_each body l' s'
  end.

(** A list comprehension whose element expression may raise. *)
Fixpoint map_result {A B} (f : A -> result B) (l : list A) : result (list B) :=
  match l with
  | [] => Return []
  | x :: l' => y <- f x ;; ys <- map_result f l' ;; Return (y :: ys)
  end.

(* ===================================================================== *)
(** * decimal.Decimal *)
(* ===================================================================== *)

(** A finite [Decimal] is [d_coef * 10 ^ d_exp]; the sign lives in the
    coefficient.  Arithmetic follows the default context: the exact
    result is rounded to [context_prec = 28] significant digits, ties to even.
    NaN and infinities cannot arise: the signals that would produce them
    are trapped and raise.  The exponent range (1E-999999 .. 1E+999999)
    is far beyond anything a NUMERIC column can reach and is not
    modelled. *)
Record Decimal : Type := mkDecimal { d_coef : Z; d_exp : Z }.

(** [getcontext().prec] *)
Definition context_prec : Z := 28.

(** [len(str(n))] for a non-negative [n]. *)
Fixpoint ndigits_fuel (fuel : nat) (n : Z) : Z :=
  match fuel with
  | O => 1
  | S f => if n <? 10 then 1 else 1 + ndigits_fuel f (n / 10)
  end.

Definition ndigits (n : Z) : Z := ndigits_fuel (Z.to_nat (Z.log2 n)) n.

(** [num / den] rounded to an integer, half to even ([num >= 0],
    [den > 0]). *)
Definition round_half_even_ratio (num den : Z) : Z :=
  let q := num / den in
  let r := num mod den in
  if (den <? 2 * r) || ((den =? 2 * r) && Z.odd q) then q + 1 else q.

(** Drop the last [k] digits of [m >= 0], rounding half to even. *)
Definition round_half_even (m k : Z) : Z := round_half_even_ratio m (10 ^ k).

(** [Decimal._fix]: round to the context precision. *)
Definition _fix (d : Decimal) : Decimal :=
  let m := Z.abs (d_coef d) in
  let n := ndigits m in
  if n <=? context_prec then d
  else
    let k := n - context_prec in
    let q := round_half_even m k in
    let s := Z.sgn (d_coef d) in
    if context_prec <? ndigits q
    then mkDecimal (s * (q / 10)) (d_exp d + k + 1)
    else mkDecimal (s * q) (d_exp d + k).

(** Both coefficients brought to the smaller exponent. *)
Definition d_align (a b : Decimal) : Z * Z * Z :=
  let e := Z.min (d_exp a) (d_exp b) in
  (d_coef a * 10 ^ (d_exp a - e), d_coef b * 10 ^ (d_exp b - e), e).

Definition Decimal_of_int (n : Z) : Decimal := mkDecimal n 0.

Definition d_add (a b : Decimal) : Decimal :=
  let '(ca, cb, e) := d_align a b in _fix (mkDecimal (ca + cb) e).

Definition d_copy_negate (a : Decimal) : Decimal :=
  mkDecimal (- d_coef a) (d_exp a).

Definition d_sub (a b : Decimal) : Decimal := d_add a (d_copy_negate b).

Definition d_mul (a b : Decimal) : Decimal :=
  _fix (mkDecimal (d_coef a * d_coef b) (d_exp a + d_exp b)).

Definition d_abs (a : Decimal) : Decimal :=
  _fix (mkDecimal (Z.abs (d_coef a)) (d_exp a)).

(** [Decimal._cmp]: comparison of the exact values. *)
Definition d_cmp (a b : Decimal) : comparison :=
  let '(ca, cb, _) := d_align a b in Z.compare ca cb.

Definition d_eqb (a b : Decimal) : bool :=
  match d_cmp a b with Eq => true | _ => false end.
Definition d_ltb (a b : Decimal) : bool :=
  match d_cmp a b with Lt => true | _ => false end.
Definition d_gtb (a b : Decimal) : bool := d_ltb b a.
Definition d_leb (a b : Decimal) : bool := negb (d_ltb b a).

(** Division removes trailing zeros of an exact quotient down to the
    ideal exponent. *)
Fixpoint strip_zeros (fuel : nat) (c e ideal : Z) : Z * Z :=
  match fuel with
  | O => (c, e)
  | S f =>
      if (e <? ideal) && (c mod 10 =? 0)
      then strip_zeros f (c / 10) (e + 1) ideal
      else (c, e)
  end.

(** [Decimal.__truediv__]. *)
Definition d_div (a b : Decimal) : result Decimal :=
  if d_coef b =? 0 then
    if d_coef a =? 0 then Raise InvalidOperation else Raise DivisionByZero
  else if d_coef a =? 0 then
    Return (_fix (mkDecimal 0 (d_exp a - d_exp b)))
  else
    let ma := Z.abs (d_coef a) in
    let mb := Z.abs (d_coef b) in
    let s := Z.sgn (d_coef a) * Z.sgn (d_coef b) in
    let shift := ndigits mb - ndigits ma + context_prec + 1 in
    let e := d_exp a - d_exp b - shift in
    let '(q, r) :=
      if 0 <=? shift
      then (ma * 10 ^ shift / mb, (ma * 10 ^ shift) mod mb)
      else (ma / (mb * 10 ^ (- shift)), ma mod (mb * 10 ^ (- shift))) in
    let '(q', e') :=
      if r =? 0
      then strip_zeros (Z.to_nat (d_exp a - d_exp b - e)) q e
             (d_exp a - d_exp b)
      else ((if q mod 5 =? 0 then q + 1 else q), e) in
    Return (_fix (mkDecimal (s * q') e')).

(** Python's two-argument [min]: the first argument unless the second
    is strictly smaller. *)
Definition py_min (a b : Decimal) : Decimal := if d_ltb b a then b else a.

(** [sum(...)] over Decimals: the integer start value 0 is converted
    exactly and the terms are added left to right. *)
Definition py_sum (l : list Decimal) : Decimal :=
  fold_left d_add l (Decimal_of_int 0).

(* ===================================================================== *)
(** * float *)
(* ===================================================================== *)

(** Python floats are IEEE 754 binary64 values: the primitive floats.
    [float_of_ratio n d] is the double nearest to [n / d] for [d > 0]
    (the quotient is rounded once, ties to even). *)
Definition float_of_ratio (n d : Z) : float :=
  let den := S754_finite false (Z.to_pos d) 0 in
  match n with
  | Z0 => PrimFloat.zero
  | Zpos p =>
      SF2Prim (SFdiv FloatOps.prec FloatOps.emax (S754_finite false p 0) den)
  | Zneg p =>
      SF2Prim (SFdiv FloatOps.prec FloatOps.emax (S754_finite true p 0) den)
  end.

(** [a / b] on ints (true division). *)
Definition int_truediv (a b : Z) : result float :=
  if b =? 0 then Raise ZeroDivisionError
  else if 0 <? b then Return (float_of_ratio a b)
  else Return (float_of_ratio (- a) (- b)).

(** [float(d)] for a Decimal. *)
Definition float_of_Decimal (d : Decimal) : float :=
  if 0 <=? d_exp d
  then float_of_ratio (d_coef d * 10 ^ d_exp d) 1
  else float_of_ratio (d_coef d) (10 ^ (- d_exp d)).

(** [round(x, 2)] on a float: the exact binary value is rounded to two
    decimal places, ties to even, and the decimal result is converted
    back to the nearest double.  Infinities and NaN are returned as they
    are. *)
Definition round2 (x : float) : float :=
  match Prim2SF x with
  | S754_finite s m e =>
      if 0 <=? e then x
      else
        let n := round_half_even_ratio (Zpos m * 100) (2 ^ (- e)) in
        if n =? 0 then (if s then PrimFloat.neg_zero else PrimFloat.zero)
        else float_of_ratio (if s then - n else n) 100
  | _ => x
  end.

(* ===================================================================== *)
(** * Mixed arithmetic *)
(* ===================================================================== *)

(** A dynamically typed number, for the expressions of the source whose
    operands are of different Python types. *)
Inductive pynum : Type :=
| PyInt (n : Z)
| PyFloat (x : float)
| PyDecimal (d : Decimal).

(** [decimal._convert_other]: ints (and Decimals) are accepted, a float
    is answered with [NotImplemented] ([None] here). *)
Definition _convert_other (other : pynum) : option Decimal :=
  match other with
  | PyInt n => Some (Decimal_of_int n)
  | PyDecimal d => Some d
  | PyFloat _ => None
  end.

(** [other * d] for a Decimal [d].  [int.__mul__] and [float.__mul__]
    do not know Decimal, so the interpreter falls back on
    [Decimal.__rmul__]; when that answers [NotImplemented] as well the
    expression raises TypeError. *)
Definition Decimal_rmul (d : Decimal) (other : pynum) : result Decimal :=
  match _convert_other other with
  | Some o => Return (d_mul o d)
  | None => Raise TypeError
  end.

(** [d / n] for a Decimal [d] and an int [n] ([Decimal.__truediv__]). *)
Definition d_div_int (d : Decimal) (n : Z) : result Decimal :=
  d_div d (Decimal_of_int n).

(** [d - x] where [x] is the value of a nullable NUMERIC column.  For
    None [Decimal.__sub__] answers [NotImplemented] and None has no
    reflected method: the expression raises TypeError. *)
Definition d_sub_nullable (d : Decimal) (x : option Decimal) : result Decimal :=
  match x with
  | Some c => Return (d_sub d c)
  | None => Raise TypeError
  end.

(** [sum(...)] over the values of a nullable NUMERIC column: the
    running sum starts at the integer 0, and adding None, to 0 or to a
    Decimal, raises TypeError. *)
Definition py_sum_nullable (l : list (option Decimal)) : result Decimal :=
  for_each
    (fun x acc =>
       match x with
       | Some c => Return (d_add acc c)
       | None => Raise TypeError
       end)
    l (Decimal_of_int 0).

(** [x * n] and [round(x, 2)] where [x] is a float or an int. *)
Definition py_mul_int (x : pynum) (n : Z) : pynum :=
  match x with
  | PyInt m => PyInt (m * n)
  | PyFloat f => PyFloat (f * float_of_ratio n 1)
  | PyDecimal d => PyDecimal (d_mul d (Decimal_of_int n))
  end.

Definition py_round2 (x : pynum) : pynum :=
  match x with
  | PyFloat f => PyFloat (round2 f)
  | other => other
  end.

(** Coercion of a keyword argument to a [float] field of a schema. *)
Definition as_float (x : pynum) : float :=
  match x with
  | PyInt n => float_of_ratio n 1
  | PyFloat f => f
  | PyDecimal d => float_of_Decimal d
  end.

(* ===================================================================== *)
(** * datetime *)
(* ===================================================================== *)

(** A [datetime] is the number of microseconds since
    0001-01-01T00:00:00 in the proleptic Gregorian calendar; all rows
    carry the same UTC offset.  A [timedelta] is a number of
    microseconds. *)
Definition datetime : Type := Z.
Definition timedelta : Type := Z.

Definition us_per_day : Z := 86400 * 1000000.
Definition _MAXORDINAL : Z := 3652059.

Definition _is_leap (year : Z) : bool :=
  (year mod 4 =? 0) && (negb (year mod 100 =? 0) || (year mod 400 =? 0)).

Definition _days_before_year (year : Z) : Z :=
  let y := year - 1 in y * 365 + y / 4 - y / 100 + y / 400.

Definition _days_in_month (year month : Z) : Z :=
  if month =? 2 then (if _is_leap year then 29 else 28)
  else if (month =? 4) || (month =? 6) || (month =? 9) || (month =? 11)
       then 30 else 31.

Fixpoint _days_before_month_fuel (fuel : nat) (year month : Z) : Z :=
  match fuel with
  | O => 0
  | S f =>
      if month <=? 1 then 0
      else _days_in_month year (month - 1)
           + _days_before_month_fuel f year (month - 1)
  end.

Definition _days_before_month (year month : Z) : Z :=
  _days_before_month_fuel 12 year month.

Definition _ymd2ord (year month day : Z) : Z :=
  _days_before_year year + _days_before_month year month + day.

(** [datetime(year, month, day, hour, minute, second)]. *)
Definition datetime_of (year month day hour minute second : Z) : datetime :=
  (_ymd2ord year month day - 1) * us_per_day
  + ((hour * 60 + minute) * 60 + second) * 1000000.

Definition toordinal (d : datetime) : Z := d / us_per_day + 1.

(** [datetime._ord2ymd], restricted to year and month. *)
Definition _ord2ym (ordinal : Z) : Z * Z :=
  let n := ordinal - 1 in
  let n400 := n / 146097 in
  let n := n mod 146097 in
  let n100 := n / 36524 in
  let n := n mod 36524 in
  let n4 := n / 1461 in
  let n := n mod 1461 in
  let n1 := n / 365 in
  let n := n mod 365 in
  let year := n400 * 400 + 1 + n100 * 100 + n4 * 4 + n1 in
  if (n1 =? 4) || (n100 =? 4) then (year - 1, 12)
  else
    let leapyear := (n1 =? 3) && (negb (n4 =? 24) || (n100 =? 3)) in
    let month := (n + 50) / 32 in
    let preceding :=
      _days_before_month 1 month
      + (if (2 <? month) && leapyear then 1 else 0) in
    if n <? preceding then (year, month - 1) else (year, month).

Definition year (d : datetime) : Z := fst (_ord2ym (toordinal d)).
Definition month (d : datetime) : Z := snd (_ord2ym (toordinal d)).

Definition str_of_int (n : Z) : string :=
  DecimalString.NilZero.string_of_uint (N.to_uint (Z.to_N n)).

(** [d.strftime('%Y-%m')]. *)
Definition strftime_Y_m (d : datetime) : string :=
  let pad := if month d <? 10 then "0" else "" in
  (str_of_int (year d) ++ "-" ++ pad ++ str_of_int (month d))%string.

(** [now - timedelta(days=n)]; the date must stay within
    0001-01-01 .. 9999-12-31. *)
Definition datetime_sub_days (now : datetime) (n : Z) : result datetime :=
  let days := toordinal now - n in
  if (0 <? days) && (days <=? _MAXORDINAL)
  then Return (now - n * us_per_day)
  else Raise OverflowError.

Definition datetime_min : datetime := 0.

(* ===================================================================== *)
(** * Containers *)
(* ===================================================================== *)

(** A [dict] (or [defaultdict(list)]) with string keys, as the list of
    its items in insertion order. *)
Fixpoint dict_append {V} (k : string) (v : V) (d : list (string * list V))
  : list (string * list V) :=
  match d with
  | [] => [(k, [v])]
  | (k', vs) :: d' =>
      if String.eqb k k' then (k', vs ++ [v]) :: d'
      else (k', vs) :: dict_append k v d'
  end.

(** [for x in l: groups[key(x)].append(x)] *)
Definition group_by {V} (key : V -> string) (l : list V)
  : list (string * list V) :=
  fold_left (fun d x => dict_append (key x) x d) l [].

(** [list.sort] and [sorted] are stable.  [ltb x y] says that [x] sorts
    strictly before [y]; an element is inserted behind everything that
    does not sort strictly after it. *)
Fixpoint insert_sorted {A} (ltb : A -> A -> bool) (x : A) (l : list A)
  : list A :=
  match l with
  | [] => [x]
  | y :: l' => if ltb x y then x :: l else y :: insert_sorted ltb x l'
  end.

Definition stable_sort {A} (ltb : A -> A -> bool) (l : list A) : list A :=
  fold_left (fun sorted x => insert_sorted ltb x sorted) l [].

(** [enumerate(l)] *)
Fixpoint enumerate_from {A} (start : nat) (l : list A) : list (nat * A) :=
  match l with
  | [] => []
  | x :: l' => (start, x) :: enumerate_from (S start) l'
  end.

Definition enumerate {A} (l : list A) : list (nat * A) := enumerate_from 0 l.

(** [l[-1]] guarded by [if l]. *)
Definition last_opt {A} (l : list A) : option A :=
  match rev l with
  | [] => None
  | x :: _ => Some x
  end.

(* ===================================================================== *)
(** * Rows of the data base ([app/core/models.py]) *)
(* ===================================================================== *)

(** Primary keys are UUIDs, kept as integers.  NUMERIC columns are read
    back as Decimal, the [side] column as a string.  The [commission]
    column is nullable ([Column(Numeric(10, 4), default=0)]): a row can
    hold NULL there, read back as None. *)
Record TradeAccount : Type := {
  account_pk : Z;
  user_id : Z
}.

Record Trade : Type := {
  trade_pk : Z;
  account_id : Z;
  symbol : string;
  quantity : Decimal;
  price : Decimal;
  side : string;
  trade_date : datetime;
  commission : option Decimal
}.

Record TradeTag : Type := {
  tag_pk : Z;
  name : string
}.

Record TradeTagAssociation : Type := {
  trade_id : Z;
  tag_id : Z
}.

(** The tables, and the order in which the data base hands out the
    association rows of a query without ORDER BY: by the key
    [association_order], rows of equal key in table order. *)
Record Session : Type := {
  trade_accounts : list TradeAccount;
  trades : list Trade;
  trade_tags : list TradeTag;
  trade_tag_associations : list TradeTagAssociation;
  association_order : TradeTagAssociation -> Z
}.

(** The service object: its data base session, and the reading of the
    wall clock that [datetime.now()] would give during the call. *)
Record TradeLogService : Type := {
  db : Session;
  wall_clock : datetime
}.

(** [db.query(Trade).join(TradeAccount).filter(TradeAccount.user_id ==
    user_id)] *)
Definition query_user_trades (self : TradeLogService) (uid : Z) : list Trade :=
  filter
    (fun t =>
       existsb (fun a => (account_pk a =? account_id t) && (user_id a =? uid))
         (trade_accounts (db self)))
    (trades (db self)).

(** [db.query(TradeTagAssociation).filter(TradeTagAssociation.trade_id
    == t.id).all()]: the association rows of the trade, in the order of
    the data base. *)
Definition query_tag_assocs (self : TradeLogService) (t : Trade)
  : list TradeTagAssociation :=
  stable_sort
    (fun a b => association_order (db self) a <? association_order (db self) b)
    (filter (fun ta => trade_id ta =? trade_pk t)
       (trade_tag_associations (db self))).

(** The names of the tags attached to a trade: for every association
    row of the trade, the first tag row with the associated id, skipped
    when there is none. *)
Definition query_tag_names (self : TradeLogService) (t : Trade) : list string :=
  flat_map
    (fun ta =>
       match find (fun tg => tag_pk tg =? tag_id ta) (trade_tags (db self)) with
       | Some tg => [name tg]
       | None => []
       end)
    (query_tag_assocs self t).

(* ===================================================================== *)
(** * Position reconstruction ([_calculate_positions_pnl]) *)
(* ===================================================================== *)

(** One entry of [position_results]. *)
Record ClosedPosition : Type := {
  pos_symbol : string;
  pnl : Decimal;
  close_date : datetime;
  pos_quantity : Decimal;
  entry_price : Decimal;
  exit_price : Decimal;
  tags : list string;
  hold_time : timedelta
}.

Definition is_BUY (t : Trade) : bool := String.eqb (side t) "BUY".

Definition sort_by_trade_date (l : list Trade) : list Trade :=
  stable_sort (fun a b => trade_date a <? trade_date b) l.

(** The running lot of one symbol and the results emitted so far. *)
Record LoopState : Type := {
  position_qty : Decimal;
  avg_price : Decimal;
  position_results : list ClosedPosition
}.

(** The new average price on a BUY. *)
Definition buy_avg_price (position_qty avg_price : Decimal) (trade : Trade)
  : result Decimal :=
  if d_eqb position_qty (Decimal_of_int 0) then Return (price trade)
  else
    d_div
      (d_add (d_mul avg_price position_qty)
         (d_mul (price trade) (quantity trade)))
      (d_add position_qty (quantity trade)).

(** The entry appended for a SELL that finds an open position.  The
    P&L is computed first and raises TypeError when the commission of
    the fill is NULL. *)
Definition closing_entry (self : TradeLogService) (symbol : string)
  (symbol_trades : list Trade) (i : nat) (trade : Trade)
  (position_qty avg_price : Decimal) : result ClosedPosition :=
  let close_qty := py_min (quantity trade) position_qty in
  pnl <-
    d_sub_nullable (d_mul (d_sub (price trade) avg_price) close_qty)
      (commission trade) ;;
  let opening_trades := filter is_BUY (firstn i symbol_trades) in
  let tags :=
    match last_opt opening_trades with
    | Some last_open => query_tag_names self last_open
    | None => []
    end in
  Return
    {| pos_symbol := symbol;
       pnl := pnl;
       close_date := trade_date trade;
       pos_quantity := close_qty;
       entry_price := avg_price;
       exit_price := price trade;
       tags := tags;
       hold_time :=
         match last_opt opening_trades with
         | Some last_open => trade_date trade - trade_date last_open
         | None => 0
         end |}.

(** The body of [for i, trade in enumerate(symbol_trades)]. *)
Definition process_trade (self : TradeLogService) (symbol : string)
  (symbol_trades : list Trade) (it : nat * Trade) (st : LoopState)
  : result LoopState :=
  let '(i, trade) := it in
  if is_BUY trade then
    avg_price' <- buy_avg_price (position_qty st) (avg_price st) trade ;;
    Return {| position_qty := d_add (position_qty st) (quantity trade);
              avg_price := avg_price';
              position_results := position_results st |}
  else if d_gtb (position_qty st) (Decimal_of_int 0) then
    entry <-
      closing_entry self symbol symbol_trades i trade
        (position_qty st) (avg_price st) ;;
    let position_qty' := d_sub (position_qty st) (pos_quantity entry) in
    Return {| position_qty := position_qty';
              avg_price :=
                if d_eqb position_qty' (Decimal_of_int 0)
                then Decimal_of_int 0 else avg_price st;
              position_results := position_results st ++ [entry] |}
  else Return st.

(** The inner loop over one symbol, started on any state. *)
Definition symbol_loop (self : TradeLogService) (symbol : string)
  (symbol_trades : list Trade) (todo : list (nat * Trade)) (st : LoopState)
  : result LoopState :=
  for_each (process_trade self symbol symbol_trades) todo st.

(** The body of [for symbol, symbol_trades in positions.items()]. *)
Definition process_symbol (self : TradeLogService)
  (item : string * list Trade) (results : list ClosedPosition)
  : result (list ClosedPosition) :=
  let '(symbol, symbol_trades) := item in
  let symbol_trades := sort_by_trade_date symbol_trades in
  st <- symbol_loop self symbol symbol_trades (enumerate symbol_trades)
          {| position_qty := Decimal_of_int 0;
             avg_price := Decimal_of_int 0;
             position_results := results |} ;;
  Return (position_results st).

Definition _calculate_positions_pnl (self : TradeLogService)
  (trades : list Trade) : result (list ClosedPosition) :=
  let positions := group_by symbol trades in
  for_each (process_symbol self) positions [].

(* ===================================================================== *)
(** * Dashboard rollup ([get_dashboard_stats]) *)
(* ===================================================================== *)

Module DashboardStats.
Record t : Type := {
  total_trades : Z;
  total_pnl : Decimal;
  win_rate : float;
  total_commission : Decimal;
  best_trade : option Decimal;
  worst_trade : option Decimal
}.
End DashboardStats.

(** [len(l)] *)
Definition len {A} (l : list A) : Z := Z.of_nat (List.length l).

(** [max(l, default=d)] and [min(l, default=d)]: the first extremal
    element. *)
Definition py_max_default (l : list Decimal) (default : Decimal) : Decimal :=
  match l with
  | [] => default
  | x :: l' => fold_left (fun best y => if d_ltb best y then y else best) l' x
  end.

Definition py_min_default (l : list Decimal) (default : Decimal) : Decimal :=
  match l with
  | [] => default
  | x :: l' => fold_left (fun best y => if d_ltb y best then y else best) l' x
  end.

(** The variables the two nested loops of the dashboard update. *)
Record DashState : Type := {
  position : Decimal;
  dash_avg_price : Decimal;
  dash_total_pnl : Decimal;
  winning_trades : Z
}.

(** The body of [for trade in symbol_trades]. *)
Definition dash_process_trade (trade : Trade) (st : DashState)
  : result DashState :=
  if is_BUY trade then
    avg_price' <- buy_avg_price (position st) (dash_avg_price st) trade ;;
    Return {| position := d_add (position st) (quantity trade);
              dash_avg_price := avg_price';
              dash_total_pnl := dash_total_pnl st;
              winning_trades := winning_trades st |}
  else if d_gtb (position st) (Decimal_of_int 0) then
    let pnl :=
      d_mul (d_sub (price trade) (dash_avg_price st))
        (py_min (quantity trade) (position st)) in
    Return {| position := d_sub (position st) (quantity trade);
              dash_avg_price := dash_avg_price st;
              dash_total_pnl := d_add (dash_total_pnl st) pnl;
              winning_trades :=
                if d_gtb pnl (Decimal_of_int 0)
                then winning_trades st + 1 else winning_trades st |}
  else Return st.

(** The body of [for symbol, symbol_trades in positions.items()]:
    [position] and [avg_price] start afresh, the totals carry over. *)
Definition dash_process_symbol (item : string * list Trade)
  (totals : Decimal * Z) : result (Decimal * Z) :=
  let symbol_trades := sort_by_trade_date (snd item) in
  st <- for_each dash_process_trade symbol_trades
          {| position := Decimal_of_int 0;
             dash_avg_price := Decimal_of_int 0;
             dash_total_pnl := fst totals;
             winning_trades := snd totals |} ;;
  Return (dash_total_pnl st, winning_trades st).

(** [get_dashboard_stats] after the query. *)
Definition dashboard_stats_of (trades : list Trade)
  : result DashboardStats.t :=
  match trades with
  | [] =>
      Return {| DashboardStats.total_trades := 0;
                DashboardStats.total_pnl := Decimal_of_int 0;
                DashboardStats.win_rate := PrimFloat.zero;
                DashboardStats.total_commission := Decimal_of_int 0;
                DashboardStats.best_trade := None;
                DashboardStats.worst_trade := None |}
  | _ :: _ =>
      total_commission <- py_sum_nullable (map commission trades) ;;
      let positions := group_by symbol trades in
      '(total_pnl, winning_trades) <-
        for_each dash_process_symbol positions (Decimal_of_int 0, 0) ;;
      ratio <- int_truediv winning_trades (len trades) ;;
      let win_rate := py_mul_int (PyFloat ratio) 100 in
      let notional := map (fun t => d_mul (price t) (quantity t)) trades in
      Return {| DashboardStats.total_trades := len trades;
                DashboardStats.total_pnl := total_pnl;
                DashboardStats.win_rate := as_float (py_round2 win_rate);
                DashboardStats.total_commission := total_commission;
                DashboardStats.best_trade :=
                  Some (py_max_default notional (Decimal_of_int 0));
                DashboardStats.worst_trade :=
                  Some (py_min_default notional (Decimal_of_int 0)) |}
  end.

Definition get_dashboard_stats (self : TradeLogService) (uid : Z)
  : result DashboardStats.t :=
  dashboard_stats_of (query_user_trades self uid).

(* ===================================================================== *)
(** * Breakdown calculator ([_calculate_breakdown]) *)
(* ===================================================================== *)

Module WinLossBreakdown.
Record t : Type := {
  wins : Z;
  losses : Z;
  breakeven : Z;
  win_rate : float;
  avg_win : Decimal;
  avg_loss : Decimal;
  profit_factor : float;
  expectancy : Decimal
}.
End WinLossBreakdown.

Definition _empty_breakdown (self : TradeLogService) : WinLossBreakdown.t :=
  {| WinLossBreakdown.wins := 0;
     WinLossBreakdown.losses := 0;
     WinLossBreakdown.breakeven := 0;
     WinLossBreakdown.win_rate := PrimFloat.zero;
     WinLossBreakdown.avg_win := Decimal_of_int 0;
     WinLossBreakdown.avg_loss := Decimal_of_int 0;
     WinLossBreakdown.profit_factor := PrimFloat.zero;
     WinLossBreakdown.expectancy := Decimal_of_int 0 |}.

(** The truth value of a list. *)
Definition truthy {A} (l : list A) : bool :=
  match l with [] => false | _ :: _ => true end.

(** [len(part) / len(positions) if positions else 0] *)
Definition share_of {A B} (part : list A) (positions : list B)
  : result pynum :=
  if truthy positions
  then x <- int_truediv (len part) (len positions) ;; Return (PyFloat x)
  else Return (PyInt 0).

Definition _calculate_breakdown (self : TradeLogService)
  (positions : list ClosedPosition) : result WinLossBreakdown.t :=
  if negb (truthy positions) then Return (_empty_breakdown self)
  else
    let zero := Decimal_of_int 0 in
    let wins := filter (fun p => d_gtb (pnl p) zero) positions in
    let losses := filter (fun p => d_ltb (pnl p) zero) positions in
    let breakeven := filter (fun p => d_eqb (pnl p) zero) positions in
    let total_wins :=
      if truthy wins then py_sum (map pnl wins) else zero in
    let total_losses :=
      if truthy losses then d_abs (py_sum (map pnl losses)) else zero in
    win_ratio <- share_of wins positions ;;
    let win_rate := py_mul_int win_ratio 100 in
    avg_win <-
      (if truthy wins then d_div_int total_wins (len wins)
       else Return zero) ;;
    avg_loss <-
      (if truthy losses then d_div_int total_losses (len losses)
       else Return zero) ;;
    profit_factor <-
      (if d_gtb total_losses zero
       then q <- d_div total_wins total_losses ;; Return (float_of_Decimal q)
       else if d_gtb total_wins zero then Return PrimFloat.infinity
       else Return PrimFloat.zero) ;;
    win_pct <- share_of wins positions ;;
    loss_pct <- share_of losses positions ;;
    expected_win <- Decimal_rmul avg_win win_pct ;;
    expected_loss <- Decimal_rmul avg_loss loss_pct ;;
    let expectancy := d_sub expected_win expected_loss in
    Return {| WinLossBreakdown.wins := len wins;
              WinLossBreakdown.losses := len losses;
              WinLossBreakdown.breakeven := len breakeven;
              WinLossBreakdown.win_rate := as_float (py_round2 win_rate);
              WinLossBreakdown.avg_win := avg_win;
              WinLossBreakdown.avg_loss := avg_loss;
              WinLossBreakdown.profit_factor := round2 profit_factor;
              WinLossBreakdown.expectancy := expectancy |}.

(* ===================================================================== *)
(** * Grouped views *)
(* ===================================================================== *)

Module WinLossByTimeframe.
Record t : Type := {
  period : string;
  timeframe_type : string;
  breakdown : WinLossBreakdown.t;
  total_pnl : Decimal;
  trade_count : Z
}.
End WinLossByTimeframe.

Module WinLossBySymbol.
Record t : Type := {
  symbol : string;
  breakdown : WinLossBreakdown.t;
  total_pnl : Decimal;
  trade_count : Z;
  avg_hold_time_hours : option float
}.
End WinLossBySymbol.

Module WinLossByStrategy.
Record t : Type := {
  strategy : string;
  breakdown : WinLossBreakdown.t;
  total_pnl : Decimal;
  trade_count : Z
}.
End WinLossByStrategy.

Module WinLossAnalysis.
Record t : Type := {
  overall : WinLossBreakdown.t;
  by_timeframe : list WinLossByTimeframe.t;
  by_symbol : list WinLossBySymbol.t;
  by_strategy : list WinLossByStrategy.t;
  time_period : string
}.
End WinLossAnalysis.

(** [monthly_groups] of [_analyze_by_timeframe]. *)
Definition monthly_groups (positions : list ClosedPosition)
  : list (string * list ClosedPosition) :=
  group_by (fun pos => strftime_Y_m (close_date pos)) positions.

Definition timeframe_entry (self : TradeLogService)
  (item : string * list ClosedPosition) : result WinLossByTimeframe.t :=
  let '(period, period_positions) := item in
  breakdown <- _calculate_breakdown self period_positions ;;
  let total_pnl := py_sum (map pnl period_positions) in
  Return {| WinLossByTimeframe.period := period;
            WinLossByTimeframe.timeframe_type := "monthly";
            WinLossByTimeframe.breakdown := breakdown;
            WinLossByTimeframe.total_pnl := total_pnl;
            WinLossByTimeframe.trade_count := len period_positions |}.

Definition _analyze_by_timeframe (self : TradeLogService)
  (positions : list ClosedPosition) : result (list WinLossByTimeframe.t) :=
  if negb (truthy positions) then Return []
  else
    map_result (timeframe_entry self)
      (stable_sort (fun a b => String.ltb (fst a) (fst b))
         (monthly_groups positions)).

(** [symbol_groups] of [_analyze_by_symbol]. *)
Definition symbol_groups (positions : list ClosedPosition)
  : list (string * list ClosedPosition) :=
  group_by pos_symbol positions.

(** [p['hold_time'].total_seconds() / 3600] *)
Definition hold_hours (p : ClosedPosition) : float :=
  (float_of_ratio (hold_time p) 1000000 / float_of_ratio 3600 1)%float.

(** [sum(hold_times) / len(hold_times) if hold_times else None], the
    floats added from left to right. *)
Definition mean_hold_time (hold_times : list float) : option float :=
  match hold_times with
  | [] => None
  | _ :: _ =>
      Some (fold_left PrimFloat.add hold_times PrimFloat.zero
            / float_of_ratio (len hold_times) 1)%float
  end.

Definition symbol_entry (self : TradeLogService)
  (item : string * list ClosedPosition) : result WinLossBySymbol.t :=
  let '(symbol, symbol_positions) := item in
  breakdown <- _calculate_breakdown self symbol_positions ;;
  let total_pnl := py_sum (map pnl symbol_positions) in
  let hold_times :=
    map hold_hours
      (filter (fun p => negb (hold_time p =? 0)) symbol_positions) in
  Return {| WinLossBySymbol.symbol := symbol;
            WinLossBySymbol.breakdown := breakdown;
            WinLossBySymbol.total_pnl := total_pnl;
            WinLossBySymbol.trade_count := len symbol_positions;
            WinLossBySymbol.avg_hold_time_hours :=
              mean_hold_time hold_times |}.

Definition _analyze_by_symbol (self : TradeLogService)
  (positions : list ClosedPosition) : result (list WinLossBySymbol.t) :=
  if negb (truthy positions) then Return []
  else
    results <- map_result (symbol_entry self) (symbol_groups positions) ;;
    Return
      (stable_sort
         (fun a b =>
            d_ltb (WinLossBySymbol.total_pnl b) (WinLossBySymbol.total_pnl a))
         results).

(** [strategy_groups] of [_analyze_by_strategy]: an entry goes to the
    bucket of each of its tags, or to "No Strategy" when it has none. *)
Definition add_to_strategy_groups
  (groups : list (string * list ClosedPosition)) (pos : ClosedPosition)
  : list (string * list ClosedPosition) :=
  if truthy (tags pos)
  then fold_left (fun g tag => dict_append tag pos g) (tags pos) groups
  else dict_append "No Strategy" pos groups.

Definition strategy_groups (positions : list ClosedPosition)
  : list (string * list ClosedPosition) :=
  fold_left add_to_strategy_groups positions [].

Definition strategy_entry (self : TradeLogService)
  (item : string * list ClosedPosition) : result WinLossByStrategy.t :=
  let '(strategy, strategy_positions) := item in
  breakdown <- _calculate_breakdown self strategy_positions ;;
  let total_pnl := py_sum (map pnl strategy_positions) in
  Return {| WinLossByStrategy.strategy := strategy;
            WinLossByStrategy.breakdown := breakdown;
            WinLossByStrategy.total_pnl := total_pnl;
            WinLossByStrategy.trade_count := len strategy_positions |}.

Definition _analyze_by_strategy (self : TradeLogService)
  (positions : list ClosedPosition) : result (list WinLossByStrategy.t) :=
  if negb (truthy positions) then Return []
  else
    results <- map_result (strategy_entry self) (strategy_groups positions) ;;
    Return
      (stable_sort
         (fun a b =>
            d_ltb (WinLossByStrategy.total_pnl b)
              (WinLossByStrategy.total_pnl a))
         results).

(* ===================================================================== *)
(** * The entry point ([get_win_loss_analysis]) *)
(* ===================================================================== *)

(** [datetime.now()] *)
Definition datetime_now (self : TradeLogService) : datetime := wall_clock self.

Definition _get_cutoff_date (self : TradeLogService) (time_period : string)
  : result datetime :=
  let now := datetime_now self in
  if String.eqb time_period "1m" then datetime_sub_days now 30
  else if String.eqb time_period "3m" then datetime_sub_days now 90
  else if String.eqb time_period "6m" then datetime_sub_days now 180
  else if String.eqb time_period "1y" then datetime_sub_days now 365
  else if String.eqb time_period "ytd"
       then Return (datetime_of (year now) 1 1 0 0 0)
  else Return datetime_min.

Definition empty_analysis (self : TradeLogService) (time_period : string)
  : WinLossAnalysis.t :=
  {| WinLossAnalysis.overall := _empty_breakdown self;
     WinLossAnalysis.by_timeframe := [];
     WinLossAnalysis.by_symbol := [];
     WinLossAnalysis.by_strategy := [];
     WinLossAnalysis.time_period := time_period |}.

(** The query of the [try] block: the user's trades, from the cutoff
    on, ordered by date (rows of equal date in table order). *)
Definition query_period_trades (self : TradeLogService) (uid : Z)
  (time_period : string) : result (list Trade) :=
  let rows := query_user_trades self uid in
  rows <-
    (if negb (String.eqb time_period "all")
     then cutoff_date <- _get_cutoff_date self time_period ;;
          Return (filter (fun t => cutoff_date <=? trade_date t) rows)
     else Return rows) ;;
  Return (sort_by_trade_date rows).

(** The rest of the [try] block, from [if not trades] on. *)
Definition analyse_trades (self : TradeLogService) (trades : list Trade)
  (time_period : string) : result WinLossAnalysis.t :=
  if negb (truthy trades) then Return (empty_analysis self time_period)
  else
    positions_data <- _calculate_positions_pnl self trades ;;
    overall <- _calculate_breakdown self positions_data ;;
    by_timeframe <- _analyze_by_timeframe self positions_data ;;
    by_symbol <- _analyze_by_symbol self positions_data ;;
    by_strategy <- _analyze_by_strategy self positions_data ;;
    Return {| WinLossAnalysis.overall := overall;
              WinLossAnalysis.by_timeframe := by_timeframe;
              WinLossAnalysis.by_symbol := by_symbol;
              WinLossAnalysis.by_strategy := by_strategy;
              WinLossAnalysis.time_period := time_period |}.

Definition win_loss_try_block (self : TradeLogService) (uid : Z)
  (time_period : string) : result WinLossAnalysis.t :=
  trades <- query_period_trades self uid time_period ;;
  analyse_trades self trades time_period.

(** [try: ... except Exception: return <empty analysis>] *)
Definition get_win_loss_analysis (self : TradeLogService) (uid : Z)
  (time_period : string) : WinLossAnalysis.t :=
  match win_loss_try_block self uid time_period with
  | Return analysis => analysis
  | Raise _ => empty_analysis self time_period
  end.

(* ===================================================================== *)
(** * Vocabulary of the statements *)
(* ===================================================================== *)

Definition d_zero : Decimal := Decimal_of_int 0.

(** The P&L of an entry before commission. *)
Definition gross_pnl (e : ClosedPosition) : Decimal :=
  d_mul (d_sub (exit_price e) (entry_price e)) (pos_quantity e).

(** An entry that wins before commission. *)
Definition gross_win (e : ClosedPosition) : bool :=
  d_gtb (gross_pnl e) d_zero.

(** Every fill of the list has a commission. *)
Definition commissions_present (l : list Trade) : Prop :=
  Forall (fun t => commission t <> None) l.

(** Every fill of the list that is not a BUY has a commission: these
    are the commissions that position reconstruction reads. *)
Definition closing_commissions_present (l : list Trade) : Prop :=
  Forall (fun t => is_BUY t = false -> commission t <> None) l.

(** The entry that [closing_entry] returns for a fill whose commission
    is [fee]. *)
Definition entry_for (self : TradeLogService) (symbol : string)
  (symbol_trades : list Trade) (i : nat) (trade : Trade)
  (position_qty avg_price fee : Decimal) : ClosedPosition :=
  let close_qty := py_min (quantity trade) position_qty in
  let opening_trades := filter is_BUY (firstn i symbol_trades) in
  {| pos_symbol := symbol;
     pnl := d_sub (d_mul (d_sub (price trade) avg_price) close_qty) fee;
     close_date := trade_date trade;
     pos_quantity := close_qty;
     entry_price := avg_price;
     exit_price := price trade;
     tags :=
       match last_opt opening_trades with
       | Some last_open => query_tag_names self last_open
       | None => []
       end;
     hold_time :=
       match last_opt opening_trades with
       | Some last_open => trade_date trade - trade_date last_open
       | None => 0
       end |}.

(** No SELL of the sequence is larger than the quantity open when it
    arrives: the running quantity starts at [open_qty], BUYs add to it,
    a SELL that meets an open quantity must not exceed it and is
    subtracted, a SELL that meets none is skipped. *)
Fixpoint never_oversold (todo : list Trade) (open_qty : Decimal) : bool :=
  match todo with
  | [] => true
  | trade :: todo' =>
      if is_BUY trade
      then never_oversold todo' (d_add open_qty (quantity trade))
      else if d_gtb open_qty d_zero
      then negb (d_ltb open_qty (quantity trade))
           && never_oversold todo' (d_sub open_qty (quantity trade))
      else never_oversold todo' open_qty
  end.

Definition initial_state (results : list ClosedPosition) : LoopState :=
  {| position_qty := d_zero; avg_price := d_zero;
     position_results := results |}.

Definition no_oversell (trades : list Trade) : bool :=
  forallb
    (fun item : string * list Trade =>
       never_oversold (sort_by_trade_date (snd item)) d_zero)
    (group_by symbol trades).

(** Two computations end alike: both return, with related values, or
    both raise the same exception. *)
Definition same_outcome {A B} (R : A -> B -> Prop)
  (x : result A) (y : result B) : Prop :=
  match x, y with
  | Return a, Return b => R a b
  | Raise e, Raise e' => e = e'
  | _, _ => False
  end.

(** The dashboard loop and the reconstruction loop in step: the same
    open quantity, the same average price while something is open, the
    dashboard total equal to the gross P&L of the entries so far, and
    the dashboard's count of winning trades equal to the number of
    entries that win before commission. *)
Definition in_step (st : LoopState) (ds : DashState) : Prop :=
  position ds = position_qty st
  /\ (d_eqb (position_qty st) d_zero = false ->
      dash_avg_price ds = avg_price st)
  /\ dash_total_pnl ds = py_sum (map gross_pnl (position_results st))
  /\ winning_trades ds = len (filter gross_win (position_results st)).

(** BUY 50 @ 10; SELL 80 @ 12 with commission 1; BUY 10 @ 11;
    SELL 10 @ 13: an oversell followed by a second round trip. *)
Definition oversell_then_round_trip : list Trade :=
  [ {| trade_pk := 1; account_id := 1; symbol := "XYZ";
       quantity := mkDecimal 5000000000 (-8); price := mkDecimal 100000 (-4);
       side := "BUY"; trade_date := datetime_of 2025 3 3 9 30 0;
       commission := Some (mkDecimal 0 (-4)) |};
    {| trade_pk := 2; account_id := 1; symbol := "XYZ";
       quantity := mkDecimal 8000000000 (-8); price := mkDecimal 120000 (-4);
       side := "SELL"; trade_date := datetime_of 2025 3 4 9 30 0;
       commission := Some (mkDecimal 10000 (-4)) |};
    {| trade_pk := 3; account_id := 1; symbol := "XYZ";
       quantity := mkDecimal 1000000000 (-8); price := mkDecimal 110000 (-4);
       side := "BUY"; trade_date := datetime_of 2025 3 5 9 30 0;
       commission := Some (mkDecimal 0 (-4)) |};
    {| trade_pk := 4; account_id := 1; symbol := "XYZ";
       quantity := mkDecimal 1000000000 (-8); price := mkDecimal 130000 (-4);
       side := "SELL"; trade_date := datetime_of 2025 3 6 9 30 0;
       commission := Some (mkDecimal 0 (-4)) |} ].

(** Fills as the data model has them: positive quantities. *)
Definition positive_quantities (l : list Trade) : Prop :=
  Forall (fun t => d_gtb (quantity t) d_zero = true) l.

(** The invariant of the open lot: the quantity is never negative, and
    the average price is 0 while nothing is open. *)
Definition lot_invariant (st : LoopState) : Prop :=
  d_leb d_zero (position_qty st) = true
  /\ (d_eqb (position_qty st) d_zero = true -> avg_price st = d_zero).

(** What a SELL (any fill that is not a BUY) does to the state [st]:
    nothing when no quantity is open; otherwise one entry is appended,
    for the smaller of the SELL quantity and the open quantity, the
    open quantity goes down by that amount only, and the average price
    is put back to 0 exactly when the open quantity has become 0. *)
Definition sell_outcome (trade : Trade) (st st' : LoopState) : Prop :=
  if d_eqb (position_qty st) d_zero then st' = st
  else
    exists entry,
      position_results st' = position_results st ++ [entry]
      /\ pos_quantity entry = py_min (quantity trade) (position_qty st)
      /\ d_leb (pos_quantity entry) (position_qty st) = true
      /\ position_qty st' = d_sub (position_qty st) (pos_quantity entry)
      /\ (d_ltb (position_qty st) (quantity trade) = true ->
          d_eqb (position_qty st') d_zero = true)
      /\ (d_eqb (position_qty st') d_zero = true -> avg_price st' = d_zero)
      /\ (d_eqb (position_qty st') d_zero = false ->
          avg_price st' = avg_price st).

(** Scenario D of the specification: BUY 50 @ 10, then SELL 80 @ 12. *)
Definition scenario_D : list Trade :=
  [ {| trade_pk := 1; account_id := 1; symbol := "XYZ";
       quantity := mkDecimal 5000000000 (-8); price := mkDecimal 100000 (-4);
       side := "BUY"; trade_date := datetime_of 2025 3 3 9 30 0;
       commission := Some (mkDecimal 0 (-4)) |};
    {| trade_pk := 2; account_id := 1; symbol := "XYZ";
       quantity := mkDecimal 8000000000 (-8); price := mkDecimal 120000 (-4);
       side := "SELL"; trade_date := datetime_of 2025 3 4 9 30 0;
       commission := Some (mkDecimal 0 (-4)) |} ].

Definition no_tags_service (rows : list Trade) : TradeLogService :=
  {| db := {| trade_accounts := [ {| account_pk := 1; user_id := 7 |} ];
              trades := rows;
              trade_tags := [];
              trade_tag_associations := [];
              association_order := fun _ => 0 |};
     wall_clock := datetime_of 2025 6 1 12 0 0 |}.

(** [b], at index [j], is the most recent BUY strictly before index
    [i] of the sequence. *)
Definition is_last_buy_before (symbol_trades : list Trade) (i j : nat)
  (b : Trade) : Prop :=
  (j < i)%nat
  /\ nth_error symbol_trades j = Some b
  /\ is_BUY b = true
  /\ forall k c, (j < k < i)%nat -> nth_error symbol_trades k = Some c ->
                 is_BUY c = false.

Definition no_buy_before (symbol_trades : list Trade) (i : nat) : Prop :=
  forall k c, (k < i)%nat -> nth_error symbol_trades k = Some c ->
              is_BUY c = false.

(** The quantity that stays open after one step of the reconstruction
    loop, as [never_oversold] tracks it. *)
Definition next_open_qty (trade : Trade) (open_qty : Decimal) : Decimal :=
  if is_BUY trade then d_add open_qty (quantity trade)
  else if d_gtb open_qty d_zero then d_sub open_qty (quantity trade)
  else open_qty.

(** Scenario A of the specification: BUY 100 @ 150.50 (commission 0),
    then SELL 50 @ 155.25 (commission 1.00) a day later, as the NUMERIC
    columns give the values back. *)
Definition scenario_A : list Trade :=
  [ {| trade_pk := 1; account_id := 1; symbol := "AAPL";
       quantity := mkDecimal 10000000000 (-8); price := mkDecimal 1505000 (-4);
       side := "BUY"; trade_date := datetime_of 2025 1 10 10 0 0;
       commission := Some (mkDecimal 0 (-4)) |};
    {| trade_pk := 2; account_id := 1; symbol := "AAPL";
       quantity := mkDecimal 5000000000 (-8); price := mkDecimal 1552500 (-4);
       side := "SELL"; trade_date := datetime_of 2025 1 11 10 0 0;
       commission := Some (mkDecimal 10000 (-4)) |} ].

(** The entry that reconstruction emits in Scenario A. *)
Definition scenario_A_entry : ClosedPosition :=
  {| pos_symbol := "AAPL";
     pnl := mkDecimal 236500000000000 (-12);
     close_date := datetime_of 2025 1 11 10 0 0;
     pos_quantity := mkDecimal 5000000000 (-8);
     entry_price := mkDecimal 1505000 (-4);
     exit_price := mkDecimal 1552500 (-4);
     tags := [];
     hold_time := us_per_day |}.

(** Scenario A with the BUY tagged "swing" and "earnings". *)
Definition tagged_service : TradeLogService :=
  {| db := {| trade_accounts := [ {| account_pk := 1; user_id := 7 |} ];
              trades := scenario_A;
              trade_tags := [ {| tag_pk := 5; name := "swing" |};
                              {| tag_pk := 6; name := "earnings" |} ];
              trade_tag_associations :=
                [ {| trade_id := 1; tag_id := 5 |};
                  {| trade_id := 1; tag_id := 6 |} ];
              association_order := fun _ => 0 |};
     wall_clock := datetime_of 2025 6 1 12 0 0 |}.

(** Every bucket of a dict of lists holds something. *)
Definition nonempty_groups {V} (d : list (string * list V)) : Prop :=
  Forall (fun item => truthy (snd item) = true) d.

(** [d[k]], the empty list when the key is absent. *)
Fixpoint dict_get {V} (k : string) (d : list (string * list V)) : list V :=
  match d with
  | [] => []
  | (k', vs) :: d' => if String.eqb k k' then vs else dict_get k d'
  end.

(** What one entry puts into the strategy bucket [k]: itself once per
    occurrence of [k] among its tags, or itself once in "No Strategy"
    when it has no tags. *)
Definition strategy_contribution (k : string) (pos : ClosedPosition)
  : list ClosedPosition :=
  if truthy (tags pos)
  then map (fun _ => pos) (filter (String.eqb k) (tags pos))
  else if String.eqb k "No Strategy" then [pos] else [].

(** A fill that violates a precondition of the data model: a negative
    quantity, or a side that is neither BUY nor SELL. *)
Definition violates_precondition (t : Trade) : bool :=
  d_ltb (quantity t) d_zero
  || negb (String.eqb (side t) "BUY" || String.eqb (side t) "SELL").

(** BUY 100 @ 10, then a fill of side "HOLD" for 50 @ 12. *)
Definition unknown_side_fills : list Trade :=
  [ {| trade_pk := 1; account_id := 1; symbol := "XYZ";
       quantity := mkDecimal 10000000000 (-8); price := mkDecimal 100000 (-4);
       side := "BUY"; trade_date := datetime_of 2025 3 3 9 30 0;
       commission := Some (mkDecimal 0 (-4)) |};
    {| trade_pk := 2; account_id := 1; symbol := "XYZ";
       quantity := mkDecimal 5000000000 (-8); price := mkDecimal 120000 (-4);
       side := "HOLD"; trade_date := datetime_of 2025 3 4 9 30 0;
       commission := Some (mkDecimal 0 (-4)) |} ].

(** BUY 100 @ 10, then SELL -50 @ 12. *)
Definition negative_quantity_fills : list Trade :=
  [ {| trade_pk := 1; account_id := 1; symbol := "XYZ";
       quantity := mkDecimal 10000000000 (-8); price := mkDecimal 100000 (-4);
       side := "BUY"; trade_date := datetime_of 2025 3 3 9 30 0;
       commission := Some (mkDecimal 0 (-4)) |};
    {| trade_pk := 2; account_id := 1; symbol := "XYZ";
       quantity := mkDecimal (-5000000000) (-8);
       price := mkDecimal 120000 (-4);
       side := "SELL"; trade_date := datetime_of 2025 3 4 9 30 0;
       commission := Some (mkDecimal 0 (-4)) |} ].

(** BUY 5 @ 10, then BUY -5 @ 10: the second average is 0 / 0. *)
Definition cancelling_buys : list Trade :=
  [ {| trade_pk := 1; account_id := 1; symbol := "XYZ";
       quantity := mkDecimal 500000000 (-8); price := mkDecimal 100000 (-4);
       side := "BUY"; trade_date := datetime_of 2025 3 3 9 30 0;
       commission := Some (mkDecimal 0 (-4)) |};
    {| trade_pk := 2; account_id := 1; symbol := "XYZ";
       quantity := mkDecimal (-500000000) (-8);
       price := mkDecimal 100000 (-4);
       side := "BUY"; trade_date := datetime_of 2025 3 4 9 30 0;
       commission := Some (mkDecimal 0 (-4)) |} ].

(** The same fill with its side column set to "SELL". *)
Definition as_SELL (t : Trade) : Trade :=
  {| trade_pk := trade_pk t; account_id := account_id t; symbol := symbol t;
     quantity := quantity t; price := price t; side := "SELL";
     trade_date := trade_date t; commission := commission t |}.

(** The same service read at another time. *)
Definition at_time (self : TradeLogService) (now : datetime)
  : TradeLogService :=
  {| db := db self; wall_clock := now |}.

(** Every side other than "BUY" rewritten to "SELL". *)
Definition normalise_side (t : Trade) : Trade :=
  if is_BUY t then t else as_SELL t.

(** The exceptions of Decimal division. *)
Definition is_division_error (e : exn) : Prop :=
  e = DivisionByZero \/ e = InvalidOperation.

(** What position reconstruction can raise on the fills [l]: an
    exception of Decimal division, or the TypeError of a fill that is
    not a BUY and whose commission is NULL. *)
Definition reconstruction_error (l : list Trade) (e : exn) : Prop :=
  is_division_error e
  \/ (e = TypeError
      /\ exists t, In t l /\ is_BUY t = false /\ commission t = None).

(** The entry that [tagged_service] yields in Scenario A. *)
Definition tagged_scenario_A_entry : ClosedPosition :=
  {| pos_symbol := "AAPL";
     pnl := mkDecimal 236500000000000 (-12);
     close_date := datetime_of 2025 1 11 10 0 0;
     pos_quantity := mkDecimal 5000000000 (-8);
     entry_price := mkDecimal 1505000 (-4);
     exit_price := mkDecimal 1552500 (-4);
     tags := ["swing"; "earnings"];
     hold_time := us_per_day |}.

(* ===================================================================== *)
(** * Further vocabulary *)
(* ===================================================================== *)

(** The state [st] with the entries [acc] put in front of its results. *)
Definition prepend_results (acc : list ClosedPosition) (st : LoopState)
  : LoopState :=
  {| position_qty := position_qty st;
     avg_price := avg_price st;
     position_results := acc ++ position_results st |}.

(** The entries of one symbol: the body of the outer loop run on an
    empty result list. *)
Definition symbol_events (self : TradeLogService)
  (item : string * list Trade) : result (list ClosedPosition) :=
  process_symbol self item [].

(** [l1] is [l2] with some elements left out. *)
Inductive subseq {A : Type} : list A -> list A -> Prop :=
| subseq_nil : subseq [] []
| subseq_skip (x : A) (l1 l2 : list A) : subseq l1 l2 -> subseq l1 (x :: l2)
| subseq_take (x : A) (l1 l2 : list A) :
    subseq l1 l2 -> subseq (x :: l1) (x :: l2).

(** The entry [e] records the closing fill [sell]: the fill is not a
    BUY, the entry carries its symbol, timestamp and price, and the
    realized P&L is the gross P&L of the entry minus the whole
    commission of the fill. *)
Definition closes (sell : Trade) (e : ClosedPosition) : Prop :=
  is_BUY sell = false
  /\ pos_symbol e = symbol sell
  /\ close_date e = trade_date sell
  /\ exit_price e = price sell
  /\ exists fee,
       commission sell = Some fee /\ pnl e = d_sub (gross_pnl e) fee.

(** Two symbols interleaved: BUY 100 AAPL @ 150.50, BUY 25 TSLA @
    220.75, SELL 50 AAPL @ 155.25 (commission 1), SELL 40 TSLA @ 210
    (commission 1), SELL 60 AAPL @ 149 (commission 1). *)
Definition two_symbol_fills : list Trade :=
  [ {| trade_pk := 1; account_id := 1; symbol := "AAPL";
       quantity := mkDecimal 10000000000 (-8); price := mkDecimal 1505000 (-4);
       side := "BUY"; trade_date := datetime_of 2025 1 10 10 0 0;
       commission := Some (mkDecimal 0 (-4)) |};
    {| trade_pk := 2; account_id := 1; symbol := "TSLA";
       quantity := mkDecimal 2500000000 (-8); price := mkDecimal 2207500 (-4);
       side := "BUY"; trade_date := datetime_of 2025 1 10 11 0 0;
       commission := Some (mkDecimal 0 (-4)) |};
    {| trade_pk := 3; account_id := 1; symbol := "AAPL";
       quantity := mkDecimal 5000000000 (-8); price := mkDecimal 1552500 (-4);
       side := "SELL"; trade_date := datetime_of 2025 1 11 10 0 0;
       commission := Some (mkDecimal 10000 (-4)) |};
    {| trade_pk := 4; account_id := 1; symbol := "TSLA";
       quantity := mkDecimal 4000000000 (-8); price := mkDecimal 2100000 (-4);
       side := "SELL"; trade_date := datetime_of 2025 1 12 10 0 0;
       commission := Some (mkDecimal 10000 (-4)) |};
    {| trade_pk := 5; account_id := 1; symbol := "AAPL";
       quantity := mkDecimal 6000000000 (-8); price := mkDecimal 1490000 (-4);
       side := "SELL"; trade_date := datetime_of 2025 1 13 10 0 0;
       commission := Some (mkDecimal 10000 (-4)) |} ].

(** The fill [t] with its commission replaced by [f t]. *)
Definition with_commission (f : Trade -> option Decimal) (t : Trade) : Trade :=
  {| trade_pk := trade_pk t; account_id := account_id t; symbol := symbol t;
     quantity := quantity t; price := price t; side := side t;
     trade_date := trade_date t; commission := f t |}.

(** The notional size of a fill, [t.price * t.quantity]. *)
Definition notional (t : Trade) : Decimal := d_mul (price t) (quantity t).

(** BUY 50 @ 10, SELL 80 @ 12, BUY 30 @ 11: the second BUY meets the
    position of -30 that the dashboard keeps after the oversell. *)
Definition oversell_then_rebuy : list Trade :=
  [ {| trade_pk := 1; account_id := 1; symbol := "XYZ";
       quantity := mkDecimal 5000000000 (-8); price := mkDecimal 100000 (-4);
       side := "BUY"; trade_date := datetime_of 2025 3 3 9 30 0;
       commission := Some (mkDecimal 0 (-4)) |};
    {| trade_pk := 2; account_id := 1; symbol := "XYZ";
       quantity := mkDecimal 8000000000 (-8); price := mkDecimal 120000 (-4);
       side := "SELL"; trade_date := datetime_of 2025 3 4 9 30 0;
       commission := Some (mkDecimal 10000 (-4)) |};
    {| trade_pk := 3; account_id := 1; symbol := "XYZ";
       quantity := mkDecimal 3000000000 (-8); price := mkDecimal 110000 (-4);
       side := "BUY"; trade_date := datetime_of 2025 3 5 9 30 0;
       commission := Some (mkDecimal 0 (-4)) |} ].

(** Pairs of period selectors, a shorter window and a longer one. *)
Definition nested_periods : list (string * string) :=
  [ ("1m", "3m"); ("3m", "6m"); ("6m", "1y");
    ("1m", "all"); ("3m", "all"); ("6m", "all"); ("1y", "all");
    ("ytd", "all") ].

(** The selectors that [_get_cutoff_date] and the entry point know. *)
Definition known_periods : list string :=
  [ "all"; "1m"; "3m"; "6m"; "1y"; "ytd" ].

(** A data base whose two trades are dated 2025-01-10 and 2025-05-20,
    read on 2025-06-01. *)
Definition two_date_service : TradeLogService :=
  {| db := {| trade_accounts := [ {| account_pk := 1; user_id := 7 |} ];
              trades :=
                [ {| trade_pk := 1; account_id := 1; symbol := "AAPL";
                     quantity := mkDecimal 10000000000 (-8);
                     price := mkDecimal 1505000 (-4);
                     side := "BUY";
                     trade_date := datetime_of 2025 1 10 10 0 0;
                     commission := Some (mkDecimal 0 (-4)) |};
                  {| trade_pk := 2; account_id := 1; symbol := "AAPL";
                     quantity := mkDecimal 5000000000 (-8);
                     price := mkDecimal 1552500 (-4);
                     side := "SELL";
                     trade_date := datetime_of 2025 5 20 10 0 0;
                     commission := Some (mkDecimal 10000 (-4)) |} ];
              trade_tags := [];
              trade_tag_associations := [];
              association_order := fun _ => 0 |};
     wall_clock := datetime_of 2025 6 1 12 0 0 |}.

(** The state in which the dashboard starts on the fills of a symbol,
    the totals carried over. *)
Definition dash_start (totals : Decimal * Z) : DashState :=
  {| position := Decimal_of_int 0;
     dash_avg_price := Decimal_of_int 0;
     dash_total_pnl := fst totals;
     winning_trades := snd totals |}.

(** The P&L that the dashboard books for a closing fill. *)
Definition dash_pnl (trade : Trade) (st : DashState) : Decimal :=
  d_mul (d_sub (price trade) (dash_avg_price st))
    (py_min (quantity trade) (position st)).

(** The fill at index [i] of the time-ordered fills of a symbol is a
    winning trade of the dashboard: it is not a BUY, the dashboard loop
    over the fills before it returns with a position above 0, and the
    P&L booked for the fill is above 0. *)
Definition dash_winner (fills : list Trade) (i : nat) : Prop :=
  exists trade st,
    nth_error fills i = Some trade
    /\ is_BUY trade = false
    /\ for_each dash_process_trade (firstn i fills) (dash_start (d_zero, 0))
       = Return st
    /\ d_gtb (position st) d_zero = true
    /\ d_gtb (dash_pnl trade st) d_zero = true.

(** For each symbol, in the order of the first fills, the indices of
    the winning trades among its time-ordered fills. *)
Definition dash_winners (trades : list Trade) (winners : list (list nat))
  : Prop :=
  Forall2
    (fun group ws =>
       StronglySorted Nat.lt ws
       /\ forall i, In i ws <-> dash_winner (sort_by_trade_date (snd group)) i)
    (group_by symbol trades) winners.

(** Two dashboard states with the same open lot. *)
Definition same_lot (a b : DashState) : Prop :=
  position a = position b /\ dash_avg_price a = dash_avg_price b.

(* ===================================================================== *)
(** * CSV import ([import_from_csv], [_parse_ibkr_csv_row]) *)
(* ===================================================================== *)

(** [HTTPException(status_code=..., detail=...)], which the service
    raises itself. *)
Record HTTPException : Type := {
  status_code : Z;
  detail : string
}.

(** The outcome of a service method that can raise an HTTPException. *)
Inductive http_result (A : Type) : Type :=
| Ok (a : A)
| HTTPError (e : HTTPException).
Arguments Ok {A} a.
Arguments HTTPError {A} e.

(** [schemas.CSVImportResult] *)
Module CSVImportResult.
Record t : Type := {
  imported_count : Z;
  error_count : Z;
  errors : list string
}.
End CSVImportResult.

(** [line.startswith(prefix)] *)
Definition startswith (line start : string) : bool := String.prefix start line.

Definition is_header_line (line : string) : bool :=
  startswith line "Trades,Header,".
Definition is_data_line (line : string) : bool :=
  startswith line "Trades,Data,".
Definition is_trades_line (line : string) : bool :=
  startswith line "Trades,".

(** The loop over the lines of the file: a header line is kept and
    opens the section; in the section a data line is kept, a line that
    does not start with [Trades,] ends the loop, and any other line is
    passed over. *)
Fixpoint select_trade_lines (lines : list string)
  (trades_section_started : bool) (trade_lines : list string) : list string :=
  match lines with
  | [] => trade_lines
  | line :: rest =>
      if is_header_line line then
        select_trade_lines rest true (trade_lines ++ [line])
      else if trades_section_started && is_data_line line then
        select_trade_lines rest trades_section_started (trade_lines ++ [line])
      else if trades_section_started && negb (is_trades_line line) then
        trade_lines
      else
        select_trade_lines rest trades_section_started trade_lines
  end.

Definition csv_trade_lines (lines : list string) : list string :=
  select_trade_lines lines false [].

(** A row of [csv.DictReader]: the cells by column name, a cell that
    the line does not have being [None]. *)
Definition Row : Type := list (string * option string).

(** [row.get(key, default)]; the result is [None] for Python's None. *)
Fixpoint row_get (row : Row) (key : string) (default : option string)
  : option string :=
  match row with
  | [] => default
  | (k, v) :: row' => if String.eqb k key then v else row_get row' key default
  end.

(** [str(x)] of a cell. *)
Definition str_of_cell (x : option string) : string :=
  match x with
  | Some s => s
  | None => "None"
  end.

(** [x != s] of a cell and a string. *)
Definition cell_differs (x : option string) (s : string) : bool :=
  match x with
  | Some s' => negb (String.eqb s' s)
  | None => true
  end.

(** What the import takes from Python's library.  [Decimal(s)],
    [abs(d)], [d > 0] and [datetime.strptime(s, '%Y-%m-%d;%H:%M:%S')]
    either return ([inr]) or raise, and then only the message of the
    exception matters ([inl]); Decimal objects include the special
    values.  [DictReader] gives the rows read from the lines joined by
    newlines. *)
Record PyLibrary : Type := {
  PyDecimalValue : Type;
  Decimal_of_str : string -> (string + PyDecimalValue)%type;
  Decimal_abs : PyDecimalValue -> (string + PyDecimalValue)%type;
  Decimal_gt_zero : PyDecimalValue -> (string + bool)%type;
  strptime : string -> (string + datetime)%type;
  str_strip : string -> string;
  DictReader : list string -> list Row
}.

(** The dictionary that [_parse_ibkr_csv_row] returns. *)
Module TradeData.
Record t (D : Type) : Type := {
  symbol : string;
  quantity : D;
  price : D;
  side : string;
  trade_date : datetime;
  commission : D;
  currency : option string;
  exchange : string;
  order_type : string
}.
Arguments symbol {D} _.
Arguments quantity {D} _.
Arguments price {D} _.
Arguments side {D} _.
Arguments trade_date {D} _.
Arguments commission {D} _.
Arguments currency {D} _.
Arguments exchange {D} _.
Arguments order_type {D} _.
End TradeData.

(** Sequencing of steps that raise with a message. *)
Definition and_then {A B} (m : (string + A)%type)
  (k : A -> (string + B)%type) : (string + B)%type :=
  match m with
  | inl msg => inl msg
  | inr a => k a
  end.

(** [except Exception as e: raise ValueError(f"Invalid data in CSV row:
    {e}")] *)
Definition wrap_invalid_row {A} (m : (string + A)%type) : (string + A)%type :=
  match m with
  | inl msg => inl ("Invalid data in CSV row: " ++ msg)%string
  | inr a => inr a
  end.

(** [datetime.strptime] of a cell; None is not a string. *)
Definition strptime_cell (py : PyLibrary) (x : option string)
  : (string + datetime)%type :=
  match x with
  | Some s => strptime py s
  | None => inl "strptime() argument 1 must be str, not None"
  end.

(** [x.strip()] of a cell; None has no such method. *)
Definition strip_cell (py : PyLibrary) (x : option string)
  : (string + string)%type :=
  match x with
  | Some s => inr (str_strip py s)
  | None => inl "'NoneType' object has no attribute 'strip'"
  end.

(** The body of the [try] of [_parse_ibkr_csv_row], in evaluation
    order. *)
Definition parse_row_body (py : PyLibrary) (row : Row)
  : (string + TradeData.t (PyDecimalValue py))%type :=
  if cell_differs (row_get row "Header" None) "Data" then
    inl "Not a trade data row"
  else if cell_differs (row_get row "Asset Category" None) "Stocks" then
    inl "Not a stock trade"
  else
    and_then (Decimal_of_str py (str_of_cell (row_get row "Quantity" (Some "0"))))
      (fun quantity =>
    and_then (Decimal_of_str py (str_of_cell (row_get row "T. Price" (Some "0"))))
      (fun price =>
    and_then (Decimal_of_str py (str_of_cell (row_get row "Comm/Fee" (Some "0"))))
      (fun fee =>
    and_then (Decimal_abs py fee)
      (fun commission =>
    let date_time_str := row_get row "Date/Time" (Some "") in
    and_then (strptime_cell py date_time_str)
      (fun trade_date =>
    and_then (strip_cell py (row_get row "Symbol" (Some "")))
      (fun symbol =>
    and_then (Decimal_abs py quantity)
      (fun abs_quantity =>
    and_then (Decimal_gt_zero py quantity)
      (fun is_long =>
    inr {| TradeData.symbol := symbol;
           TradeData.quantity := abs_quantity;
           TradeData.price := price;
           TradeData.side := if is_long then "BUY" else "SELL";
           TradeData.trade_date := trade_date;
           TradeData.commission := commission;
           TradeData.currency := row_get row "Currency" (Some "USD");
           TradeData.exchange := "";
           TradeData.order_type := "MKT" |})))))))).

Definition _parse_ibkr_csv_row (py : PyLibrary) (row : Row)
  : (string + TradeData.t (PyDecimalValue py))%type :=
  wrap_invalid_row (parse_row_body py row).

(** The trades handed to [db.add], each with the account it is booked
    on; whether [db.commit] is called; and the returned summary. *)
Record ImportOutcome (py : PyLibrary) : Type := {
  added : list (Z * TradeData.t (PyDecimalValue py));
  committed : bool;
  import_result : CSVImportResult.t
}.
Arguments added {py} _.
Arguments committed {py} _.
Arguments import_result {py} _.

(** One iteration of the loop over the rows. *)
Definition import_row (py : PyLibrary) (account_id : Z)
  (acc : list (Z * TradeData.t (PyDecimalValue py)) * list string)
  (item : nat * Row)
  : list (Z * TradeData.t (PyDecimalValue py)) * list string :=
  let '(imported_trades, errors) := acc in
  let '(row_num, row) := item in
  match _parse_ibkr_csv_row py row with
  | inr trade_data => (imported_trades ++ [(account_id, trade_data)], errors)
  | inl msg =>
      (imported_trades,
       errors ++ [("Row " ++ str_of_int (Z.of_nat row_num) ++ ": " ++ msg)%string])
  end.

Definition import_rows (py : PyLibrary) (account_id : Z) (rows : list Row)
  : list (Z * TradeData.t (PyDecimalValue py)) * list string :=
  fold_left (import_row py account_id) (enumerate_from 1 rows) ([], []).

(** [db.query(TradeAccount).filter(and_(TradeAccount.id == account_id,
    TradeAccount.user_id == user_id)).first()] *)
Definition query_account (self : TradeLogService) (account_id uid : Z)
  : option TradeAccount :=
  find (fun a => (account_pk a =? account_id) && (user_id a =? uid))
    (trade_accounts (db self)).

(** [import_from_csv], from the lines of the decoded file
    ([csv_content.strip().split('\n')]) on. *)
Definition import_from_csv (py : PyLibrary) (self : TradeLogService)
  (lines : list string) (account_id uid : Z) : http_result (ImportOutcome py) :=
  match query_account self account_id uid with
  | None =>
      HTTPError {| status_code := 404; detail := "Trade account not found" |}
  | Some _ =>
      let trade_lines := csv_trade_lines lines in
      if negb (truthy trade_lines) then
        Ok {| added := [];
              committed := false;
              import_result :=
                {| CSVImportResult.imported_count := 0;
                   CSVImportResult.error_count := 1;
                   CSVImportResult.errors :=
                     ["No trades section found in CSV file"] |} |}
      else
        let '(imported_trades, errors) :=
          import_rows py account_id (DictReader py trade_lines) in
        Ok {| added := imported_trades;
              committed := truthy imported_trades;
              import_result :=
                {| CSVImportResult.imported_count := len imported_trades;
                   CSVImportResult.error_count := len errors;
                   CSVImportResult.errors := errors |} |}
  end.

(** [itertools.takewhile] and [dropwhile]. *)
Fixpoint take_while {A} (p : A -> bool) (l : list A) : list A :=
  match l with
  | [] => []
  | x :: l' => if p x then x :: take_while p l' else []
  end.

Fixpoint drop_while {A} (p : A -> bool) (l : list A) : list A :=
  match l with
  | [] => []
  | x :: l' => if p x then drop_while p l' else l
  end.

(** The trades section of a file: from the first header line on, the
    header and data lines among the lines that start with [Trades,], up
    to the first line that does not. *)
Definition trades_section (lines : list string) : list string :=
  match drop_while (fun line => negb (is_header_line line)) lines with
  | [] => []
  | header :: rest =>
      header
      :: filter (fun line => is_header_line line || is_data_line line)
           (take_while is_trades_line rest)
  end.

(** [s] begins with [start]. *)
Definition begins_with (start s : string) : Prop :=
  exists rest, s = (start ++ rest)%string.

(** A stand-in for the library, for the examples: unsigned or negative
    decimal literals without exponent, timestamps of the fixed width
    [YYYY-MM-DD;HH:MM:SS] with a day up to 28, blanks stripped, and
    cells separated by commas without quoting. *)
Fixpoint split_on (sep : ascii) (s : string) : list string :=
  match s with
  | EmptyString => [EmptyString]
  | String c s' =>
      if Ascii.eqb c sep then EmptyString :: split_on sep s'
      else
        match split_on sep s' with
        | [] => [String c EmptyString]
        | w :: ws => String c w :: ws
        end
  end.

Fixpoint zip_cells (names values : list string) : Row :=
  match names with
  | [] => []
  | n :: names' =>
      match values with
      | [] => (n, None) :: zip_cells names' []
      | v :: values' => (n, Some v) :: zip_cells names' values'
      end
  end.

Definition sample_DictReader (lines : list string) : list Row :=
  match lines with
  | [] => []
  | header :: rows =>
      map (fun line => zip_cells (split_on "," header) (split_on "," line)) rows
  end.

Definition unsigned_literal (s : string) : option Decimal :=
  match split_on "." s with
  | [whole] =>
      match DecimalString.NilEmpty.uint_of_string whole with
      | Some u => Some (mkDecimal (Z.of_N (N.of_uint u)) 0)
      | None => None
      end
  | [whole; frac] =>
      match DecimalString.NilEmpty.uint_of_string (whole ++ frac) with
      | Some u =>
          Some (mkDecimal (Z.of_N (N.of_uint u))
                  (- Z.of_nat (String.length frac)))
      | None => None
      end
  | _ => None
  end.

Definition sample_Decimal_of_str (s : string) : (string + Decimal)%type :=
  let literal :=
    match s with
    | String c s' =>
        if Ascii.eqb c "-" then option_map d_copy_negate (unsigned_literal s')
        else unsigned_literal s
    | EmptyString => None
    end in
  match literal with
  | Some d => inr d
  | None => inl "[<class 'decimal.ConversionSyntax'>]"
  end.

Definition digit_of (c : ascii) : option Z :=
  let n := Z.of_N (N_of_ascii c) - 48 in
  if (0 <=? n) && (n <=? 9) then Some n else None.

Fixpoint number_of (cs : list ascii) (acc : Z) : option Z :=
  match cs with
  | [] => Some acc
  | c :: cs' =>
      match digit_of c with
      | Some n => number_of cs' (10 * acc + n)
      | None => None
      end
  end.

Definition sample_strptime (s : string) : (string + datetime)%type :=
  let mismatch :=
    inl ("time data '" ++ s
         ++ "' does not match format '%Y-%m-%d;%H:%M:%S'")%string in
  match list_ascii_of_string s with
  | [y1; y2; y3; y4; c1; m1; m2; c2; d1; d2; c3;
     h1; h2; c4; n1; n2; c5; s1; s2] =>
      match number_of [y1; y2; y3; y4] 0, number_of [m1; m2] 0,
            number_of [d1; d2] 0, number_of [h1; h2] 0,
            number_of [n1; n2] 0, number_of [s1; s2] 0 with
      | Some y, Some m, Some d, Some h, Some n, Some sec =>
          if Ascii.eqb c1 "-" && Ascii.eqb c2 "-" && Ascii.eqb c3 ";"
             && Ascii.eqb c4 ":" && Ascii.eqb c5 ":"
             && (1 <=? y) && (1 <=? m) && (m <=? 12) && (1 <=? d) && (d <=? 28)
             && (h <=? 23) && (n <=? 59) && (sec <=? 59)
          then inr (datetime_of y m d h n sec)
          else mismatch
      | _, _, _, _, _, _ => mismatch
      end
  | _ => mismatch
  end.

Definition is_blank (c : ascii) : bool :=
  Ascii.eqb c " " || Ascii.eqb c "009" || Ascii.eqb c "010"
  || Ascii.eqb c "013".

Fixpoint lstrip (s : string) : string :=
  match s with
  | String c s' => if is_blank c then lstrip s' else s
  | EmptyString => EmptyString
  end.

Fixpoint rstrip (s : string) : string :=
  match s with
  | EmptyString => EmptyString
  | String c s' =>
      match rstrip s' with
      | EmptyString => if is_blank c then EmptyString else String c EmptyString
      | r => String c r
      end
  end.

Definition sample_library : PyLibrary :=
  {| PyDecimalValue := Decimal;
     Decimal_of_str := sample_Decimal_of_str;
     Decimal_abs := fun d => inr (d_abs d);
     Decimal_gt_zero := fun d => inr (d_gtb d d_zero);
     strptime := sample_strptime;
     str_strip := fun s => lstrip (rstrip s);
     DictReader := sample_DictReader |}.

(** A statement with an account line, a trades section of three data
    rows (a buy, a sale, and an option trade that the import rejects), a
    subtotal line, and a line of the next section. *)
Definition sample_statement : list string :=
  [ "Account Information,Data,Name,Test";
    "Trades,Header,DataDiscriminator,Asset Category,Currency,Symbol,Date/Time,Quantity,T. Price,Comm/Fee";
    "Trades,Data,Order,Stocks,USD,AAPL,2025-04-09;14:18:37,100,150.50,-1";
    "Trades,Data,Order,Stocks,USD,AAPL,2025-04-10;09:30:00,-100,155.25,-1";
    "Trades,Data,Order,Equity and Index Options,USD,AAPL 250620C,2025-04-10;09:31:00,1,2.35,-0.65";
    "Trades,SubTotal,,Stocks,USD,AAPL,,0,,-2";
    "Dividends,Header,Currency,Date,Description,Amount";
    "Trades,Data,Order,Stocks,USD,MSFT,2025-04-11;10:00:00,5,400,-1" ].

(** The service of a data base in which user 7 owns account 1. *)
Definition one_account_service : TradeLogService :=
  {| db := {| trade_accounts := [ {| account_pk := 1; user_id := 7 |} ];
              trades := [];
              trade_tags := [];
              trade_tag_associations := [];
              association_order := fun _ => 0 |};
     wall_clock := datetime_of 2025 6 1 12 0 0 |}.

(** The trades that the rows of a file give, and the messages for the
    numbered rows that give none. *)
Definition trades_of_rows (py : PyLibrary) (account_id : Z) (rows : list Row)
  : list (Z * TradeData.t (PyDecimalValue py)) :=
  flat_map
    (fun row =>
       match _parse_ibkr_csv_row py row with
       | inr trade_data => [(account_id, trade_data)]
       | inl _ => []
       end)
    rows.

Definition errors_of_rows (py : PyLibrary) (numbered : list (nat * Row))
  : list string :=
  flat_map
    (fun item : nat * Row =>
       match _parse_ibkr_csv_row py (snd item) with
       | inr _ => []
       | inl msg =>
           [("Row " ++ str_of_int (Z.of_nat (fst item)) ++ ": " ++ msg)%string]
       end)
    numbered.

(** The summary for a file without trades section. *)
Definition no_trades_section : CSVImportResult.t :=
  {| CSVImportResult.imported_count := 0;
     CSVImportResult.error_count := 1;
     CSVImportResult.errors := ["No trades section found in CSV file"] |}.

(** The fill at index [i] of the time-ordered fills [fills] of the
    symbol [sym] emits an entry: it is not a BUY, and the loop over the
    fills before it returns with a quantity open. *)
Definition emits (self : TradeLogService) (sym : string)
  (fills : list Trade) (i : nat) : Prop :=
  exists sell st,
    nth_error fills i = Some sell
    /\ is_BUY sell = false
    /\ symbol_loop self sym fills (firstn i (enumerate fills))
         (initial_state []) = Return st
    /\ d_gtb (position_qty st) d_zero = true.

(** [e] is an entry of the fill at index [i], which has a BUY before
    it: the entry has the symbol of the loop and the timestamp and
    price of the fill, the tags of the most recent BUY at an index
    below [i], and for holding time the time elapsed since that BUY. *)
Definition opened_at (self : TradeLogService) (sym : string)
  (fills : list Trade) (i : nat) (e : ClosedPosition) : Prop :=
  exists sell j b,
    nth_error fills i = Some sell
    /\ pos_symbol e = sym
    /\ close_date e = trade_date sell
    /\ exit_price e = price sell
    /\ is_last_buy_before fills i j b
    /\ tags e = query_tag_names self b
    /\ hold_time e = trade_date sell - trade_date b.

(** [e] is an entry of the fill at index [i] with the attribution of
    the rule: tags and holding time from the most recent BUY at an
    index below [i], no tags and no time when there is no such BUY. *)
Definition attributed_at (self : TradeLogService) (sym : string)
  (fills : list Trade) (i : nat) (e : ClosedPosition) : Prop :=
  exists sell,
    nth_error fills i = Some sell
    /\ pos_symbol e = sym
    /\ close_date e = trade_date sell
    /\ exit_price e = price sell
    /\ ((exists j b,
           is_last_buy_before fills i j b
           /\ tags e = query_tag_names self b
           /\ hold_time e = trade_date sell - trade_date b)
        \/ (no_buy_before fills i /\ tags e = [] /\ hold_time e = 0)).

(** The entries are those of the emitting fills, one for each, in the
    order of the fills: the k-th entry belongs to the k-th fill that
    emits, as [P] says. *)
Definition one_entry_per_emitting_fill
  (P : TradeLogService -> string -> list Trade -> nat -> ClosedPosition -> Prop)
  (self : TradeLogService) (sym : string) (fills : list Trade)
  (entries : list ClosedPosition) : Prop :=
  exists emitting : list nat,
    StronglySorted Nat.lt emitting
    /\ (forall i, In i emitting <-> emits self sym fills i)
    /\ Forall2 (P self sym fills) emitting entries.

(** The result of position reconstruction split by symbol: the entries
    of each group of fills, the groups in the order of their first
    fill, each group put in time order and related to its entries by
    [Q]. *)
Definition entries_by_symbol
  (Q : string -> list Trade -> list ClosedPosition -> Prop)
  (trades : list Trade) (results : list ClosedPosition) : Prop :=
  exists per_symbol : list (list ClosedPosition),
    results = List.concat per_symbol
    /\ Forall2
         (fun group entries =>
            Q (fst group) (sort_by_trade_date (snd group)) entries)
         (group_by symbol trades) per_symbol.

(** BUY 100 @ 10 on one day, then SELL 50 @ 12, BUY 10 @ 11 and SELL
    20 @ 13 the day after, all three at one timestamp: the sort keeps
    them in this order. *)
Definition same_time_fills : list Trade :=
  [ {| trade_pk := 1; account_id := 1; symbol := "XYZ";
       quantity := mkDecimal 10000000000 (-8); price := mkDecimal 100000 (-4);
       side := "BUY"; trade_date := datetime_of 2025 3 3 9 30 0;
       commission := Some (mkDecimal 0 (-4)) |};
    {| trade_pk := 2; account_id := 1; symbol := "XYZ";
       quantity := mkDecimal 5000000000 (-8); price := mkDecimal 120000 (-4);
       side := "SELL"; trade_date := datetime_of 2025 3 4 9 30 0;
       commission := Some (mkDecimal 0 (-4)) |};
    {| trade_pk := 3; account_id := 1; symbol := "XYZ";
       quantity := mkDecimal 1000000000 (-8); price := mkDecimal 110000 (-4);
       side := "BUY"; trade_date := datetime_of 2025 3 4 9 30 0;
       commission := Some (mkDecimal 0 (-4)) |};
    {| trade_pk := 4; account_id := 1; symbol := "XYZ";
       quantity := mkDecimal 2000000000 (-8); price := mkDecimal 130000 (-4);
       side := "SELL"; trade_date := datetime_of 2025 3 4 9 30 0;
       commission := Some (mkDecimal 0 (-4)) |} ].

(** [same_time_fills] with the first BUY tagged "first" and the second
    BUY tagged "second". *)
Definition same_time_service : TradeLogService :=
  {| db := {| trade_accounts := [ {| account_pk := 1; user_id := 7 |} ];
              trades := same_time_fills;
              trade_tags := [ {| tag_pk := 5; name := "first" |};
                              {| tag_pk := 6; name := "second" |} ];
              trade_tag_associations :=
                [ {| trade_id := 1; tag_id := 5 |};
                  {| trade_id := 3; tag_id := 6 |} ];
              association_order := fun _ => 0 |};
     wall_clock := datetime_of 2025 6 1 12 0 0 |}.

(** A position is open after [k] fills only if a BUY is among them. *)
Definition open_only_after_buy (symbol_trades : list Trade) (k : nat)
  (st : LoopState) : Prop :=
  d_gtb (position_qty st) d_zero = true ->
  filter is_BUY (firstn k symbol_trades) <> [].

(* ===================================================================== *)
(** * Deleting a trade ([delete_trade]) *)
(* ===================================================================== *)

(** The service on another state of the data base. *)
Definition with_db (self : TradeLogService) (s : Session) : TradeLogService :=
  {| db := s; wall_clock := wall_clock self |}.

(** [db.query(Trade).join(TradeAccount).filter(and_(Trade.id ==
    trade_id, TradeAccount.user_id == user_id)).first()] *)
Definition query_user_trade (self : TradeLogService) (id uid : Z)
  : option Trade :=
  find (fun t => trade_pk t =? id) (query_user_trades self uid).

(** [db.delete(trade)] and [db.commit()]: the row of the trade goes,
    and by the cascade of [Trade.tags] the association rows of the
    trade go with it.  (The journal entries of the trade, which no
    computation here reads, go likewise.) *)
Definition db_delete_trade (s : Session) (trade : Trade) : Session :=
  {| trade_accounts := trade_accounts s;
     trades := filter (fun t => negb (trade_pk t =? trade_pk trade)) (trades s);
     trade_tags := trade_tags s;
     trade_tag_associations :=
       filter (fun ta => negb (trade_id ta =? trade_pk trade))
         (trade_tag_associations s);
     association_order := association_order s |}.

Definition delete_trade (self : TradeLogService) (id uid : Z)
  : http_result Session :=
  match query_user_trade self id uid with
  | None => HTTPError {| status_code := 404; detail := "Trade not found" |}
  | Some trade => Ok (db_delete_trade (db self) trade)
  end.

(** The key constraints of the schema: primary keys of accounts and of
    trades are unique. *)
Definition unique_keys (s : Session) : Prop :=
  NoDup (map account_pk (trade_accounts s))
  /\ NoDup (map trade_pk (trades s)).

(** User 7 owns account 1 with the two fills of scenario A, the first
    of them tagged; user 8 owns account 2 with one fill. *)
Definition two_user_db : Session :=
  {| trade_accounts := [ {| account_pk := 1; user_id := 7 |};
                         {| account_pk := 2; user_id := 8 |} ];
     trades :=
       scenario_A
       ++ [ {| trade_pk := 3; account_id := 2; symbol := "MSFT";
               quantity := mkDecimal 500000000 (-8);
               price := mkDecimal 4000000 (-4);
               side := "BUY";
               trade_date := datetime_of 2025 4 11 10 0 0;
               commission := Some (mkDecimal 10000 (-4)) |} ];
     trade_tags := [ {| tag_pk := 5; name := "swing" |} ];
     trade_tag_associations := [ {| trade_id := 1; tag_id := 5 |} ];
     association_order := fun _ => 0 |}.

Definition two_user_service : TradeLogService :=
  {| db := two_user_db; wall_clock := datetime_of 2025 6 1 12 0 0 |}.

(* ===================================================================== *)
(** * Facts about the error monad and the loops *)
(* ===================================================================== *)

Lemma for_each_app {A S} (body : A -> S -> result S) (l1 l2 : list A) (s : S) :
  for_each body (l1 ++ l2) s
  = (s' <- for_each body l1 s ;; for_each body l2 s').
Proof.
  revert s; induction l1 as [|x l1 IH]; intros s; simpl.
  - reflexivity.
  - destruct (body x s) as [s'|e]; simpl; [apply IH | reflexivity].
Qed.

Lemma for_each_ext {A S} (f g : A -> S -> result S) (l : list A) (s : S) :
  (forall x s', In x l -> f x s' = g x s') ->
  for_each f l s = for_each g l s.
Proof.
  revert s; induction l as [|x l IH]; intros s H; simpl.
  - reflexivity.
  - rewrite (H x s (or_introl eq_refl)).
    destruct (g x s); simpl; [|reflexivity].
    apply IH; intros; apply H; right; assumption.
Qed.

Lemma map_result_raise {A B} (f : A -> result B) (x : A) (l : list A) (e : exn) :
  f x = Raise e -> map_result f (x :: l) = Raise e.
Proof. intros H; simpl; rewrite H; reflexivity. Qed.

Lemma insert_sorted_Forall {A} (P : A -> Prop) (ltb : A -> A -> bool)
  (x : A) (l : list A) :
  P x -> Forall P l -> Forall P (insert_sorted ltb x l).
Proof.
  intros Hx. induction 1 as [|y l Hy Hl IH]; cbn [insert_sorted].
  - constructor; [exact Hx|constructor].
  - destruct (ltb x y); repeat (constructor; try assumption).
Qed.

Lemma insert_sorted_truthy {A} (ltb : A -> A -> bool) (x : A) (l : list A) :
  truthy (insert_sorted ltb x l) = true.
Proof. destruct l as [|y l]; cbn; [reflexivity|]. destruct (ltb x y); reflexivity. Qed.

Lemma stable_sort_Forall {A} (P : A -> Prop) (ltb : A -> A -> bool)
  (l : list A) :
  Forall P l ->
  Forall P (stable_sort ltb l)
  /\ (truthy l = true -> truthy (stable_sort ltb l) = true).
Proof.
  unfold stable_sort. intros Hl.
  assert (Hgen : forall acc, Forall P acc ->
    Forall P (fold_left (fun sorted x => insert_sorted ltb x sorted) l acc)
    /\ (truthy l = true \/ truthy acc = true ->
        truthy (fold_left (fun sorted x => insert_sorted ltb x sorted) l acc)
        = true)).
  { induction Hl as [|x l Hx Hl IH]; intros acc Hacc; cbn [fold_left].
    - split; [exact Hacc|]. intros [H|H]; [discriminate|exact H].
    - destruct (IH (insert_sorted ltb x acc)
                  (insert_sorted_Forall P ltb x acc Hx Hacc)) as [H1 H2].
      split; [exact H1|]. intros _. apply H2. right.
      apply insert_sorted_truthy. }
  destruct (Hgen [] (Forall_nil _)) as [H1 H2]. split; [exact H1|]. auto.
Qed.

Lemma StronglySorted_nth_error {A} (R : A -> A -> Prop) (l : list A) :
  StronglySorted R l ->
  forall (j i : nat) (a b : A),
  (j < i)%nat -> nth_error l j = Some a -> nth_error l i = Some b -> R a b.
Proof.
  induction 1 as [|x l Hs IH Hall]; intros j i a b Hji Ha Hb.
  - destruct j; discriminate.
  - destruct i as [|i]; [lia|]. cbn in Hb. destruct j as [|j]; cbn in Ha.
    + injection Ha as <-. rewrite Forall_forall in Hall. apply Hall.
      eapply nth_error_In. exact Hb.
    + apply (IH j i); [lia | exact Ha | exact Hb].
Qed.

Lemma StronglySorted_snoc {A} (R : A -> A -> Prop) (l : list A) (a : A) :
  StronglySorted R l -> Forall (fun x => R x a) l ->
  StronglySorted R (l ++ [a]).
Proof.
  induction 1 as [|x l Hs IH Hall]; intros Hlt; cbn [app].
  - repeat constructor.
  - apply Forall_cons_iff in Hlt. destruct Hlt as [Hx Hlt].
    constructor; [apply IH; exact Hlt|].
    apply Forall_app. split; [exact Hall|]. constructor; [exact Hx|constructor].
Qed.

(* ===================================================================== *)
(** * Facts about Decimal *)
(* ===================================================================== *)

Lemma pow10_pos (k : Z) : 0 <= k -> 0 < 10 ^ k.
Proof. intros; apply Z.pow_pos_nonneg; lia. Qed.

(** The digit count brackets its argument between powers of ten. *)
Lemma ndigits_fuel_spec (fuel : nat) :
  forall n, 0 < n -> n < 10 ^ (Z.of_nat fuel + 1) ->
  1 <= ndigits_fuel fuel n
  /\ 10 ^ (ndigits_fuel fuel n - 1) <= n < 10 ^ ndigits_fuel fuel n.
Proof.
  induction fuel as [|f IH]; intros n Hpos Hlt.
  - simpl in *. lia.
  - cbn [ndigits_fuel]. destruct (Z.ltb_spec n 10) as [Hs|Hb].
    + simpl. lia.
    + assert (Hq : 0 < n / 10) by (apply Z.div_str_pos; lia).
      assert (Hql : n / 10 < 10 ^ (Z.of_nat f + 1)).
      { apply Z.div_lt_upper_bound; [lia|].
        replace (Z.of_nat (S f) + 1) with (Z.succ (Z.of_nat f + 1)) in Hlt by lia.
        rewrite Z.pow_succ_r in Hlt by lia. exact Hlt. }
      destruct (IH (n / 10) Hq Hql) as [H1 [Hlo Hhi]].
      set (d := ndigits_fuel f (n / 10)) in *.
      split; [lia|].
      replace (1 + d - 1) with (Z.succ (d - 1)) by lia.
      replace (1 + d) with (Z.succ d) by lia.
      rewrite !Z.pow_succ_r by lia.
      pose proof (Z.mul_div_le n 10 ltac:(lia)).
      pose proof (Z.mod_pos_bound n 10 ltac:(lia)).
      pose proof (Z.div_mod n 10 ltac:(lia)).
      lia.
Qed.

Lemma ndigits_spec (n : Z) :
  0 < n -> 1 <= ndigits n /\ 10 ^ (ndigits n - 1) <= n < 10 ^ ndigits n.
Proof.
  intros Hpos. unfold ndigits. apply ndigits_fuel_spec; [exact Hpos|].
  rewrite Z2Nat.id by apply Z.log2_nonneg.
  pose proof (Z.log2_spec n Hpos) as [_ Hup].
  eapply Z.lt_le_trans; [exact Hup|].
  replace (Z.succ (Z.log2 n)) with (Z.log2 n + 1) by lia.
  apply Z.pow_le_mono_l. lia.
Qed.

Lemma round_half_even_ratio_ge (num den : Z) :
  num / den <= round_half_even_ratio num den.
Proof.
  unfold round_half_even_ratio.
  destruct ((den <? 2 * (num mod den))
            || ((den =? 2 * (num mod den)) && Z.odd (num / den))); lia.
Qed.

(** Rounding to the context precision keeps the sign. *)
Lemma _fix_pos (d : Decimal) : 0 < d_coef d -> 0 < d_coef (_fix d).
Proof.
  intros Hpos. unfold _fix.
  destruct (Z.leb_spec (ndigits (Z.abs (d_coef d))) context_prec) as [Hle|Hgt];
    [exact Hpos|].
  rewrite Z.abs_eq in * by lia.
  rewrite Z.sgn_pos by exact Hpos.
  destruct (ndigits_spec (d_coef d) Hpos) as [_ [Hlo _]].
  set (n := ndigits (d_coef d)) in *.
  set (q := round_half_even (d_coef d) (n - context_prec)).
  assert (Hq : 1 <= q).
  { unfold q, round_half_even.
    eapply Z.le_trans; [|apply round_half_even_ratio_ge].
    apply Z.div_le_lower_bound; [apply pow10_pos; lia|].
    rewrite Z.mul_1_r. eapply Z.le_trans; [|exact Hlo].
    apply Z.pow_le_mono_r; unfold context_prec in *; lia. }
  destruct (Z.ltb_spec context_prec (ndigits q)) as [Hc|Hc]; cbn [d_coef].
  - destruct (ndigits_spec q ltac:(lia)) as [_ [Hqlo _]].
    assert (10 ^ 1 <= q).
    { eapply Z.le_trans; [|exact Hqlo].
      apply Z.pow_le_mono_r; unfold context_prec in *; lia. }
    assert (1 <= q / 10) by (apply Z.div_le_lower_bound; lia).
    lia.
  - lia.
Qed.

Lemma _fix_zero (d : Decimal) : d_coef d = 0 -> _fix d = d.
Proof. intros H. unfold _fix. rewrite H. reflexivity. Qed.

Lemma _fix_nonneg (d : Decimal) : 0 <= d_coef d -> 0 <= d_coef (_fix d).
Proof.
  intros H. destruct (Z.eq_dec (d_coef d) 0) as [Hz|Hnz].
  - rewrite _fix_zero by exact Hz. lia.
  - pose proof (_fix_pos d ltac:(lia)). lia.
Qed.

(** Comparison with the integer 0 looks at the coefficient only. *)
Lemma d_cmp_zero_r (a : Decimal) : d_cmp a d_zero = Z.compare (d_coef a) 0.
Proof.
  unfold d_cmp, d_align, d_zero, Decimal_of_int; cbn [d_coef d_exp].
  rewrite Z.mul_0_l.
  assert (Hp : 0 < 10 ^ (d_exp a - Z.min (d_exp a) 0)) by (apply pow10_pos; lia).
  destruct (Z.compare_spec (d_coef a) 0) as [H|H|H].
  - rewrite H. reflexivity.
  - apply Z.compare_lt_iff. nia.
  - apply Z.compare_gt_iff. nia.
Qed.

Lemma d_cmp_antisym (a b : Decimal) : d_cmp b a = CompOpp (d_cmp a b).
Proof.
  unfold d_cmp, d_align. rewrite (Z.min_comm (d_exp b) (d_exp a)).
  apply Z.compare_antisym.
Qed.

Lemma d_gtb_zero (a : Decimal) : d_gtb a d_zero = true <-> 0 < d_coef a.
Proof.
  unfold d_gtb, d_ltb. rewrite d_cmp_antisym, d_cmp_zero_r.
  destruct (Z.compare_spec (d_coef a) 0); simpl; split; intros; (lia || congruence).
Qed.

Lemma d_eqb_zero (a : Decimal) : d_eqb a d_zero = true <-> d_coef a = 0.
Proof.
  unfold d_eqb. rewrite d_cmp_zero_r.
  destruct (Z.compare_spec (d_coef a) 0); simpl; split; intros; (lia || congruence).
Qed.

Lemma d_leb_zero (a : Decimal) : d_leb d_zero a = true <-> 0 <= d_coef a.
Proof.
  unfold d_leb, d_ltb. rewrite d_cmp_zero_r.
  destruct (Z.compare_spec (d_coef a) 0); simpl; split; intros; (lia || congruence).
Qed.

Lemma d_ltb_irrefl (a : Decimal) : d_ltb a a = false.
Proof. unfold d_ltb, d_cmp, d_align. rewrite Z.compare_refl. reflexivity. Qed.

Lemma d_add_pos (a b : Decimal) :
  0 <= d_coef a -> 0 < d_coef b -> 0 < d_coef (d_add a b).
Proof.
  intros Ha Hb. unfold d_add, d_align. apply _fix_pos. cbn [d_coef].
  assert (0 < 10 ^ (d_exp a - Z.min (d_exp a) (d_exp b))) by (apply pow10_pos; lia).
  assert (0 < 10 ^ (d_exp b - Z.min (d_exp a) (d_exp b))) by (apply pow10_pos; lia).
  nia.
Qed.

(** Subtracting something no larger leaves a non-negative value. *)
Lemma d_sub_nonneg (a b : Decimal) :
  d_leb b a = true -> 0 <= d_coef (d_sub a b).
Proof.
  unfold d_leb, d_ltb, d_cmp, d_sub, d_add, d_align, d_copy_negate.
  cbn [d_coef d_exp]. intros H. apply _fix_nonneg. cbn [d_coef].
  destruct (Z.compare_spec
              (d_coef a * 10 ^ (d_exp a - Z.min (d_exp a) (d_exp b)))
              (d_coef b * 10 ^ (d_exp b - Z.min (d_exp a) (d_exp b))));
    simpl in H; try discriminate; lia.
Qed.

Lemma d_sub_self (a : Decimal) : d_coef (d_sub a a) = 0.
Proof.
  unfold d_sub, d_add, d_align, d_copy_negate. cbn [d_coef d_exp].
  rewrite _fix_zero; cbn [d_coef]; lia.
Qed.

Lemma py_min_le_r (a b : Decimal) : d_leb (py_min a b) b = true.
Proof.
  unfold py_min, d_leb. destruct (d_ltb b a) eqn:H.
  - rewrite d_ltb_irrefl. reflexivity.
  - rewrite H. reflexivity.
Qed.

Lemma d_div_nonzero (a b : Decimal) :
  d_coef b <> 0 -> exists q, d_div a b = Return q.
Proof.
  intros Hb. unfold d_div.
  destruct (Z.eqb_spec (d_coef b) 0) as [E|_]; [contradiction|].
  destruct (d_coef a =? 0); [eexists; reflexivity|].
  destruct (0 <=? _); destruct (_ =? 0);
    try destruct (strip_zeros _ _ _ _); eexists; reflexivity.
Qed.

(* ===================================================================== *)
(** * Position reconstruction: the open lot *)
(* ===================================================================== *)

Lemma lot_invariant_coef (st : LoopState) :
  lot_invariant st <->
  0 <= d_coef (position_qty st)
  /\ (d_coef (position_qty st) = 0 -> avg_price st = d_zero).
Proof. unfold lot_invariant. rewrite d_leb_zero, d_eqb_zero. tauto. Qed.

Lemma initial_state_invariant (results : list ClosedPosition) :
  lot_invariant (initial_state results).
Proof. split; reflexivity. Qed.

(** The closing entry is returned exactly when the fill has a
    commission; a NULL commission makes the P&L raise TypeError. *)
Lemma closing_entry_Some (self : TradeLogService) (sym : string)
  (symbol_trades : list Trade) (i : nat) (trade : Trade)
  (qty avg fee : Decimal) :
  commission trade = Some fee ->
  closing_entry self sym symbol_trades i trade qty avg
  = Return (entry_for self sym symbol_trades i trade qty avg fee).
Proof. intros H. unfold closing_entry, entry_for. rewrite H. reflexivity. Qed.

Lemma closing_entry_None (self : TradeLogService) (sym : string)
  (symbol_trades : list Trade) (i : nat) (trade : Trade) (qty avg : Decimal) :
  commission trade = None ->
  closing_entry self sym symbol_trades i trade qty avg = Raise TypeError.
Proof. intros H. unfold closing_entry. rewrite H. reflexivity. Qed.

Lemma closing_entry_Return (self : TradeLogService) (sym : string)
  (symbol_trades : list Trade) (i : nat) (trade : Trade)
  (qty avg : Decimal) (e : ClosedPosition) :
  closing_entry self sym symbol_trades i trade qty avg = Return e ->
  exists fee,
    commission trade = Some fee
    /\ e = entry_for self sym symbol_trades i trade qty avg fee.
Proof.
  destruct (commission trade) as [fee|] eqn:Hfee.
  - rewrite (closing_entry_Some _ _ _ _ _ _ _ fee Hfee).
    intros H. injection H as <-. exists fee. split; reflexivity.
  - rewrite closing_entry_None by exact Hfee. discriminate.
Qed.

Lemma closing_entry_Raise (self : TradeLogService) (sym : string)
  (symbol_trades : list Trade) (i : nat) (trade : Trade)
  (qty avg : Decimal) (e : exn) :
  closing_entry self sym symbol_trades i trade qty avg = Raise e ->
  e = TypeError /\ commission trade = None.
Proof.
  destruct (commission trade) as [fee|] eqn:Hfee.
  - rewrite (closing_entry_Some _ _ _ _ _ _ _ fee Hfee). discriminate.
  - rewrite closing_entry_None by exact Hfee.
    intros H. injection H as <-. split; reflexivity.
Qed.

(** A BUY of a positive quantity on a non-negative lot cannot raise and
    leaves a positive lot. *)
Lemma process_buy (self : TradeLogService) (symbol : string)
  (symbol_trades : list Trade) (i : nat) (trade : Trade) (st : LoopState) :
  is_BUY trade = true ->
  0 <= d_coef (position_qty st) ->
  0 < d_coef (quantity trade) ->
  exists st',
    process_trade self symbol symbol_trades (i, trade) st = Return st'
    /\ 0 < d_coef (position_qty st')
    /\ position_results st' = position_results st.
Proof.
  intros Hbuy Hpos Hq. unfold process_trade. rewrite Hbuy.
  pose proof (d_add_pos _ _ Hpos Hq) as Hsum.
  unfold buy_avg_price. fold d_zero.
  destruct (d_eqb (position_qty st) d_zero) eqn:Hz; cbn [bind].
  - eexists; split; [reflexivity|]. cbn. split; [exact Hsum | reflexivity].
  - destruct (d_div_nonzero
                (d_add (d_mul (avg_price st) (position_qty st))
                   (d_mul (price trade) (quantity trade)))
                (d_add (position_qty st) (quantity trade))) as [q Hdiv]; [lia|].
    rewrite Hdiv; cbn [bind].
    eexists; split; [reflexivity|]. cbn. split; [exact Hsum | reflexivity].
Qed.

(** A fill that is not a BUY and has a commission never raises, keeps
    the invariant and behaves as [sell_outcome] says. *)
Lemma process_sell (self : TradeLogService) (symbol : string)
  (symbol_trades : list Trade) (i : nat) (trade : Trade) (st : LoopState) :
  is_BUY trade = false ->
  commission trade <> None ->
  lot_invariant st ->
  exists st',
    process_trade self symbol symbol_trades (i, trade) st = Return st'
    /\ lot_invariant st'
    /\ sell_outcome trade st st'.
Proof.
  intros Hsell Hfee Hinv. unfold process_trade. rewrite Hsell. fold d_zero.
  destruct (commission trade) as [fee|] eqn:Hc; [clear Hfee|contradiction].
  rewrite (closing_entry_Some _ _ _ _ _ _ _ fee Hc). cbn [bind].
  pose proof Hinv as Hinv0.
  apply lot_invariant_coef in Hinv0. destruct Hinv0 as [Hnn Havg].
  unfold sell_outcome.
  destruct (d_gtb (position_qty st) d_zero) eqn:Hgt.
  - apply d_gtb_zero in Hgt.
    assert (Hne : d_eqb (position_qty st) d_zero = false).
    { destruct (d_eqb (position_qty st) d_zero) eqn:E; [|reflexivity].
      apply d_eqb_zero in E. lia. }
    rewrite Hne.
    set (entry := entry_for self symbol symbol_trades i trade
                    (position_qty st) (avg_price st) fee).
    assert (Hq : pos_quantity entry = py_min (quantity trade) (position_qty st))
      by reflexivity.
    assert (Hle : d_leb (pos_quantity entry) (position_qty st) = true)
      by (rewrite Hq; apply py_min_le_r).
    eexists; split; [reflexivity|]. cbn [position_qty avg_price position_results].
    split.
    + apply lot_invariant_coef; cbn [position_qty avg_price].
      split; [apply d_sub_nonneg; exact Hle|].
      intros Hz. apply d_eqb_zero in Hz. rewrite Hz. reflexivity.
    + exists entry. repeat split; try assumption.
      * intros Hlt. apply d_eqb_zero. rewrite Hq. unfold py_min. rewrite Hlt.
        apply d_sub_self.
      * intros Hz. rewrite Hz. reflexivity.
      * intros Hz. rewrite Hz. reflexivity.
  - assert (Hz : d_eqb (position_qty st) d_zero = true).
    { apply d_eqb_zero.
      destruct (Z.eq_dec (d_coef (position_qty st)) 0) as [E|E]; [exact E|].
      assert (Hp : 0 < d_coef (position_qty st)) by lia.
      apply d_gtb_zero in Hp. congruence. }
    rewrite Hz. eexists; split; [reflexivity|]. split; [exact Hinv|reflexivity].
Qed.

(** Every step keeps the invariant and returns. *)
Lemma process_trade_invariant (self : TradeLogService) (symbol : string)
  (symbol_trades : list Trade) (i : nat) (trade : Trade) (st : LoopState) :
  d_gtb (quantity trade) d_zero = true ->
  (is_BUY trade = false -> commission trade <> None) ->
  lot_invariant st ->
  exists st',
    process_trade self symbol symbol_trades (i, trade) st = Return st'
    /\ lot_invariant st'.
Proof.
  intros Hq Hfee Hinv. destruct (is_BUY trade) eqn:Hside.
  - apply d_gtb_zero in Hq. pose proof Hinv as Hc.
    apply lot_invariant_coef in Hc. destruct Hc as [Hnn _].
    destruct (process_buy self symbol symbol_trades i trade st Hside Hnn Hq)
      as [st' [Hrun [Hpos _]]].
    exists st'. split; [exact Hrun|].
    apply lot_invariant_coef. split; lia.
  - destruct (process_sell self symbol symbol_trades i trade st Hside
                (Hfee eq_refl) Hinv)
      as [st' [Hrun [Hinv' _]]].
    exists st'. split; assumption.
Qed.

(** A step that returns keeps the invariant, whatever the
    commissions. *)
Lemma process_trade_keeps_invariant (self : TradeLogService) (symbol : string)
  (symbol_trades : list Trade) (i : nat) (trade : Trade) (st st' : LoopState) :
  d_gtb (quantity trade) d_zero = true ->
  lot_invariant st ->
  process_trade self symbol symbol_trades (i, trade) st = Return st' ->
  lot_invariant st'.
Proof.
  intros Hq Hinv Hstep.
  destruct (commission trade) as [fee|] eqn:Hfee.
  - destruct (process_trade_invariant self symbol symbol_trades i trade st Hq)
      as [st2 [Hstep2 Hinv2]]; [intros _; congruence | exact Hinv |].
    congruence.
  - destruct (is_BUY trade) eqn:Hside.
    + destruct (process_trade_invariant self symbol symbol_trades i trade st Hq)
        as [st2 [Hstep2 Hinv2]]; [intros H; congruence | exact Hinv |].
      congruence.
    + unfold process_trade in Hstep. rewrite Hside in Hstep.
      destruct (d_gtb (position_qty st) (Decimal_of_int 0)).
      * rewrite closing_entry_None in Hstep by exact Hfee. discriminate.
      * injection Hstep as <-. exact Hinv.
Qed.

Lemma nth_error_enumerate_from {A} (l : list A) :
  forall (start k : nat) (x : A),
  nth_error l k = Some x ->
  nth_error (enumerate_from start l) k = Some ((start + k)%nat, x).
Proof.
  induction l as [|y l IH]; intros start k x H.
  - destruct k; discriminate.
  - destruct k as [|k]; cbn in *.
    + injection H as ->. rewrite Nat.add_0_r. reflexivity.
    + rewrite (IH (S start) k x H). f_equal. f_equal. lia.
Qed.

Lemma firstn_snoc {A} (l : list A) :
  forall (k : nat) (x : A),
  nth_error l k = Some x -> firstn (S k) l = firstn k l ++ [x].
Proof.
  induction l as [|y l IH]; intros k x H.
  - destruct k; discriminate.
  - destruct k as [|k]; cbn in *.
    + injection H as ->. reflexivity.
    + f_equal. apply IH. exact H.
Qed.

Lemma firstn_enumerate_snoc {A} (l : list A) (k : nat) (x : A) :
  nth_error l k = Some x ->
  firstn (S k) (enumerate l) = firstn k (enumerate l) ++ [(k, x)].
Proof.
  intros H. apply firstn_snoc.
  apply (nth_error_enumerate_from l 0 k x H).
Qed.

(** The loop over the first [k] fills of a symbol returns and keeps
    the lot invariant. *)
Lemma symbol_loop_prefix (self : TradeLogService) (symbol : string)
  (symbol_trades : list Trade) (results : list ClosedPosition) :
  positive_quantities symbol_trades ->
  closing_commissions_present symbol_trades ->
  forall k : nat, (k <= List.length symbol_trades)%nat ->
  exists st,
    symbol_loop self symbol symbol_trades
      (firstn k (enumerate symbol_trades)) (initial_state results) = Return st
    /\ lot_invariant st.
Proof.
  intros Hq Hfees. induction k as [|k IH]; intros Hk.
  - exists (initial_state results). split; [reflexivity|].
    apply initial_state_invariant.
  - destruct IH as [st [Hrun Hinv]]; [lia|].
    destruct (nth_error symbol_trades k) as [trade|] eqn:Hnth;
      [|apply nth_error_None in Hnth; lia].
    assert (Hqt : d_gtb (quantity trade) d_zero = true).
    { unfold positive_quantities in Hq. rewrite Forall_forall in Hq.
      apply Hq. eapply nth_error_In; exact Hnth. }
    assert (Hfee : is_BUY trade = false -> commission trade <> None).
    { unfold closing_commissions_present in Hfees.
      rewrite Forall_forall in Hfees.
      apply Hfees. eapply nth_error_In; exact Hnth. }
    destruct (process_trade_invariant self symbol symbol_trades k trade st
                Hqt Hfee Hinv) as [st' [Hstep Hinv']].
    exists st'. split; [|exact Hinv'].
    rewrite (firstn_enumerate_snoc _ _ _ Hnth).
    unfold symbol_loop in *. rewrite for_each_app, Hrun.
    cbn [for_each bind]. rewrite Hstep. reflexivity.
Qed.

(** The loop over the first [k] fills of a symbol keeps the lot
    invariant whenever it returns, whatever the commissions. *)
Lemma symbol_loop_prefix_invariant (self : TradeLogService) (symbol : string)
  (symbol_trades : list Trade) (results : list ClosedPosition) :
  positive_quantities symbol_trades ->
  forall k : nat, (k <= List.length symbol_trades)%nat ->
  forall st,
  symbol_loop self symbol symbol_trades
    (firstn k (enumerate symbol_trades)) (initial_state results) = Return st ->
  lot_invariant st.
Proof.
  intros Hq. induction k as [|k IH]; intros Hk st Hrun.
  - cbn in Hrun. injection Hrun as <-. apply initial_state_invariant.
  - destruct (nth_error symbol_trades k) as [trade|] eqn:Hnth;
      [|apply nth_error_None in Hnth; lia].
    rewrite (firstn_enumerate_snoc _ _ _ Hnth) in Hrun.
    unfold symbol_loop in *. rewrite for_each_app in Hrun.
    destruct (for_each (process_trade self symbol symbol_trades)
                (firstn k (enumerate symbol_trades)) (initial_state results))
      as [st_k|] eqn:Hpre; cbn [bind for_each] in Hrun; [|discriminate].
    destruct (process_trade self symbol symbol_trades (k, trade) st_k)
      as [st1|] eqn:Hstep; cbn [bind] in Hrun; [|discriminate].
    injection Hrun as <-.
    apply (process_trade_keeps_invariant self symbol symbol_trades k trade
             st_k st1); [|apply IH; [lia|reflexivity]|exact Hstep].
    unfold positive_quantities in Hq. rewrite Forall_forall in Hq.
    apply Hq. eapply nth_error_In; exact Hnth.
Qed.

(** C3. For one instrument whose fills have positive quantities, the
    reconstruction loop run over any prefix of the fills returns (when
    the fills that are not a BUY have a commission) and, whenever it
    returns, in a state in which the open quantity is not negative and
    the average price is 0 whenever the open quantity is 0.  The next
    fill, when it is a SELL, returns if it has a commission or nothing
    is open (a SELL without commission on an open lot raises
    TypeError), and whenever it returns it leaves the state as it is
    when nothing is open, and otherwise appends exactly one entry whose
    closed quantity is min(sell quantity, open quantity), which does
    not exceed the open quantity; the open quantity goes down by the
    closed quantity only (the excess of the SELL is dropped: the lot
    ends at 0, not below), and the average price becomes 0 exactly when
    the open quantity has reached 0 and is unchanged otherwise. *)
Theorem open_lot_invariants (self : TradeLogService) (symbol : string)
  (symbol_trades : list Trade) (results : list ClosedPosition) :
  positive_quantities symbol_trades ->
  forall k : nat, (k <= List.length symbol_trades)%nat ->
  (closing_commissions_present symbol_trades ->
   exists st,
     symbol_loop self symbol symbol_trades
       (firstn k (enumerate symbol_trades)) (initial_state results)
     = Return st)
  /\ forall st,
       symbol_loop self symbol symbol_trades
         (firstn k (enumerate symbol_trades)) (initial_state results)
       = Return st ->
       lot_invariant st
       /\ forall trade,
            nth_error symbol_trades k = Some trade ->
            is_BUY trade = false ->
            (commission trade <> None
             \/ d_eqb (position_qty st) d_zero = true ->
             exists st',
               symbol_loop self symbol symbol_trades
                 (firstn (S k) (enumerate symbol_trades))
                 (initial_state results) = Return st')
            /\ (commission trade = None ->
                d_eqb (position_qty st) d_zero = false ->
                symbol_loop self symbol symbol_trades
                  (firstn (S k) (enumerate symbol_trades))
                  (initial_state results) = Raise TypeError)
            /\ forall st',
                 symbol_loop self symbol symbol_trades
                   (firstn (S k) (enumerate symbol_trades))
                   (initial_state results) = Return st' ->
                 lot_invariant st' /\ sell_outcome trade st st'.
Proof.
  intros Hq k Hk. split.
  - intros Hfees.
    destruct (symbol_loop_prefix self symbol symbol_trades results Hq Hfees
                k Hk) as [st [Hrun _]].
    exists st. exact Hrun.
  - intros st Hrun.
    pose proof (symbol_loop_prefix_invariant self symbol symbol_trades results
                  Hq k Hk st Hrun) as Hinv.
    split; [exact Hinv|]. intros trade Hnth Hsell.
    assert (Hnext :
      symbol_loop self symbol symbol_trades
        (firstn (S k) (enumerate symbol_trades)) (initial_state results)
      = process_trade self symbol symbol_trades (k, trade) st).
    { rewrite (firstn_enumerate_snoc _ _ _ Hnth).
      unfold symbol_loop in *. rewrite for_each_app, Hrun.
      cbn [for_each bind].
      destruct (process_trade self symbol symbol_trades (k, trade) st);
        reflexivity. }
    rewrite Hnext. clear Hnext.
    pose proof Hinv as Hc. apply lot_invariant_coef in Hc.
    destruct Hc as [Hnn _].
    assert (Hopen : d_gtb (position_qty st) d_zero
                    = negb (d_eqb (position_qty st) d_zero)).
    { destruct (d_gtb (position_qty st) d_zero) eqn:Hgt;
        destruct (d_eqb (position_qty st) d_zero) eqn:Hz; try reflexivity.
      - apply d_gtb_zero in Hgt. apply d_eqb_zero in Hz. lia.
      - exfalso.
        assert (Hp : 0 < d_coef (position_qty st)).
        { destruct (Z.eq_dec (d_coef (position_qty st)) 0) as [E|E]; [|lia].
          apply d_eqb_zero in E. congruence. }
        apply d_gtb_zero in Hp. congruence. }
    split; [|split].
    + intros [Hfee|Hz].
      * destruct (process_sell self symbol symbol_trades k trade st Hsell Hfee
                    Hinv) as [st' [Hstep _]].
        exists st'. exact Hstep.
      * exists st. unfold process_trade. rewrite Hsell. fold d_zero.
        rewrite Hopen, Hz. reflexivity.
    + intros Hnone Hnz. unfold process_trade. rewrite Hsell. fold d_zero.
      rewrite Hopen, Hnz. cbn [negb].
      rewrite closing_entry_None by exact Hnone. reflexivity.
    + intros st' Hstep.
      destruct (commission trade) as [fee|] eqn:Hfee.
      * destruct (process_sell self symbol symbol_trades k trade st Hsell)
          as [st2 [Hstep2 Hout]]; [congruence | exact Hinv |].
        rewrite Hstep2 in Hstep. injection Hstep as <-. exact Hout.
      * unfold process_trade in Hstep. rewrite Hsell in Hstep.
        fold d_zero in Hstep. rewrite Hopen in Hstep.
        unfold sell_outcome.
        destruct (d_eqb (position_qty st) d_zero); cbn [negb] in Hstep.
        -- injection Hstep as <-. split; [exact Hinv | reflexivity].
        -- rewrite closing_entry_None in Hstep by exact Hfee. discriminate.
Qed.

Lemma open_lot_invariants_witness :
  positive_quantities scenario_D
  /\ closing_commissions_present scenario_D
  /\ (exists st,
        symbol_loop (no_tags_service scenario_D) "XYZ" scenario_D
          (firstn 1 (enumerate scenario_D)) (initial_state []) = Return st)
  /\ forall st,
       symbol_loop (no_tags_service scenario_D) "XYZ" scenario_D
         (firstn 1 (enumerate scenario_D)) (initial_state []) = Return st ->
       lot_invariant st
       /\ forall trade,
            nth_error scenario_D 1 = Some trade ->
            is_BUY trade = false ->
            (commission trade <> None
             \/ d_eqb (position_qty st) d_zero = true ->
             exists st',
               symbol_loop (no_tags_service scenario_D) "XYZ" scenario_D
                 (firstn 2 (enumerate scenario_D)) (initial_state [])
               = Return st')
            /\ (commission trade = None ->
                d_eqb (position_qty st) d_zero = false ->
                symbol_loop (no_tags_service scenario_D) "XYZ" scenario_D
                  (firstn 2 (enumerate scenario_D)) (initial_state [])
                = Raise TypeError)
            /\ forall st',
                 symbol_loop (no_tags_service scenario_D) "XYZ" scenario_D
                   (firstn 2 (enumerate scenario_D)) (initial_state [])
                 = Return st' ->
                 lot_invariant st' /\ sell_outcome trade st st'.
Proof.
  assert (H : positive_quantities scenario_D)
    by (repeat constructor).
  assert (Hfees : closing_commissions_present scenario_D)
    by (repeat constructor; discriminate).
  assert (Hk : (1 <= List.length scenario_D)%nat) by (simpl; lia).
  destruct (open_lot_invariants (no_tags_service scenario_D) "XYZ" scenario_D
              [] H 1%nat Hk) as [Hreturns Hall].
  split; [exact H|]. split; [exact Hfees|].
  split; [exact (Hreturns Hfees) | exact Hall].
Defined.

(* ===================================================================== *)
(** * Position reconstruction: tags and holding time *)
(* ===================================================================== *)

Lemma last_opt_snoc {A} (l : list A) (x : A) : last_opt (l ++ [x]) = Some x.
Proof. unfold last_opt. rewrite rev_app_distr. reflexivity. Qed.

(** The last element of a filtered list is the last element of the list
    that passes the filter. *)
Lemma last_opt_filter {A} (p : A -> bool) (l : list A) :
  match last_opt (filter p l) with
  | Some b =>
      exists j, nth_error l j = Some b /\ p b = true
                /\ forall k c, (j < k)%nat -> nth_error l k = Some c ->
                               p c = false
  | None => forall k c, nth_error l k = Some c -> p c = false
  end.
Proof.
  induction l as [|x l IH] using rev_ind.
  - cbn. intros k c H. destruct k; discriminate.
  - rewrite filter_app. cbn [filter]. destruct (p x) eqn:Hpx.
    + rewrite last_opt_snoc. exists (List.length l).
      rewrite nth_error_app2, Nat.sub_diag by lia.
      split; [reflexivity|]. split; [exact Hpx|].
      intros k c Hk Hnth.
      assert (nth_error (l ++ [x]) k = None) as Hn.
      { apply nth_error_None. rewrite length_app. cbn. lia. }
      congruence.
    + rewrite app_nil_r.
      destruct (last_opt (filter p l)) as [b|].
      * destruct IH as [j [Hj [Hb Hafter]]].
        assert (Hlt : (j < List.length l)%nat)
          by (apply nth_error_Some; congruence).
        exists j. rewrite nth_error_app1 by exact Hlt.
        split; [exact Hj|]. split; [exact Hb|].
        intros k c Hk Hnth.
        destruct (Nat.lt_ge_cases k (List.length l)) as [Hin|Hout].
        -- rewrite nth_error_app1 in Hnth by exact Hin. eapply Hafter; eassumption.
        -- rewrite nth_error_app2 in Hnth by exact Hout.
           destruct (k - List.length l)%nat as [|m]; cbn in Hnth.
           ++ injection Hnth as <-. exact Hpx.
           ++ destruct m; discriminate.
      * intros k c Hnth.
        destruct (Nat.lt_ge_cases k (List.length l)) as [Hin|Hout].
        -- rewrite nth_error_app1 in Hnth by exact Hin. eapply IH; eassumption.
        -- rewrite nth_error_app2 in Hnth by exact Hout.
           destruct (k - List.length l)%nat as [|m]; cbn in Hnth.
           ++ injection Hnth as <-. exact Hpx.
           ++ destruct m; discriminate.
Qed.

(** The opening trade that [closing_entry] looks up is the most recent
    BUY before the index of the SELL. *)
Lemma last_opening_trade (symbol_trades : list Trade) (i : nat) :
  match last_opt (filter is_BUY (firstn i symbol_trades)) with
  | Some b => exists j, is_last_buy_before symbol_trades i j b
  | None => no_buy_before symbol_trades i
  end.
Proof.
  pose proof (last_opt_filter is_BUY (firstn i symbol_trades)) as H.
  destruct (last_opt (filter is_BUY (firstn i symbol_trades))) as [b|].
  - destruct H as [j [Hj [Hb Hafter]]].
    rewrite nth_error_firstn in Hj.
    destruct (Nat.ltb_spec j i) as [Hji|Hji]; [|discriminate].
    exists j. repeat split; try assumption; try lia.
    intros k c Hk Hnth. apply (Hafter k c); [lia|].
    rewrite nth_error_firstn.
    destruct (Nat.ltb_spec k i); [exact Hnth | lia].
  - intros k c Hk Hnth. apply (H k c).
    rewrite nth_error_firstn.
    destruct (Nat.ltb_spec k i); [exact Hnth | lia].
Qed.

(** One step appends at most one entry, and that entry carries the
    symbol of the loop. *)
Lemma process_trade_results (self : TradeLogService) (symbol : string)
  (symbol_trades : list Trade) (i : nat) (trade : Trade) (st st' : LoopState) :
  process_trade self symbol symbol_trades (i, trade) st = Return st' ->
  position_results st' = position_results st
  \/ exists e, position_results st' = position_results st ++ [e]
               /\ pos_symbol e = symbol.
Proof.
  unfold process_trade.
  destruct (is_BUY trade) eqn:Hside.
  - destruct (buy_avg_price _ _ _); cbn [bind]; intros H; [|discriminate].
    injection H as <-. left. reflexivity.
  - destruct (d_gtb (position_qty st) (Decimal_of_int 0)).
    + destruct (closing_entry _ _ _ _ _ _ _) as [entry|] eqn:Hentry;
        cbn [bind]; intros H; [|discriminate].
      injection H as <-. right. exists entry. split; [reflexivity|].
      apply closing_entry_Return in Hentry. destruct Hentry as [fee [_ ->]].
      reflexivity.
    + intros H. injection H as <-. left. reflexivity.
Qed.

Lemma symbol_loop_results (self : TradeLogService) (symbol : string)
  (symbol_trades : list Trade) :
  forall (todo : list (nat * Trade)) (st st' : LoopState),
  symbol_loop self symbol symbol_trades todo st = Return st' ->
  forall e, In e (position_results st') ->
  In e (position_results st) \/ pos_symbol e = symbol.
Proof.
  unfold symbol_loop.
  induction todo as [|[i trade] todo IH]; intros st st' Hrun e He.
  - cbn in Hrun. injection Hrun as <-. left. exact He.
  - cbn [for_each] in Hrun.
    destruct (process_trade self symbol symbol_trades (i, trade) st)
      as [st1|] eqn:Hstep; cbn [bind] in Hrun; [|discriminate].
    destruct (IH st1 st' Hrun e He) as [Hin|Hnew]; [|right; exact Hnew].
    destruct (process_trade_results _ _ _ _ _ _ _ Hstep) as [Heq|[e1 [Heq Hs]]].
    + left. rewrite <- Heq. exact Hin.
    + rewrite Heq in Hin. apply in_app_or in Hin. destruct Hin as [Hin|[<-|[]]].
      * left. exact Hin.
      * right. exact Hs.
Qed.

(* ===================================================================== *)
(** * NULL commissions *)
(* ===================================================================== *)

Lemma closing_commissions_of_present (l : list Trade) :
  commissions_present l -> closing_commissions_present l.
Proof.
  unfold commissions_present, closing_commissions_present.
  intros H. eapply Forall_impl; [|exact H]. cbn beta. auto.
Qed.

(** The sum over a nullable column returns when no cell is NULL, and
    raises TypeError, and nothing else, when one is. *)
Lemma py_sum_nullable_from (cells : list (option Decimal)) :
  forall acc,
  (Forall (fun x => x <> None) cells ->
   exists total,
     for_each
       (fun x acc' =>
          match x with
          | Some c => Return (d_add acc' c)
          | None => Raise TypeError
          end) cells acc = Return total)
  /\ (In None cells ->
      for_each
        (fun x acc' =>
           match x with
           | Some c => Return (d_add acc' c)
           | None => Raise TypeError
           end) cells acc = Raise TypeError).
Proof.
  induction cells as [|x cells IH]; intros acc; cbn [for_each].
  - split; [intros _; eexists; reflexivity | intros []].
  - destruct x as [c|]; cbn [bind].
    + destruct (IH (d_add acc c)) as [Hret Hraise]. split.
      * intros H. apply Forall_cons_iff in H. apply Hret. tauto.
      * intros [H|H]; [discriminate | apply Hraise; exact H].
    + split; [|reflexivity].
      intros H. apply Forall_cons_iff in H. destruct H as [H _]. congruence.
Qed.

Lemma py_sum_nullable_present (l : list Trade) :
  commissions_present l ->
  exists total, py_sum_nullable (map commission l) = Return total.
Proof.
  intros H. apply py_sum_nullable_from.
  unfold commissions_present in H. rewrite Forall_map. exact H.
Qed.

Lemma py_sum_nullable_None (cells : list (option Decimal)) :
  In None cells -> py_sum_nullable cells = Raise TypeError.
Proof. apply py_sum_nullable_from. Qed.

Lemma py_sum_nullable_Raise (cells : list (option Decimal)) (e : exn) :
  py_sum_nullable cells = Raise e -> e = TypeError /\ In None cells.
Proof.
  intros H.
  assert (Hin : In None cells).
  { destruct (in_dec (fun a b : option Decimal =>
        ltac:(decide equality; decide equality; apply Z.eq_dec)) None cells)
      as [Hin|Hout]; [exact Hin|].
    exfalso.
    destruct (proj1 (py_sum_nullable_from cells (Decimal_of_int 0)))
      as [total Htotal].
    - apply Forall_forall. intros x Hx ->. contradiction.
    - unfold py_sum_nullable in H. congruence. }
  split; [|exact Hin]. rewrite (py_sum_nullable_None _ Hin) in H. congruence.
Qed.

(* ===================================================================== *)
(** * The dashboard rollup against position reconstruction *)
(* ===================================================================== *)

Lemma py_sum_snoc (l : list Decimal) (x : Decimal) :
  py_sum (l ++ [x]) = d_add (py_sum l) x.
Proof. unfold py_sum. rewrite fold_left_app. reflexivity. Qed.

Lemma len_filter_snoc {A} (p : A -> bool) (l : list A) (x : A) :
  len (filter p (l ++ [x]))
  = if p x then len (filter p l) + 1 else len (filter p l).
Proof.
  unfold len. rewrite filter_app. cbn [filter].
  destruct (p x); rewrite ?length_app, ?app_nil_r; cbn [List.length]; lia.
Qed.

Lemma d_gtb_not_eqb_zero (a : Decimal) :
  d_gtb a d_zero = true -> d_eqb a d_zero = false.
Proof.
  intros H. apply d_gtb_zero in H.
  destruct (d_eqb a d_zero) eqn:E; [|reflexivity].
  apply d_eqb_zero in E. lia.
Qed.

(** One fill keeps the two loops in step, provided it does not
    oversell. *)
Lemma step_in_step (self : TradeLogService) (symbol : string)
  (symbol_trades : list Trade) (i : nat) (trade : Trade)
  (st : LoopState) (ds : DashState) :
  (is_BUY trade = false -> d_gtb (position_qty st) d_zero = true ->
   d_ltb (position_qty st) (quantity trade) = false) ->
  (is_BUY trade = false -> commission trade <> None) ->
  in_step st ds ->
  same_outcome
    (fun st' ds' =>
       in_step st' ds'
       /\ position_qty st' = next_open_qty trade (position_qty st))
    (process_trade self symbol symbol_trades (i, trade) st)
    (dash_process_trade trade ds).
Proof.
  intros Hfit Hfee [Hpos [Havg [Htot Hwins]]].
  unfold process_trade, dash_process_trade, next_open_qty. fold d_zero.
  rewrite Hpos.
  destruct (is_BUY trade) eqn:Hside.
  - clear Hfee.
    assert (Hsame : buy_avg_price (position_qty st) (dash_avg_price ds) trade
                    = buy_avg_price (position_qty st) (avg_price st) trade).
    { unfold buy_avg_price. fold d_zero.
      destruct (d_eqb (position_qty st) d_zero) eqn:Hz; [reflexivity|].
      rewrite (Havg eq_refl). reflexivity. }
    rewrite Hsame.
    destruct (buy_avg_price (position_qty st) (avg_price st) trade);
      cbn [bind same_outcome]; [|reflexivity].
    repeat split; cbn; auto.
  - destruct (d_gtb (position_qty st) d_zero) eqn:Hgt; cbn [same_outcome].
    + specialize (Hfit eq_refl eq_refl). specialize (Hfee eq_refl).
      destruct (commission trade) as [fee|] eqn:Hc; [clear Hfee|contradiction].
      rewrite (closing_entry_Some _ _ _ _ _ _ _ fee Hc).
      cbn [bind same_outcome].
      pose proof (d_gtb_not_eqb_zero _ Hgt) as Hne.
      assert (Hmin : py_min (quantity trade) (position_qty st) = quantity trade)
        by (unfold py_min; rewrite Hfit; reflexivity).
      unfold in_step, entry_for.
      cbn [position position_qty avg_price dash_avg_price dash_total_pnl
           winning_trades position_results pos_quantity].
      rewrite Hmin, (Havg Hne).
      repeat split.
      * intros Hz. rewrite Hz. reflexivity.
      * rewrite map_app. cbn [map]. rewrite py_sum_snoc, Htot. reflexivity.
      * rewrite len_filter_snoc, Hwins. reflexivity.
    + repeat split; auto.
Qed.

Lemma loops_in_step (self : TradeLogService) (symbol : string)
  (symbol_trades : list Trade) :
  forall (todo : list Trade) (k : nat) (st : LoopState) (ds : DashState),
  never_oversold todo (position_qty st) = true ->
  closing_commissions_present todo ->
  in_step st ds ->
  same_outcome in_step
    (symbol_loop self symbol symbol_trades (enumerate_from k todo) st)
    (for_each dash_process_trade todo ds).
Proof.
  unfold symbol_loop.
  induction todo as [|trade todo IH]; intros k st ds Hno Hfees Hstep.
  - exact Hstep.
  - cbn [enumerate_from for_each].
    apply Forall_cons_iff in Hfees. destruct Hfees as [Hfee Hfees].
    assert (Hfit : is_BUY trade = false ->
                   d_gtb (position_qty st) d_zero = true ->
                   d_ltb (position_qty st) (quantity trade) = false).
    { intros Hs Hg. cbn [never_oversold] in Hno. rewrite Hs, Hg in Hno.
      apply andb_prop in Hno. destruct Hno as [Hno _].
      destruct (d_ltb (position_qty st) (quantity trade)); [discriminate|reflexivity]. }
    pose proof (step_in_step self symbol symbol_trades k trade st ds Hfit Hfee
                  Hstep) as Hone.
    destruct (process_trade self symbol symbol_trades (k, trade) st) as [st1|e1];
      destruct (dash_process_trade trade ds) as [ds1|e2];
      cbn [same_outcome bind] in *; try contradiction; [|exact Hone].
    destruct Hone as [Hstep1 Hqty].
    apply IH; [|exact Hfees|exact Hstep1].
    rewrite Hqty. unfold next_open_qty.
    cbn [never_oversold] in Hno.
    destruct (is_BUY trade); [exact Hno|].
    destruct (d_gtb (position_qty st) d_zero); [|exact Hno].
    apply andb_prop in Hno. tauto.
Qed.

(** The outer loops: the running dashboard total is the gross P&L of
    the entries collected so far, and the running count of winning
    trades the number of those entries that win before commission. *)
Lemma symbols_in_step (self : TradeLogService) :
  forall (groups : list (string * list Trade)) (results : list ClosedPosition)
         (totals : Decimal * Z),
  forallb (fun item : string * list Trade =>
             never_oversold (sort_by_trade_date (snd item)) d_zero) groups
  = true ->
  Forall (fun item => closing_commissions_present (snd item)) groups ->
  fst totals = py_sum (map gross_pnl results)
  /\ snd totals = len (filter gross_win results) ->
  same_outcome
    (fun r t => fst t = py_sum (map gross_pnl r)
                /\ snd t = len (filter gross_win r))
    (for_each (process_symbol self) groups results)
    (for_each dash_process_symbol groups totals).
Proof.
  induction groups as [|[s g] groups IH];
    intros results totals Hno Hfees Htot.
  - exact Htot.
  - apply Forall_cons_iff in Hfees. destruct Hfees as [Hfee Hfees].
    cbn [snd] in Hfee.
    assert (Hfee' : closing_commissions_present (sort_by_trade_date g))
      by (apply (proj1 (stable_sort_Forall _ _ _ Hfee))).
    cbn [forallb snd] in Hno. apply andb_prop in Hno. destruct Hno as [Hg Hrest].
    cbn [for_each]. unfold process_symbol at 1, dash_process_symbol at 1.
    cbn [snd fst].
    pose proof (loops_in_step self s (sort_by_trade_date g)
                  (sort_by_trade_date g) 0
                  {| position_qty := Decimal_of_int 0;
                     avg_price := Decimal_of_int 0;
                     position_results := results |}
                  {| position := Decimal_of_int 0;
                     dash_avg_price := Decimal_of_int 0;
                     dash_total_pnl := fst totals;
                     winning_trades := snd totals |}
                  Hg Hfee') as Hloop.
    assert (Hinit : in_step
                      {| position_qty := Decimal_of_int 0;
                         avg_price := Decimal_of_int 0;
                         position_results := results |}
                      {| position := Decimal_of_int 0;
                         dash_avg_price := Decimal_of_int 0;
                         dash_total_pnl := fst totals;
                         winning_trades := snd totals |})
      by (destruct Htot; repeat split; auto).
    specialize (Hloop Hinit). unfold enumerate.
    destruct (symbol_loop self s (sort_by_trade_date g)
                (enumerate_from 0 (sort_by_trade_date g)) _) as [st|e1];
      destruct (for_each dash_process_trade (sort_by_trade_date g) _) as [ds|e2];
      cbn [same_outcome bind] in *; try contradiction; [|exact Hloop].
    apply IH; [exact Hrest|exact Hfees|]. cbn [fst snd].
    destruct Hloop as [_ [_ [Ht Hw]]]. split; assumption.
Qed.

Lemma int_truediv_len {A} (n : Z) (x : A) (l : list A) :
  exists r, int_truediv n (len (x :: l)) = Return r.
Proof.
  unfold int_truediv, len.
  destruct (Z.eqb_spec (Z.of_nat (List.length (x :: l))) 0) as [E|_];
    [cbn [List.length] in E; lia|].
  destruct (0 <? _); eexists; reflexivity.
Qed.

(* ===================================================================== *)
(** * The breakdown calculator *)
(* ===================================================================== *)

Lemma d_div_int_len {A} (d : Decimal) (x : A) (l : list A) :
  exists q, d_div_int d (len (x :: l)) = Return q.
Proof.
  unfold d_div_int. apply d_div_nonzero.
  unfold len; cbn [Decimal_of_int d_coef List.length]. lia.
Qed.

Lemma Decimal_rmul_float (d : Decimal) (x : float) :
  Decimal_rmul d (PyFloat x) = Raise TypeError.
Proof. reflexivity. Qed.

(** On a non-empty list the calculator reaches
    [win_pct * avg_win] with a float on the left and a Decimal on the
    right, and raises. *)
Lemma _calculate_breakdown_raises (self : TradeLogService)
  (p : ClosedPosition) (ps : list ClosedPosition) :
  _calculate_breakdown self (p :: ps) = Raise TypeError.
Proof.
  unfold _calculate_breakdown. cbn [truthy negb]. cbv zeta.
  set (positions := p :: ps).
  set (wins := filter _ positions).
  set (losses := filter (fun p0 => d_ltb (pnl p0) _) positions).
  unfold share_of. cbn [truthy].
  destruct (int_truediv_len (len wins) p ps) as [r Hr].
  fold positions in Hr. rewrite Hr. cbn [bind].
  assert (Havg_win : exists a,
    (if truthy wins
     then d_div_int (if truthy wins then py_sum (map pnl wins)
                     else Decimal_of_int 0) (len wins)
     else Return (Decimal_of_int 0)) = Return a).
  { destruct wins as [|w ws]; cbn [truthy]; [eexists; reflexivity|].
    apply d_div_int_len. }
  destruct Havg_win as [avg_win ->]. cbn [bind].
  assert (Havg_loss : exists a,
    (if truthy losses
     then d_div_int (if truthy losses then d_abs (py_sum (map pnl losses))
                     else Decimal_of_int 0) (len losses)
     else Return (Decimal_of_int 0)) = Return a).
  { destruct losses as [|w ws]; cbn [truthy]; [eexists; reflexivity|].
    apply d_div_int_len. }
  destruct Havg_loss as [avg_loss ->]. cbn [bind].
  set (total_wins := if truthy wins then _ else _).
  set (total_losses := if truthy losses then _ else _).
  assert (Hpf : exists f,
    (if d_gtb total_losses (Decimal_of_int 0)
     then q <- d_div total_wins total_losses ;; Return (float_of_Decimal q)
     else if d_gtb total_wins (Decimal_of_int 0)
          then Return PrimFloat.infinity else Return PrimFloat.zero)
    = Return f).
  { destruct (d_gtb total_losses (Decimal_of_int 0)) eqn:Hgt.
    - apply d_gtb_zero in Hgt.
      destruct (d_div_nonzero total_wins total_losses) as [q Hq]; [lia|].
      rewrite Hq. eexists; reflexivity.
    - destruct (d_gtb total_wins (Decimal_of_int 0)); eexists; reflexivity. }
  destruct Hpf as [pf ->]. cbn [bind].
  destruct (int_truediv_len (len losses) p ps) as [r' Hr'].
  fold positions in Hr'. rewrite Hr'. cbn [bind].
  reflexivity.
Qed.

(** C4 on the code.  An empty collection gives the all-zero breakdown;
    every non-empty collection makes the calculator raise TypeError, so
    no profit factor, rate or average is ever returned for it. *)
Theorem breakdown_only_for_empty_input (self : TradeLogService) :
  _calculate_breakdown self [] = Return (_empty_breakdown self)
  /\ forall p ps, _calculate_breakdown self (p :: ps) = Raise TypeError.
Proof.
  split; [reflexivity|]. intros p ps. apply _calculate_breakdown_raises.
Qed.

(* ===================================================================== *)
(** * The grouped views *)
(* ===================================================================== *)

Lemma truthy_snoc {A} (l : list A) (x : A) : truthy (l ++ [x]) = true.
Proof. destruct l; reflexivity. Qed.

Lemma dict_append_nonempty {V} (k : string) (v : V)
  (d : list (string * list V)) :
  nonempty_groups d ->
  nonempty_groups (dict_append k v d) /\ truthy (dict_append k v d) = true.
Proof.
  induction d as [|[k' vs] d IH]; intros H; cbn [dict_append].
  - split; [|reflexivity]. constructor; [reflexivity|constructor].
  - inversion H as [|? ? Hhd Htl]; subst.
    destruct (String.eqb k k').
    + split; [|reflexivity]. constructor; [apply truthy_snoc|exact Htl].
    + split; [|reflexivity]. constructor; [exact Hhd|]. apply IH; exact Htl.
Qed.

Lemma group_by_nonempty {V} (key : V -> string) (l : list V) :
  nonempty_groups (group_by key l)
  /\ (truthy l = true -> truthy (group_by key l) = true).
Proof.
  unfold group_by.
  assert (Hgen : forall d : list (string * list V),
    nonempty_groups d ->
    nonempty_groups (fold_left (fun d x => dict_append (key x) x d) l d)
    /\ (truthy l = true \/ truthy d = true ->
        truthy (fold_left (fun d x => dict_append (key x) x d) l d) = true)).
  { induction l as [|x l IH]; intros d Hd; cbn [fold_left].
    - split; [exact Hd|]. intros [H|H]; [discriminate|exact H].
    - destruct (dict_append_nonempty (key x) x d Hd) as [H1 H2].
      destruct (IH _ H1) as [H3 H4]. split; [exact H3|]. intros _. auto. }
  destruct (Hgen [] (Forall_nil _)) as [H1 H2]. split; [exact H1|]. auto.
Qed.

Lemma strategy_groups_nonempty (positions : list ClosedPosition) :
  nonempty_groups (strategy_groups positions)
  /\ (truthy positions = true -> truthy (strategy_groups positions) = true).
Proof.
  unfold strategy_groups.
  assert (Htags : forall (pos : ClosedPosition) (ts : list string) d,
    nonempty_groups d ->
    nonempty_groups (fold_left (fun g tag => dict_append tag pos g) ts d)
    /\ (truthy ts = true \/ truthy d = true ->
        truthy (fold_left (fun g tag => dict_append tag pos g) ts d) = true)).
  { intros pos. induction ts as [|t ts IH]; intros d Hd; cbn [fold_left].
    - split; [exact Hd|]. intros [H|H]; [discriminate|exact H].
    - destruct (dict_append_nonempty t pos d Hd) as [H1 H2].
      destruct (IH _ H1) as [H3 H4]. split; [exact H3|]. intros _. auto. }
  assert (Hone : forall pos d, nonempty_groups d ->
    nonempty_groups (add_to_strategy_groups d pos)
    /\ truthy (add_to_strategy_groups d pos) = true).
  { intros pos d Hd. unfold add_to_strategy_groups.
    destruct (truthy (tags pos)) eqn:Ht.
    - destruct (Htags pos (tags pos) d Hd) as [H1 H2]. split; auto.
    - apply dict_append_nonempty; exact Hd. }
  assert (Hgen : forall d, nonempty_groups d ->
    nonempty_groups (fold_left add_to_strategy_groups positions d)
    /\ (truthy positions = true \/ truthy d = true ->
        truthy (fold_left add_to_strategy_groups positions d) = true)).
  { induction positions as [|pos ps IH]; intros d Hd; cbn [fold_left].
    - split; [exact Hd|]. intros [H|H]; [discriminate|exact H].
    - destruct (Hone pos d Hd) as [H1 H2].
      destruct (IH _ H1) as [H3 H4]. split; [exact H3|]. intros _. auto. }
  destruct (Hgen [] (Forall_nil _)) as [H1 H2]. split; [exact H1|]. auto.
Qed.

(** A comprehension over a non-empty list whose element expression
    raises [e] everywhere raises [e]. *)
Lemma map_result_all_raise {A B} (f : A -> result B) (l : list A) (e : exn) :
  truthy l = true -> Forall (fun x => f x = Raise e) l ->
  map_result f l = Raise e.
Proof.
  intros Hne Hall. destruct Hall as [|x l Hx _]; [discriminate|].
  apply map_result_raise. exact Hx.
Qed.

Lemma entries_raise (self : TradeLogService)
  (groups : list (string * list ClosedPosition)) :
  nonempty_groups groups ->
  Forall (fun item => timeframe_entry self item = Raise TypeError) groups
  /\ Forall (fun item => symbol_entry self item = Raise TypeError) groups
  /\ Forall (fun item => strategy_entry self item = Raise TypeError) groups.
Proof.
  intros H. repeat split; (eapply Forall_impl; [|exact H]);
    intros [k [|p ps]] Hk; try discriminate;
    unfold timeframe_entry, symbol_entry, strategy_entry;
    rewrite _calculate_breakdown_raises; reflexivity.
Qed.

Lemma _analyze_by_timeframe_raises (self : TradeLogService)
  (p : ClosedPosition) (ps : list ClosedPosition) :
  _analyze_by_timeframe self (p :: ps) = Raise TypeError.
Proof.
  unfold _analyze_by_timeframe. cbn [truthy negb].
  destruct (group_by_nonempty (fun pos => strftime_Y_m (close_date pos))
              (p :: ps)) as [Hne Htr].
  fold (monthly_groups (p :: ps)) in Hne, Htr.
  destruct (stable_sort_Forall _ (fun a b => String.ltb (fst a) (fst b))
              (monthly_groups (p :: ps)) Hne) as [Hs Hst].
  apply map_result_all_raise; [apply Hst, Htr; reflexivity|].
  apply entries_raise. exact Hs.
Qed.

Lemma _analyze_by_symbol_raises (self : TradeLogService)
  (p : ClosedPosition) (ps : list ClosedPosition) :
  _analyze_by_symbol self (p :: ps) = Raise TypeError.
Proof.
  unfold _analyze_by_symbol. cbn [truthy negb].
  destruct (group_by_nonempty pos_symbol (p :: ps)) as [Hne Htr].
  fold (symbol_groups (p :: ps)) in Hne, Htr.
  rewrite (map_result_all_raise (symbol_entry self) _ TypeError);
    [reflexivity | apply Htr; reflexivity | apply entries_raise; exact Hne].
Qed.

Lemma _analyze_by_strategy_raises (self : TradeLogService)
  (p : ClosedPosition) (ps : list ClosedPosition) :
  _analyze_by_strategy self (p :: ps) = Raise TypeError.
Proof.
  unfold _analyze_by_strategy. cbn [truthy negb].
  destruct (strategy_groups_nonempty (p :: ps)) as [Hne Htr].
  rewrite (map_result_all_raise (strategy_entry self) _ TypeError);
    [reflexivity | apply Htr; reflexivity | apply entries_raise; exact Hne].
Qed.

(** C5 on the code.  For every non-empty list of entries both the
    by-period view and the by-instrument view raise TypeError (from the
    breakdown of their first group): no group totals are returned that
    could be summed and compared. *)
Theorem period_and_symbol_views_raise (self : TradeLogService)
  (p : ClosedPosition) (ps : list ClosedPosition) :
  _analyze_by_timeframe self (p :: ps) = Raise TypeError
  /\ _analyze_by_symbol self (p :: ps) = Raise TypeError.
Proof.
  split; [apply _analyze_by_timeframe_raises | apply _analyze_by_symbol_raises].
Qed.

(** C9 on the code.  For every non-empty list of entries the
    by-strategy view raises TypeError (from the breakdown of its first
    bucket): no bucket is returned. *)
Theorem strategy_view_raises (self : TradeLogService)
  (p : ClosedPosition) (ps : list ClosedPosition) :
  _analyze_by_strategy self (p :: ps) = Raise TypeError.
Proof. apply _analyze_by_strategy_raises. Qed.

(** The grouping itself is as the views intend it. *)

Lemma dict_get_append {V} (k k' : string) (v : V) (d : list (string * list V)) :
  dict_get k (dict_append k' v d)
  = if String.eqb k k' then dict_get k d ++ [v] else dict_get k d.
Proof.
  induction d as [|[k0 vs] d IH]; cbn [dict_append dict_get].
  - destruct (String.eqb k k'); reflexivity.
  - destruct (String.eqb_spec k' k0) as [->|Hne]; cbn [dict_get].
    + destruct (String.eqb k k0); reflexivity.
    + destruct (String.eqb_spec k k0) as [->|Hne'].
      * destruct (String.eqb_spec k0 k'); [congruence|reflexivity].
      * exact IH.
Qed.

(** The bucket of key [k] holds the elements of key [k], in order. *)
Lemma group_by_get {V} (key : V -> string) (l : list V) (k : string) :
  dict_get k (group_by key l) = filter (fun x => String.eqb k (key x)) l.
Proof.
  unfold group_by.
  assert (Hgen : forall d,
    dict_get k (fold_left (fun d x => dict_append (key x) x d) l d)
    = dict_get k d ++ filter (fun x => String.eqb k (key x)) l).
  { induction l as [|x l IH]; intros d; cbn [fold_left filter].
    - rewrite app_nil_r. reflexivity.
    - rewrite IH, dict_get_append.
      destruct (String.eqb k (key x)); [rewrite <- app_assoc|]; reflexivity. }
  apply (Hgen []).
Qed.

(** The groups together hold every element exactly once. *)
Lemma group_by_partition {V} (key : V -> string) (l : list V) :
  Permutation (List.concat (map snd (group_by key l))) l.
Proof.
  unfold group_by.
  assert (Happ : forall k (v : V) d,
    Permutation (List.concat (map snd (dict_append k v d)))
      (List.concat (map snd d) ++ [v])).
  { intros k v. induction d as [|[k' vs] d IH]; cbn [dict_append].
    - reflexivity.
    - destruct (String.eqb k k'); cbn [map snd List.concat].
      + rewrite <- !app_assoc. apply Permutation_app_head.
        apply Permutation_app_comm.
      + rewrite <- app_assoc. apply Permutation_app_head. exact IH. }
  assert (Hgen : forall d,
    Permutation
      (List.concat (map snd (fold_left (fun d x => dict_append (key x) x d) l d)))
      (List.concat (map snd d) ++ l)).
  { induction l as [|x l IH]; intros d; cbn [fold_left].
    - rewrite app_nil_r. reflexivity.
    - rewrite IH, Happ, <- app_assoc. reflexivity. }
  apply (Hgen []).
Qed.

(** An entry is in the bucket of each of its tags, in full, and an
    entry without tags is in "No Strategy" only. *)
Lemma strategy_groups_get (positions : list ClosedPosition) (k : string) :
  dict_get k (strategy_groups positions)
  = flat_map (strategy_contribution k) positions.
Proof.
  unfold strategy_groups.
  assert (Htags : forall (pos : ClosedPosition) (ts : list string)
                         (d : list (string * list ClosedPosition)),
    dict_get k (fold_left (fun g tag => dict_append tag pos g) ts d)
    = dict_get k d ++ map (fun _ => pos) (filter (String.eqb k) ts)).
  { intros pos. induction ts as [|t ts IH]; intros d; cbn [fold_left filter].
    - rewrite app_nil_r. reflexivity.
    - rewrite IH, dict_get_append.
      destruct (String.eqb k t); cbn [map]; [rewrite <- app_assoc|]; reflexivity. }
  assert (Hgen : forall d,
    dict_get k (fold_left add_to_strategy_groups positions d)
    = dict_get k d ++ flat_map (strategy_contribution k) positions).
  { induction positions as [|pos ps IH]; intros d; cbn [fold_left flat_map].
    - rewrite app_nil_r. reflexivity.
    - rewrite IH, app_assoc. f_equal.
      unfold add_to_strategy_groups, strategy_contribution.
      destruct (truthy (tags pos)); [apply Htags|].
      rewrite dict_get_append.
      destruct (String.eqb k "No Strategy"); [reflexivity|].
      rewrite app_nil_r. reflexivity. }
  apply (Hgen []).
Qed.

(* ===================================================================== *)
(** * The entry point *)
(* ===================================================================== *)

(** The analysis of a fill list is the empty analysis or an exception:
    with at least one entry the overall breakdown raises. *)
Lemma analyse_trades_outcome (self : TradeLogService) (trades : list Trade)
  (time_period : string) :
  analyse_trades self trades time_period
  = Return (empty_analysis self time_period)
  \/ exists e, analyse_trades self trades time_period = Raise e.
Proof.
  unfold analyse_trades.
  destruct trades as [|t trades]; [left; reflexivity|]. cbn [truthy negb].
  destruct (_calculate_positions_pnl self (t :: trades)) as [[|p ps]|e];
    cbn [bind].
  - left. reflexivity.
  - right. rewrite _calculate_breakdown_raises. eexists; reflexivity.
  - right. eexists; reflexivity.
Qed.

(** Whatever the fills, the entry point answers with the empty
    analysis. *)
Lemma get_win_loss_analysis_is_empty (self : TradeLogService) (uid : Z)
  (time_period : string) :
  get_win_loss_analysis self uid time_period
  = empty_analysis self time_period.
Proof.
  unfold get_win_loss_analysis, win_loss_try_block.
  destruct (query_period_trades self uid time_period) as [trades|e];
    cbn [bind]; [|reflexivity].
  destruct (analyse_trades_outcome self trades time_period) as [H|[e H]];
    rewrite H; reflexivity.
Qed.

(** C10. When anything inside the [try] block raises, the entry point
    returns normally: the overall breakdown is all-zero, the three views
    are empty lists and the requested period is echoed; this is the
    very result obtained from a data base without trades. *)
Theorem failure_gives_empty_analysis (self : TradeLogService) (uid : Z)
  (time_period : string) (e : exn) :
  win_loss_try_block self uid time_period = Raise e ->
  get_win_loss_analysis self uid time_period
  = {| WinLossAnalysis.overall := _empty_breakdown self;
       WinLossAnalysis.by_timeframe := [];
       WinLossAnalysis.by_symbol := [];
       WinLossAnalysis.by_strategy := [];
       WinLossAnalysis.time_period := time_period |}
  /\ forall empty_db : TradeLogService,
       trades (db empty_db) = [] ->
       get_win_loss_analysis self uid time_period
       = get_win_loss_analysis empty_db uid time_period.
Proof.
  intros Hraise. split.
  - unfold get_win_loss_analysis. rewrite Hraise. reflexivity.
  - intros empty_db _. rewrite !get_win_loss_analysis_is_empty. reflexivity.
Qed.

Lemma failure_gives_empty_analysis_witness :
  win_loss_try_block (no_tags_service scenario_A) 7 "all" = Raise TypeError
  /\ get_win_loss_analysis (no_tags_service scenario_A) 7 "all"
     = {| WinLossAnalysis.overall :=
            _empty_breakdown (no_tags_service scenario_A);
          WinLossAnalysis.by_timeframe := [];
          WinLossAnalysis.by_symbol := [];
          WinLossAnalysis.by_strategy := [];
          WinLossAnalysis.time_period := "all" |}
  /\ forall empty_db : TradeLogService,
       trades (db empty_db) = [] ->
       get_win_loss_analysis (no_tags_service scenario_A) 7 "all"
       = get_win_loss_analysis empty_db 7 "all".
Proof.
  assert (H : win_loss_try_block (no_tags_service scenario_A) 7 "all"
              = Raise TypeError) by (vm_compute; reflexivity).
  split; [exact H|].
  apply (failure_gives_empty_analysis (no_tags_service scenario_A) 7 "all"
           TypeError H).
Defined.

(** C1 on the code.  In Scenario A position reconstruction returns
    exactly one entry, with closed quantity 50, entry price 150.50, exit
    price 155.25 and realized P&L 236.50; the breakdown over that entry
    is not computed: the calculator raises TypeError, and the entry
    point hands out the all-zero analysis. *)
Theorem scenario_A_breakdown_raises :
  _calculate_positions_pnl (no_tags_service scenario_A) scenario_A
  = Return [scenario_A_entry]
  /\ d_eqb (pos_quantity scenario_A_entry) (Decimal_of_int 50) = true
  /\ d_eqb (entry_price scenario_A_entry) (mkDecimal 15050 (-2)) = true
  /\ d_eqb (exit_price scenario_A_entry) (mkDecimal 15525 (-2)) = true
  /\ d_eqb (pnl scenario_A_entry) (mkDecimal 23650 (-2)) = true
  /\ _calculate_breakdown (no_tags_service scenario_A) [scenario_A_entry]
     = Raise TypeError
  /\ get_win_loss_analysis (no_tags_service scenario_A) 7 "all"
     = empty_analysis (no_tags_service scenario_A) "all".
Proof. repeat split; vm_compute; reflexivity. Qed.

(* ===================================================================== *)
(** * The wall clock *)
(* ===================================================================== *)

(** [_get_cutoff_date] reads the clock ([datetime.now()], line 341):
    its result moves with it. *)
Example cutoff_reads_wall_clock :
  _get_cutoff_date (at_time tagged_service (datetime_of 2025 6 1 12 0 0)) "1m"
  = Return (datetime_of 2025 5 2 12 0 0)
  /\ _get_cutoff_date (at_time tagged_service (datetime_of 2026 1 1 0 0 0)) "1m"
     = Return (datetime_of 2025 12 2 0 0 0).
Proof. split; vm_compute; reflexivity. Qed.

(* ===================================================================== *)
(** * Fills that violate the preconditions *)
(* ===================================================================== *)

Lemma for_each_raise_inv {A S} (P : exn -> Prop) (body : A -> S -> result S) :
  (forall x s e, body x s = Raise e -> P e) ->
  forall l s e, for_each body l s = Raise e -> P e.
Proof.
  intros Hbody. induction l as [|x l IH]; intros s e H; cbn [for_each] in H.
  - discriminate.
  - destruct (body x s) as [s'|e'] eqn:Hx; cbn [bind] in H.
    + eapply IH; exact H.
    + injection H as <-. eapply Hbody; exact Hx.
Qed.

Lemma d_div_raise (a b : Decimal) (e : exn) :
  d_div a b = Raise e -> is_division_error e.
Proof.
  unfold d_div, is_division_error.
  destruct (d_coef b =? 0).
  - destruct (d_coef a =? 0); intros H; injection H as <-; auto.
  - destruct (d_coef a =? 0); [discriminate|].
    destruct (0 <=? _); destruct (_ =? 0);
      try destruct (strip_zeros _ _ _ _); discriminate.
Qed.

Lemma for_each_raise_In {A S} (P : exn -> Prop) (body : A -> S -> result S)
  (l : list A) :
  (forall x s e, In x l -> body x s = Raise e -> P e) ->
  forall s e, for_each body l s = Raise e -> P e.
Proof.
  induction l as [|x l IH]; intros Hbody s e H; cbn [for_each] in H.
  - discriminate.
  - destruct (body x s) as [s'|e'] eqn:Hx; cbn [bind] in H.
    + eapply IH; [|exact H]. intros y s0 e0 Hy. apply Hbody. right. exact Hy.
    + injection H as <-. eapply Hbody; [left; reflexivity | exact Hx].
Qed.

(** A step raises on a BUY whose average price is a division by zero,
    or on a closing fill whose commission is NULL. *)
Lemma process_trade_raise (self : TradeLogService) (symbol : string)
  (symbol_trades : list Trade) (it : nat * Trade) (st : LoopState) (e : exn) :
  process_trade self symbol symbol_trades it st = Raise e ->
  is_division_error e
  \/ (e = TypeError /\ is_BUY (snd it) = false /\ commission (snd it) = None).
Proof.
  destruct it as [i trade]. unfold process_trade. cbn [snd].
  destruct (is_BUY trade).
  - unfold buy_avg_price.
    destruct (d_eqb (position_qty st) (Decimal_of_int 0)); [discriminate|].
    destruct (d_div _ _) as [q|e'] eqn:Hdiv; cbn [bind]; [discriminate|].
    intros H; injection H as <-. left. eapply d_div_raise; exact Hdiv.
  - destruct (d_gtb (position_qty st) (Decimal_of_int 0)); [|discriminate].
    destruct (closing_entry _ _ _ _ _ _ _) as [entry|e'] eqn:Hentry;
      cbn [bind]; [discriminate|].
    intros H; injection H as <-. right.
    apply closing_entry_Raise in Hentry. tauto.
Qed.

(** Rewriting the side column commutes with grouping, sorting and
    enumerating. *)

Lemma dict_append_map {V} (f : V -> V) (k : string) (v : V)
  (d : list (string * list V)) :
  dict_append k (f v) (map (fun item => (fst item, map f (snd item))) d)
  = map (fun item => (fst item, map f (snd item))) (dict_append k v d).
Proof.
  induction d as [|[k' vs] d IH]; cbn [dict_append map fst snd].
  - reflexivity.
  - destruct (String.eqb k k'); cbn [map fst snd].
    + rewrite map_app. reflexivity.
    + rewrite IH. reflexivity.
Qed.

Lemma group_by_map {V} (key : V -> string) (f : V -> V) (l : list V) :
  (forall x, key (f x) = key x) ->
  group_by key (map f l)
  = map (fun item => (fst item, map f (snd item))) (group_by key l).
Proof.
  intros Hkey. unfold group_by.
  assert (Hgen : forall d,
    fold_left (fun d x => dict_append (key x) x d) (map f l)
      (map (fun item => (fst item, map f (snd item))) d)
    = map (fun item => (fst item, map f (snd item)))
        (fold_left (fun d x => dict_append (key x) x d) l d)).
  { induction l as [|x l IH]; intros d; cbn [map fold_left].
    - reflexivity.
    - rewrite Hkey, dict_append_map. apply IH. }
  apply (Hgen []).
Qed.

Lemma insert_sorted_map {A} (ltb : A -> A -> bool) (f : A -> A) (x : A)
  (l : list A) :
  (forall a b, ltb (f a) (f b) = ltb a b) ->
  insert_sorted ltb (f x) (map f l) = map f (insert_sorted ltb x l).
Proof.
  intros Hltb. induction l as [|y l IH]; cbn [insert_sorted map].
  - reflexivity.
  - rewrite Hltb. destruct (ltb x y); cbn [map]; [reflexivity|].
    rewrite IH. reflexivity.
Qed.

Lemma stable_sort_map {A} (ltb : A -> A -> bool) (f : A -> A) (l : list A) :
  (forall a b, ltb (f a) (f b) = ltb a b) ->
  stable_sort ltb (map f l) = map f (stable_sort ltb l).
Proof.
  intros Hltb. unfold stable_sort.
  assert (Hgen : forall acc,
    fold_left (fun sorted x => insert_sorted ltb x sorted) (map f l)
      (map f acc)
    = map f (fold_left (fun sorted x => insert_sorted ltb x sorted) l acc)).
  { induction l as [|x l IH]; intros acc; cbn [map fold_left].
    - reflexivity.
    - rewrite insert_sorted_map by exact Hltb. apply IH. }
  apply (Hgen []).
Qed.

Lemma enumerate_from_map {A} (f : A -> A) (l : list A) :
  forall start,
  enumerate_from start (map f l)
  = map (fun it => (fst it, f (snd it))) (enumerate_from start l).
Proof.
  induction l as [|x l IH]; intros start; cbn [map enumerate_from fst snd].
  - reflexivity.
  - rewrite IH. reflexivity.
Qed.

Lemma for_each_map {A B S} (g : A -> B) (body : B -> S -> result S)
  (l : list A) (s : S) :
  for_each body (map g l) s = for_each (fun x => body (g x)) l s.
Proof.
  revert s; induction l as [|x l IH]; intros s; cbn [map for_each].
  - reflexivity.
  - destruct (body (g x) s); cbn [bind]; [apply IH|reflexivity].
Qed.

Lemma filter_map_same {A} (p : A -> bool) (f : A -> A) (l : list A) :
  (forall x, p (f x) = p x) ->
  filter p (map f l) = map f (filter p l).
Proof.
  intros Hp. induction l as [|x l IH]; cbn [map filter].
  - reflexivity.
  - rewrite Hp. destruct (p x); cbn [map]; rewrite IH; reflexivity.
Qed.

Lemma last_opt_map {A} (f : A -> A) (l : list A) :
  last_opt (map f l) = option_map f (last_opt l).
Proof.
  unfold last_opt. rewrite <- map_rev. destruct (rev l); reflexivity.
Qed.

Lemma is_BUY_normalise_side (t : Trade) :
  is_BUY (normalise_side t) = is_BUY t.
Proof.
  unfold normalise_side. destruct (is_BUY t) eqn:H; [exact H|reflexivity].
Qed.

Lemma normalise_side_fields (t : Trade) :
  trade_pk (normalise_side t) = trade_pk t
  /\ symbol (normalise_side t) = symbol t
  /\ quantity (normalise_side t) = quantity t
  /\ price (normalise_side t) = price t
  /\ trade_date (normalise_side t) = trade_date t
  /\ commission (normalise_side t) = commission t.
Proof. unfold normalise_side. destruct (is_BUY t); repeat split. Qed.

Lemma process_trade_normalise_side (self : TradeLogService) (symbol : string)
  (symbol_trades : list Trade) (i : nat) (trade : Trade) (st : LoopState) :
  process_trade self symbol (map normalise_side symbol_trades)
    (i, normalise_side trade) st
  = process_trade self symbol symbol_trades (i, trade) st.
Proof.
  destruct (normalise_side_fields trade) as [_ [_ [Hq [Hp [Hd Hc]]]]].
  unfold process_trade, buy_avg_price, closing_entry.
  rewrite is_BUY_normalise_side, Hq, Hp, Hd, Hc.
  rewrite firstn_map, (filter_map_same is_BUY normalise_side)
    by apply is_BUY_normalise_side.
  rewrite last_opt_map.
  destruct (last_opt (filter is_BUY (firstn i symbol_trades))) as [b|];
    cbn [option_map]; [|reflexivity].
  destruct (normalise_side_fields b) as [Hpk [_ [_ [_ [Hbd _]]]]].
  unfold query_tag_names, query_tag_assocs. rewrite Hpk, Hbd. reflexivity.
Qed.

Lemma _calculate_positions_pnl_normalise_side (self : TradeLogService)
  (trades : list Trade) :
  _calculate_positions_pnl self (map normalise_side trades)
  = _calculate_positions_pnl self trades.
Proof.
  unfold _calculate_positions_pnl.
  rewrite group_by_map by (intros x; apply normalise_side_fields).
  rewrite for_each_map. apply for_each_ext.
  intros [symbol symbol_trades] results _.
  unfold process_symbol, sort_by_trade_date; cbn [fst snd].
  rewrite stable_sort_map
    by (intros a b; destruct (normalise_side_fields a) as [_ [_ [_ [_ [-> _]]]]];
        destruct (normalise_side_fields b) as [_ [_ [_ [_ [-> _]]]]];
        reflexivity).
  unfold symbol_loop, enumerate. rewrite enumerate_from_map, for_each_map.
  f_equal. apply for_each_ext. intros [i trade] st _. cbn [fst snd].
  apply process_trade_normalise_side.
Qed.

(* ===================================================================== *)
(** * Grouping and sorting of the fills *)
(* ===================================================================== *)

(** The fills of a symbol are processed in time order... *)
Lemma insert_sorted_by_date (x : Trade) (l : list Trade) :
  Sorted (fun a b => trade_date a <= trade_date b) l ->
  Sorted (fun a b => trade_date a <= trade_date b)
    (insert_sorted (fun a b => trade_date a <? trade_date b) x l).
Proof.
  induction l as [|y l IH]; intros Hs; cbn [insert_sorted].
  - repeat constructor.
  - destruct (Z.ltb_spec (trade_date x) (trade_date y)) as [Hlt|Hge].
    + constructor; [exact Hs|]. constructor. lia.
    + apply Sorted_inv in Hs. destruct Hs as [Hs Hhd].
      constructor; [apply IH; exact Hs|].
      destruct l as [|z l]; cbn [insert_sorted].
      * constructor. exact Hge.
      * destruct (trade_date x <? trade_date z); constructor;
          [exact Hge | inversion Hhd; assumption].
Qed.

Lemma sort_by_trade_date_sorted (l : list Trade) :
  Sorted (fun a b => trade_date a <= trade_date b) (sort_by_trade_date l).
Proof.
  unfold sort_by_trade_date, stable_sort.
  assert (Hgen : forall acc,
    Sorted (fun a b => trade_date a <= trade_date b) acc ->
    Sorted (fun a b => trade_date a <= trade_date b)
      (fold_left
         (fun sorted x =>
            insert_sorted (fun a b => trade_date a <? trade_date b) x sorted)
         l acc)).
  { induction l as [|x l IH]; intros acc Hacc; cbn [fold_left].
    - exact Hacc.
    - apply IH, insert_sorted_by_date, Hacc. }
  apply Hgen. constructor.
Qed.

(** ... and they are the fills that were given, each once. *)
Lemma insert_sorted_perm {A} (ltb : A -> A -> bool) (x : A) (l : list A) :
  Permutation (insert_sorted ltb x l) (x :: l).
Proof.
  induction l as [|y l IH]; cbn [insert_sorted].
  - reflexivity.
  - destruct (ltb x y); [reflexivity|].
    rewrite IH. apply perm_swap.
Qed.

Lemma stable_sort_perm {A} (ltb : A -> A -> bool) (l : list A) :
  Permutation (stable_sort ltb l) l.
Proof.
  unfold stable_sort.
  assert (Hgen : forall acc,
    Permutation
      (fold_left (fun sorted x => insert_sorted ltb x sorted) l acc)
      (acc ++ l)).
  { induction l as [|x l IH]; intros acc; cbn [fold_left].
    - rewrite app_nil_r. reflexivity.
    - rewrite IH, insert_sorted_perm. apply Permutation_middle. }
  apply (Hgen []).
Qed.

Lemma group_by_Forall {V} (P : V -> Prop) (key : V -> string) (l : list V) :
  Forall P l ->
  Forall (fun item => Forall P (snd item)) (group_by key l).
Proof.
  intros Hl. apply Forall_forall. intros [k g] Hin.
  apply Forall_forall. intros x Hx.
  rewrite Forall_forall in Hl. apply Hl.
  apply (Permutation_in x (group_by_partition key l)).
  apply in_concat. exists g. split; [|exact Hx].
  apply (in_map snd) in Hin. exact Hin.
Qed.

Lemma length_enumerate_from {A} (l : list A) :
  forall start, List.length (enumerate_from start l) = List.length l.
Proof.
  induction l as [|x l IH]; intros start; cbn; [reflexivity|].
  rewrite IH. reflexivity.
Qed.

(** On fills with positive quantities, and a commission where one is
    read, position reconstruction returns. *)
Lemma _calculate_positions_pnl_returns (self : TradeLogService)
  (trades : list Trade) :
  positive_quantities trades ->
  closing_commissions_present trades ->
  exists results, _calculate_positions_pnl self trades = Return results.
Proof.
  intros Hq Hfees. unfold _calculate_positions_pnl.
  assert (Hboth : Forall
                    (fun t => d_gtb (quantity t) d_zero = true
                              /\ (is_BUY t = false -> commission t <> None))
                    trades).
  { apply Forall_forall. intros t Ht. split.
    - exact (proj1 (Forall_forall _ _) Hq t Ht).
    - exact (proj1 (Forall_forall _ _) Hfees t Ht). }
  pose proof (group_by_Forall _ symbol trades Hboth) as Hgroups.
  generalize (@nil ClosedPosition).
  induction Hgroups as [|[s g] groups Hg _ IH]; intros acc; cbn [for_each].
  - eexists; reflexivity.
  - cbn [snd] in Hg. unfold process_symbol at 1.
    assert (Hsorted : positive_quantities (sort_by_trade_date g)).
    { apply (proj1 (stable_sort_Forall _ _ g
                      (Forall_impl _ (fun t H => proj1 H) Hg))). }
    assert (Hsfees : closing_commissions_present (sort_by_trade_date g)).
    { apply (proj1 (stable_sort_Forall _ _ g
                      (Forall_impl _ (fun t H => proj2 H) Hg))). }
    destruct (symbol_loop_prefix self s (sort_by_trade_date g) acc Hsorted
                Hsfees (List.length (sort_by_trade_date g)) (le_n _))
      as [st [Hrun _]].
    rewrite firstn_all2 in Hrun
      by (unfold enumerate; rewrite length_enumerate_from; lia).
    unfold initial_state, d_zero in Hrun. rewrite Hrun. cbn [bind]. apply IH.
Qed.

(* ===================================================================== *)
(** * Position reconstruction, symbol by symbol *)
(* ===================================================================== *)

Lemma process_trade_prepend (self : TradeLogService) (symbol : string)
  (symbol_trades : list Trade) (it : nat * Trade) (st : LoopState)
  (acc : list ClosedPosition) :
  process_trade self symbol symbol_trades it (prepend_results acc st)
  = fmap (prepend_results acc)
      (process_trade self symbol symbol_trades it st).
Proof.
  destruct it as [i trade]. unfold process_trade, prepend_results, fmap.
  cbn [position_qty avg_price position_results].
  destruct (is_BUY trade).
  - destruct (buy_avg_price (position_qty st) (avg_price st) trade);
      reflexivity.
  - destruct (d_gtb (position_qty st) (Decimal_of_int 0));
      cbn [bind position_qty avg_price position_results]; [|reflexivity].
    destruct (closing_entry _ _ _ _ _ _ _);
      cbn [bind position_qty avg_price position_results]; [|reflexivity].
    rewrite <- app_assoc. reflexivity.
Qed.

Lemma symbol_loop_prepend (self : TradeLogService) (symbol : string)
  (symbol_trades : list Trade) (acc : list ClosedPosition) :
  forall (todo : list (nat * Trade)) (st : LoopState),
  symbol_loop self symbol symbol_trades todo (prepend_results acc st)
  = fmap (prepend_results acc)
      (symbol_loop self symbol symbol_trades todo st).
Proof.
  unfold symbol_loop.
  induction todo as [|it todo IH]; intros st; cbn [for_each].
  - reflexivity.
  - rewrite process_trade_prepend.
    destruct (process_trade self symbol symbol_trades it st) as [st1|e];
      cbn [fmap bind]; [apply IH | reflexivity].
Qed.

(** The outer loop body only appends: what it adds does not depend on
    the entries collected before. *)
Lemma process_symbol_prepend (self : TradeLogService)
  (item : string * list Trade) (acc : list ClosedPosition) :
  process_symbol self item acc = fmap (app acc) (symbol_events self item).
Proof.
  destruct item as [symbol symbol_trades].
  unfold symbol_events, process_symbol.
  pose proof (symbol_loop_prepend self symbol
                (sort_by_trade_date symbol_trades) acc
                (enumerate (sort_by_trade_date symbol_trades))
                {| position_qty := Decimal_of_int 0;
                   avg_price := Decimal_of_int 0;
                   position_results := [] |}) as H.
  unfold prepend_results at 1 in H.
  cbn [position_qty avg_price position_results] in H.
  rewrite app_nil_r in H. rewrite H. clear H.
  destruct (symbol_loop self symbol (sort_by_trade_date symbol_trades)
              (enumerate (sort_by_trade_date symbol_trades))
              {| position_qty := Decimal_of_int 0;
                 avg_price := Decimal_of_int 0;
                 position_results := [] |}); reflexivity.
Qed.

Lemma for_each_process_symbol (self : TradeLogService) :
  forall (groups : list (string * list Trade)) (acc : list ClosedPosition),
  for_each (process_symbol self) groups acc
  = fmap (fun events => acc ++ List.concat events)
      (map_result (symbol_events self) groups).
Proof.
  induction groups as [|item groups IH]; intros acc;
    cbn [for_each map_result].
  - cbn. rewrite app_nil_r. reflexivity.
  - rewrite process_symbol_prepend.
    destruct (symbol_events self item) as [ev|e]; cbn [fmap bind];
      [|reflexivity].
    rewrite IH.
    destruct (map_result (symbol_events self) groups) as [evs|e];
      cbn [fmap bind List.concat]; [|reflexivity].
    rewrite app_assoc. reflexivity.
Qed.

(** X1. The result of position reconstruction is the concatenation of
    the entries of each symbol, the symbols taken in the order of their
    first fill and each symbol processed on its own, from an empty lot;
    it raises exactly when the run of some symbol raises. *)
Theorem positions_pnl_by_symbol (self : TradeLogService)
  (trades : list Trade) :
  _calculate_positions_pnl self trades
  = fmap (@List.concat ClosedPosition)
      (map_result (symbol_events self) (group_by symbol trades)).
Proof.
  unfold _calculate_positions_pnl. rewrite for_each_process_symbol.
  destruct (map_result _ _); reflexivity.
Qed.

(* ===================================================================== *)
(** * Grouping *)
(* ===================================================================== *)

Lemma dict_append_keys {V} (k : string) (v : V) (d : list (string * list V)) :
  map fst (dict_append k v d)
  = if existsb (String.eqb k) (map fst d) then map fst d
    else map fst d ++ [k].
Proof.
  induction d as [|[k' vs] d IH]; cbn [dict_append map fst existsb].
  - reflexivity.
  - destruct (String.eqb k k'); cbn [map fst orb]; [reflexivity|].
    rewrite IH. destruct (existsb (String.eqb k) (map fst d)); reflexivity.
Qed.

Lemma group_by_keys_NoDup {V} (key : V -> string) (l : list V) :
  NoDup (map fst (group_by key l)).
Proof.
  unfold group_by.
  assert (Hgen : forall d : list (string * list V),
    NoDup (map fst d) ->
    NoDup (map fst (fold_left (fun d x => dict_append (key x) x d) l d))).
  { induction l as [|x l IH]; intros d Hd; cbn [fold_left]; [exact Hd|].
    apply IH. rewrite dict_append_keys.
    destruct (existsb (String.eqb (key x)) (map fst d)) eqn:Hex; [exact Hd|].
    apply NoDup_app; [exact Hd | repeat constructor; intros [] |].
    intros k Hin [<-|[]].
    assert (existsb (String.eqb (key x)) (map fst d) = true).
    { apply existsb_exists. exists (key x). split; [exact Hin|].
      apply String.eqb_refl. }
    congruence. }
  apply Hgen. constructor.
Qed.

Lemma dict_get_In {V} (d : list (string * list V)) (k : string) (g : list V) :
  NoDup (map fst d) -> In (k, g) d -> dict_get k d = g.
Proof.
  induction d as [|[k' vs] d IH]; intros Hnd Hin; [destruct Hin|].
  cbn [map fst] in Hnd. inversion Hnd as [|? ? Hnotin Hnd']; subst.
  cbn [dict_get]. destruct Hin as [Heq|Hin].
  - injection Heq as -> ->. rewrite String.eqb_refl. reflexivity.
  - destruct (String.eqb_spec k k') as [->|_]; [|apply IH; assumption].
    exfalso. apply Hnotin. apply (in_map fst) in Hin. exact Hin.
Qed.

Lemma In_dict_get {V} (d : list (string * list V)) (k : string) :
  nonempty_groups d -> truthy (dict_get k d) = true ->
  In (k, dict_get k d) d.
Proof.
  induction d as [|[k' vs] d IH]; intros Hne Hg; [discriminate|].
  inversion Hne as [|? ? _ Hne']; subst. cbn [dict_get] in *.
  destruct (String.eqb_spec k k') as [->|_]; [left; reflexivity|].
  right. apply IH; assumption.
Qed.

Lemma truthy_filter_In {A} (p : A -> bool) (l : list A) (x : A) :
  In x l -> p x = true -> truthy (filter p l) = true.
Proof.
  intros Hin Hp.
  assert (Hf : In x (filter p l)) by (apply filter_In; split; assumption).
  destruct (filter p l); [destruct Hf | reflexivity].
Qed.

(** X2. Grouping by a key ([for x in l: groups[key(x)].append(x)])
    yields one bucket per distinct key and no empty bucket; the bucket
    of a key holds exactly the elements with that key, in input order,
    and every element is in the bucket of its key. *)
Theorem group_by_buckets {V} (key : V -> string) (l : list V) :
  NoDup (map fst (group_by key l))
  /\ (forall k g, In (k, g) (group_by key l) ->
        g <> [] /\ g = filter (fun x => String.eqb k (key x)) l)
  /\ (forall x, In x l ->
        In (key x, filter (fun y => String.eqb (key x) (key y)) l)
          (group_by key l)).
Proof.
  pose proof (group_by_keys_NoDup key l) as Hnd.
  destruct (group_by_nonempty key l) as [Hne _].
  split; [exact Hnd|]. split.
  - intros k g Hin. split.
    + unfold nonempty_groups in Hne. rewrite Forall_forall in Hne.
      specialize (Hne _ Hin). cbn in Hne. intros ->. discriminate.
    + rewrite <- (dict_get_In _ _ _ Hnd Hin). apply group_by_get.
  - intros x Hx. rewrite <- group_by_get. apply In_dict_get; [exact Hne|].
    rewrite group_by_get. apply (truthy_filter_In _ l x Hx).
    apply String.eqb_refl.
Qed.

Lemma group_by_one_key {V} (key : V -> string) (s : string) (l : list V) :
  Forall (fun x => key x = s) l ->
  group_by key l = if truthy l then [(s, l)] else [].
Proof.
  intros Hall. unfold group_by.
  assert (Hgen : forall l', Forall (fun x => key x = s) l' ->
    forall acc : list V,
    fold_left (fun d x => dict_append (key x) x d) l' [(s, acc)]
    = [(s, acc ++ l')]).
  { induction 1 as [|x l' Hx _ IH]; intros acc; cbn [fold_left].
    - rewrite app_nil_r. reflexivity.
    - rewrite Hx. cbn [dict_append]. rewrite String.eqb_refl.
      rewrite IH, <- app_assoc. reflexivity. }
  destruct Hall as [|x l Hx Hall]; [reflexivity|].
  cbn [fold_left truthy dict_append]. rewrite Hx.
  apply (Hgen l Hall [x]).
Qed.

Lemma symbol_events_symbol (self : TradeLogService) (k : string)
  (g : list Trade) (ev : list ClosedPosition) :
  symbol_events self (k, g) = Return ev ->
  Forall (fun e => pos_symbol e = k) ev.
Proof.
  unfold symbol_events, process_symbol. intros H.
  destruct (symbol_loop self k (sort_by_trade_date g)
              (enumerate (sort_by_trade_date g)) _) as [st|] eqn:Hloop;
    cbn [bind] in H; [|discriminate].
  injection H as <-. apply Forall_forall. intros e He.
  destruct (symbol_loop_results self k (sort_by_trade_date g) _ _ st
              Hloop e He) as [[]|Hs].
  exact Hs.
Qed.

Lemma filter_by_symbol (k s : string) (ev : list ClosedPosition) :
  Forall (fun e => pos_symbol e = k) ev ->
  filter (fun e => String.eqb s (pos_symbol e)) ev
  = if String.eqb s k then ev else [].
Proof.
  induction 1 as [|e ev He _ IH]; cbn [filter].
  - destruct (String.eqb s k); reflexivity.
  - rewrite He, IH. destruct (String.eqb s k); reflexivity.
Qed.

(** Among the entries of all symbols, those of symbol [s] are the
    entries of the group of [s]. *)
Lemma events_of_symbol (self : TradeLogService) (s : string) :
  forall (groups : list (string * list Trade))
         (evs : list (list ClosedPosition)),
  NoDup (map fst groups) ->
  map_result (symbol_events self) groups = Return evs ->
  (forall g, In (s, g) groups ->
     symbol_events self (s, g)
     = Return (filter (fun e => String.eqb s (pos_symbol e))
                 (List.concat evs)))
  /\ (~ In s (map fst groups) ->
      filter (fun e => String.eqb s (pos_symbol e)) (List.concat evs) = []).
Proof.
  induction groups as [|[k g0] groups IH]; intros evs Hnd Hrun.
  - cbn in Hrun. injection Hrun as <-. split; [intros g []|reflexivity].
  - cbn [map_result] in Hrun.
    destruct (symbol_events self (k, g0)) as [ev|] eqn:Hev;
      cbn [bind] in Hrun; [|discriminate].
    destruct (map_result (symbol_events self) groups) as [evs'|] eqn:Hrest;
      cbn [bind] in Hrun; [|discriminate].
    injection Hrun as <-. cbn [List.concat]. rewrite filter_app.
    rewrite (filter_by_symbol k s ev (symbol_events_symbol _ _ _ _ Hev)).
    cbn [map fst] in Hnd. inversion Hnd as [|? ? Hnotin Hnd']; subst.
    destruct (IH evs' Hnd' eq_refl) as [IHin IHout].
    split.
    + intros g [Heq|Hin].
      * injection Heq as -> ->. rewrite String.eqb_refl, Hev.
        rewrite IHout by exact Hnotin. rewrite app_nil_r. reflexivity.
      * assert (Hne : s <> k).
        { intros ->. apply Hnotin. apply (in_map fst) in Hin. exact Hin. }
        apply String.eqb_neq in Hne. rewrite Hne. cbn [app].
        apply IHin. exact Hin.
    + intros Hout. cbn [map fst] in Hout.
      destruct (String.eqb_spec s k) as [->|_];
        [exfalso; apply Hout; left; reflexivity|].
      cbn [app]. apply IHout. intros Hin. apply Hout. right. exact Hin.
Qed.

(** X3. Symbols do not interact: when position reconstruction returns,
    its entries for a symbol are exactly what it returns for the fills
    of that symbol alone. *)
Theorem positions_pnl_of_one_symbol (self : TradeLogService)
  (trades : list Trade) (s : string) (results : list ClosedPosition) :
  _calculate_positions_pnl self trades = Return results ->
  _calculate_positions_pnl self
    (filter (fun t => String.eqb s (symbol t)) trades)
  = Return (filter (fun e => String.eqb s (pos_symbol e)) results).
Proof.
  unfold _calculate_positions_pnl. rewrite !for_each_process_symbol.
  destruct (map_result (symbol_events self) (group_by symbol trades))
    as [evs|] eqn:Hrun; cbn [fmap bind]; [|discriminate].
  intros H. injection H as <-. cbn [app].
  destruct (events_of_symbol self s _ evs (group_by_keys_NoDup symbol trades)
              Hrun) as [Hin Hout].
  set (mine := filter (fun t => String.eqb s (symbol t)) trades).
  assert (Hkey : Forall (fun t => symbol t = s) mine).
  { apply Forall_forall. intros t Ht. apply filter_In in Ht.
    destruct Ht as [_ Ht]. apply String.eqb_eq in Ht. auto. }
  rewrite (group_by_one_key symbol s mine Hkey).
  destruct (truthy mine) eqn:Hmine.
  - assert (Hgrp : In (s, mine) (group_by symbol trades)).
    { unfold mine in *. rewrite <- group_by_get in *.
      apply In_dict_get; [apply group_by_nonempty | exact Hmine]. }
    cbn [map_result]. rewrite (Hin mine Hgrp). cbn [bind fmap List.concat app].
    rewrite app_nil_r. reflexivity.
  - cbn [map_result fmap bind List.concat app]. rewrite Hout; [reflexivity|].
    intros Hs. apply in_map_iff in Hs. destruct Hs as [[k g] [Hk Hg]].
    cbn in Hk. subst k.
    pose proof (dict_get_In _ _ _ (group_by_keys_NoDup symbol trades) Hg) as Hget.
    rewrite group_by_get in Hget. fold mine in Hget.
    destruct (group_by_nonempty symbol trades) as [Hne _].
    unfold nonempty_groups in Hne. rewrite Forall_forall in Hne.
    specialize (Hne _ Hg). cbn in Hne. rewrite <- Hget in Hne. congruence.
Qed.

Lemma positions_pnl_of_one_symbol_witness :
  exists results,
    _calculate_positions_pnl (no_tags_service two_symbol_fills)
      two_symbol_fills = Return results
    /\ List.length results = 3%nat
    /\ List.length (filter (fun e => String.eqb "TSLA" (pos_symbol e)) results)
       = 1%nat
    /\ List.length
         (filter (fun t => String.eqb "TSLA" (symbol t)) two_symbol_fills)
       = 2%nat
    /\ _calculate_positions_pnl (no_tags_service two_symbol_fills)
         (filter (fun t => String.eqb "TSLA" (symbol t)) two_symbol_fills)
       = Return (filter (fun e => String.eqb "TSLA" (pos_symbol e)) results).
Proof.
  eexists. split; [vm_compute; reflexivity|].
  split; [reflexivity|]. split; [reflexivity|]. split; [reflexivity|].
  apply (positions_pnl_of_one_symbol (no_tags_service two_symbol_fills)
           two_symbol_fills "TSLA").
  vm_compute; reflexivity.
Defined.

(* ===================================================================== *)
(** * The entries of position reconstruction *)
(* ===================================================================== *)

Lemma subseq_length {A} (l1 l2 : list A) :
  subseq l1 l2 -> (List.length l1 <= List.length l2)%nat.
Proof. induction 1; cbn; lia. Qed.

Lemma subseq_In {A} (l1 l2 : list A) (x : A) :
  subseq l1 l2 -> In x l1 -> In x l2.
Proof.
  induction 1 as [|y l1 l2 _ IH|y l1 l2 _ IH]; intros Hin.
  - exact Hin.
  - right. apply IH. exact Hin.
  - destruct Hin as [->|Hin]; [left; reflexivity | right; apply IH; exact Hin].
Qed.

Lemma subseq_filter {A} (p : A -> bool) (l1 l2 : list A) :
  subseq l1 l2 -> Forall (fun x => p x = true) l1 -> subseq l1 (filter p l2).
Proof.
  induction 1 as [|y l1 l2 _ IH|y l1 l2 _ IH]; intros Hall; cbn [filter].
  - constructor.
  - destruct (p y); [apply subseq_skip|]; apply IH; exact Hall.
  - inversion Hall as [|? ? Hy Hall']; subst. rewrite Hy.
    apply subseq_take. apply IH. exact Hall'.
Qed.

Lemma subseq_map {A B} (f : A -> B) (l1 l2 : list A) :
  subseq l1 l2 -> subseq (map f l1) (map f l2).
Proof. induction 1; cbn [map]; constructor; assumption. Qed.

Lemma subseq_StronglySorted {A} (R : A -> A -> Prop) (l1 l2 : list A) :
  subseq l1 l2 -> StronglySorted R l2 -> StronglySorted R l1.
Proof.
  induction 1 as [|y l1 l2 Hsub IH|y l1 l2 Hsub IH]; intros Hs.
  - constructor.
  - apply StronglySorted_inv in Hs. apply IH. tauto.
  - apply StronglySorted_inv in Hs. destruct Hs as [Hs Hall].
    constructor; [apply IH; exact Hs|].
    apply Forall_forall. intros x Hx. rewrite Forall_forall in Hall.
    apply Hall. eapply subseq_In; eassumption.
Qed.

Lemma subseq_nil_l {A} (l : list A) : subseq [] l.
Proof. induction l; constructor; assumption. Qed.

(** The loop over one symbol emits its entries fill by fill: the new
    entries are paired, in order, with some of the fills processed, and
    each pair has what a step that keeps the invariant [Inv] promises
    in [P]. *)
Lemma symbol_loop_pairs (Inv : LoopState -> Prop)
  (P : Trade -> ClosedPosition -> Prop) (self : TradeLogService)
  (symbol : string) (symbol_trades : list Trade) :
  forall todo : list (nat * Trade),
  (forall it st st', In it todo -> Inv st ->
     process_trade self symbol symbol_trades it st = Return st' ->
     Inv st'
     /\ (position_results st' = position_results st
         \/ exists e, position_results st' = position_results st ++ [e]
                      /\ P (snd it) e)) ->
  forall st st', Inv st ->
  symbol_loop self symbol symbol_trades todo st = Return st' ->
  exists pairs : list (Trade * ClosedPosition),
    position_results st' = position_results st ++ map snd pairs
    /\ subseq (map fst pairs) (map snd todo)
    /\ Forall (fun p => P (fst p) (snd p)) pairs.
Proof.
  unfold symbol_loop.
  induction todo as [|it todo IH]; intros Hstep st st' Hinv Hrun.
  - cbn in Hrun. injection Hrun as <-. exists [].
    cbn. rewrite app_nil_r. repeat split; constructor.
  - cbn [for_each] in Hrun.
    destruct (process_trade self symbol symbol_trades it st) as [st1|] eqn:H1;
      cbn [bind] in Hrun; [|discriminate].
    destruct (Hstep it st st1 (or_introl eq_refl) Hinv H1) as [Hinv1 Hres].
    destruct (IH (fun it' s s' Hin => Hstep it' s s' (or_intror Hin))
                st1 st' Hinv1 Hrun) as [pairs [Hp [Hsub Hall]]].
    destruct Hres as [Hsame|[e [Hadd HP]]].
    + exists pairs. rewrite Hp, Hsame. repeat split; [|exact Hall].
      cbn [map]. apply subseq_skip. exact Hsub.
    + exists ((snd it, e) :: pairs). rewrite Hp, Hadd, <- app_assoc.
      repeat split.
      * cbn [map fst snd]. apply subseq_take. exact Hsub.
      * constructor; [exact HP | exact Hall].
Qed.

(** What a step appends, if anything, closes the fill of the step. *)
Lemma process_trade_closes (self : TradeLogService) (sym : string)
  (symbol_trades : list Trade) (it : nat * Trade) (st st' : LoopState) :
  symbol (snd it) = sym ->
  process_trade self sym symbol_trades it st = Return st' ->
  position_results st' = position_results st
  \/ exists e, position_results st' = position_results st ++ [e]
               /\ closes (snd it) e
               /\ pos_quantity e = py_min (quantity (snd it)) (position_qty st)
               /\ d_gtb (position_qty st) d_zero = true.
Proof.
  destruct it as [i trade]. cbn [snd]. intros Hsym. unfold process_trade.
  destruct (is_BUY trade) eqn:Hside.
  - destruct (buy_avg_price _ _ _); cbn [bind]; intros H; [|discriminate].
    injection H as <-. left. reflexivity.
  - fold d_zero. destruct (d_gtb (position_qty st) d_zero) eqn:Hgt;
      [|intros H; injection H as <-; left; reflexivity].
    destruct (closing_entry _ _ _ _ _ _ _) as [entry|] eqn:Hentry;
      cbn [bind]; intros H; [|discriminate].
    injection H as <-.
    apply closing_entry_Return in Hentry. destruct Hentry as [fee [Hfee ->]].
    right. eexists. split; [reflexivity|].
    split; [|split; [reflexivity | reflexivity]].
    unfold closes, entry_for, gross_pnl.
    cbn [pos_symbol close_date exit_price entry_price pos_quantity pnl].
    repeat split; auto. exists fee. split; [exact Hfee | reflexivity].
Qed.

Lemma group_by_members {V} (key : V -> string) (l : list V) (k : string)
  (g : list V) (x : V) :
  In (k, g) (group_by key l) -> In x g -> In x l /\ key x = k.
Proof.
  intros Hg Hx.
  rewrite <- (dict_get_In _ _ _ (group_by_keys_NoDup key l) Hg) in Hx.
  rewrite group_by_get in Hx. apply filter_In in Hx. destruct Hx as [Hin Hk].
  apply String.eqb_eq in Hk. auto.
Qed.

Lemma sort_by_trade_date_In (l : list Trade) (t : Trade) :
  In t (sort_by_trade_date l) <-> In t l.
Proof.
  split; apply Permutation_in;
    [|symmetry]; apply stable_sort_perm.
Qed.

Lemma In_enumerate_from {A} (l : list A) :
  forall start (it : nat * A), In it (enumerate_from start l) -> In (snd it) l.
Proof.
  induction l as [|x l IH]; intros start it Hin; [destruct Hin|].
  destruct Hin as [<-|Hin]; [left; reflexivity | right; eapply IH; exact Hin].
Qed.

Lemma map_snd_enumerate_from {A} (l : list A) :
  forall start, map snd (enumerate_from start l) = l.
Proof.
  induction l as [|x l IH]; intros start; cbn; [reflexivity|].
  rewrite IH. reflexivity.
Qed.

(** The entries of one symbol, paired with the fills they close. *)
Lemma symbol_events_pairs (self : TradeLogService) (k : string)
  (g : list Trade) (ev : list ClosedPosition) :
  Forall (fun t => symbol t = k) g ->
  symbol_events self (k, g) = Return ev ->
  exists pairs : list (Trade * ClosedPosition),
    ev = map snd pairs
    /\ subseq (map fst pairs) (sort_by_trade_date g)
    /\ Forall (fun p => closes (fst p) (snd p)) pairs.
Proof.
  intros Hkey. unfold symbol_events, process_symbol. intros H.
  destruct (symbol_loop self k (sort_by_trade_date g)
              (enumerate (sort_by_trade_date g)) _) as [st|] eqn:Hloop;
    cbn [bind] in H; [|discriminate].
  injection H as <-.
  destruct (symbol_loop_pairs (fun _ => True) closes self k
              (sort_by_trade_date g) (enumerate (sort_by_trade_date g)))
    with (3 := Hloop) as [pairs [Hp [Hsub Hall]]]; [|exact I|].
  - intros it st0 st1 Hin _ Hstep. split; [exact I|].
    assert (Hsym : symbol (snd it) = k).
    { rewrite Forall_forall in Hkey. apply Hkey.
      apply sort_by_trade_date_In.
      apply (In_enumerate_from _ 0%nat). exact Hin. }
    destruct (process_trade_closes _ _ _ _ _ _ Hsym Hstep)
      as [Hsame|[e [Hadd [Hc _]]]]; [left; exact Hsame|].
    right. exists e. split; assumption.
  - exists pairs. cbn [position_results app] in Hp.
    unfold enumerate in Hsub. rewrite map_snd_enumerate_from in Hsub.
    repeat split; assumption.
Qed.

Lemma map_result_In {A B} (f : A -> result B) (l : list A) (ys : list B) :
  map_result f l = Return ys ->
  forall y, In y ys -> exists x, In x l /\ f x = Return y.
Proof.
  revert ys. induction l as [|x l IH]; intros ys H y Hy; cbn in H.
  - injection H as <-. destruct Hy.
  - destruct (f x) as [y0|] eqn:Hx; cbn [bind] in H; [|discriminate].
    destruct (map_result f l) as [ys0|]; cbn [bind] in H; [|discriminate].
    injection H as <-. destruct Hy as [<-|Hy].
    + exists x. split; [left; reflexivity | exact Hx].
    + destruct (IH ys0 eq_refl y Hy) as [x' [Hin Hfx]].
      exists x'. split; [right; exact Hin | exact Hfx].
Qed.

Lemma group_by_same_key {V} (key : V -> string) (l : list V) (k : string)
  (g : list V) :
  In (k, g) (group_by key l) -> Forall (fun x => key x = k) g.
Proof.
  intros Hg. apply Forall_forall. intros x Hx.
  eapply group_by_members; eassumption.
Qed.

(** X4. Every entry that position reconstruction returns closes one of
    the given fills: a fill that is not a BUY, whose symbol, timestamp
    and price the entry carries, and whose commission is deducted in
    full from the gross P&L of the entry, also when only part of the
    fill's quantity is matched. *)
Theorem every_entry_closes_a_fill (self : TradeLogService)
  (trades : list Trade) (results : list ClosedPosition) :
  _calculate_positions_pnl self trades = Return results ->
  forall e, In e results ->
  exists sell, In sell trades /\ closes sell e.
Proof.
  unfold _calculate_positions_pnl. rewrite for_each_process_symbol.
  destruct (map_result (symbol_events self) (group_by symbol trades))
    as [evs|] eqn:Hrun; cbn [fmap bind]; [|discriminate].
  intros H e He. injection H as <-. cbn [app] in He.
  apply in_concat in He. destruct He as [ev [Hev He]].
  destruct (map_result_In _ _ _ Hrun ev Hev) as [[k g] [Hg Hk]].
  destruct (symbol_events_pairs self k g ev (group_by_same_key _ _ _ _ Hg) Hk)
    as [pairs [-> [Hsub Hall]]].
  apply in_map_iff in He. destruct He as [[sell e'] [He' Hp]].
  cbn in He'. subst e'. exists sell. split.
  - apply (group_by_members symbol trades k g sell Hg).
    apply sort_by_trade_date_In. eapply subseq_In; [exact Hsub|].
    apply (in_map fst) in Hp. exact Hp.
  - rewrite Forall_forall in Hall. apply (Hall _ Hp).
Qed.

Lemma every_entry_closes_a_fill_witness :
  (exists results,
     _calculate_positions_pnl (no_tags_service two_symbol_fills)
       two_symbol_fills = Return results
     /\ List.length results = 3%nat
     /\ forall e, In e results ->
        exists sell, In sell two_symbol_fills /\ closes sell e).
Proof.
  eexists. split; [vm_compute; reflexivity|]. split; [reflexivity|].
  apply (every_entry_closes_a_fill (no_tags_service two_symbol_fills)
           two_symbol_fills).
  vm_compute; reflexivity.
Defined.

Lemma Permutation_filter_length {A} (p : A -> bool) (l l' : list A) :
  Permutation l l' ->
  List.length (filter p l) = List.length (filter p l').
Proof.
  induction 1 as [|x l l' _ IH|x y l|l l' l'' _ IH1 _ IH2]; cbn [filter].
  - reflexivity.
  - destruct (p x); cbn; rewrite IH; reflexivity.
  - destruct (p x), (p y); reflexivity.
  - rewrite IH1. exact IH2.
Qed.

Lemma closes_not_BUY (pairs : list (Trade * ClosedPosition)) :
  Forall (fun p => closes (fst p) (snd p)) pairs ->
  Forall (fun t => negb (is_BUY t) = true) (map fst pairs).
Proof.
  induction 1 as [|p pairs [Hp _] _ IH]; cbn [map]; constructor;
    [rewrite Hp; reflexivity | exact IH].
Qed.

(** X5. Position reconstruction returns at most one entry per fill that
    is not a BUY; from BUY fills alone it returns no entry. *)
Theorem at_most_one_entry_per_sell (self : TradeLogService)
  (trades : list Trade) (results : list ClosedPosition) :
  _calculate_positions_pnl self trades = Return results ->
  (List.length results
   <= List.length (filter (fun t => negb (is_BUY t)) trades))%nat
  /\ (Forall (fun t => is_BUY t = true) trades -> results = []).
Proof.
  unfold _calculate_positions_pnl. rewrite for_each_process_symbol.
  destruct (map_result (symbol_events self) (group_by symbol trades))
    as [evs|] eqn:Hrun; cbn [fmap bind]; [|discriminate].
  intros H. injection H as <-. cbn [app].
  assert (Hlen : (List.length (List.concat evs)
                  <= List.length (filter (fun t => negb (is_BUY t)) trades))%nat).
  { rewrite <- (Permutation_filter_length _ _ _
                  (group_by_partition symbol trades)).
    pose proof (fun k g => group_by_same_key symbol trades k g) as Hkeys.
    revert evs Hrun Hkeys. generalize (group_by symbol trades).
    induction l as [|[k g] groups IH]; intros evs Hrun Hkeys;
      cbn [map_result] in Hrun.
    - injection Hrun as <-. cbn. lia.
    - destruct (symbol_events self (k, g)) as [ev|] eqn:Hev;
        cbn [bind] in Hrun; [|discriminate].
      destruct (map_result (symbol_events self) groups) as [evs'|] eqn:Hrest;
        cbn [bind] in Hrun; [|discriminate].
      injection Hrun as <-. cbn [List.concat map snd].
      rewrite filter_app, !length_app.
      specialize (IH evs' eq_refl
                    (fun k' g' Hin => Hkeys k' g' (or_intror Hin))).
      destruct (symbol_events_pairs self k g ev
                  (Hkeys k g (or_introl eq_refl)) Hev)
        as [pairs [-> [Hsub Hall]]].
      pose proof (subseq_length _ _
                    (subseq_filter (fun t => negb (is_BUY t)) _ _ Hsub
                       (closes_not_BUY _ Hall))) as Hle.
      rewrite (Permutation_filter_length (fun t => negb (is_BUY t))
                 (sort_by_trade_date g) g (stable_sort_perm _ g)) in Hle.
      rewrite !length_map in *. lia. }
  split; [exact Hlen|].
  intros Hbuy.
  assert (Hnone : filter (fun t => negb (is_BUY t)) trades = []).
  { clear Hlen Hrun. induction Hbuy as [|t l Ht _ IH]; cbn [filter];
      [reflexivity|]. rewrite Ht. exact IH. }
  rewrite Hnone in Hlen. destruct (List.concat evs); [reflexivity|].
  cbn in Hlen. lia.
Qed.

Lemma at_most_one_entry_per_sell_witness :
  exists results,
    _calculate_positions_pnl (no_tags_service two_symbol_fills)
      two_symbol_fills = Return results
    /\ (List.length results
        <= List.length (filter (fun t => negb (is_BUY t)) two_symbol_fills))%nat
    /\ (Forall (fun t => is_BUY t = true) two_symbol_fills -> results = []).
Proof.
  eexists. split; [vm_compute; reflexivity|].
  apply (at_most_one_entry_per_sell (no_tags_service two_symbol_fills)
           two_symbol_fills).
  vm_compute; reflexivity.
Defined.

Lemma closes_dates (pairs : list (Trade * ClosedPosition)) :
  Forall (fun p => closes (fst p) (snd p)) pairs ->
  map close_date (map snd pairs) = map trade_date (map fst pairs).
Proof.
  induction 1 as [|p pairs [_ [_ [Hd _]]] _ IH]; cbn [map];
    [reflexivity|]. rewrite Hd, IH. reflexivity.
Qed.

Lemma StronglySorted_map {A} (f : A -> Z) (l : list A) :
  StronglySorted Z.le (map f l) <->
  StronglySorted (fun a b => f a <= f b) l.
Proof.
  induction l as [|x l IH]; cbn [map].
  - split; constructor.
  - split; intros H; apply StronglySorted_inv in H; destruct H as [Hs Hall];
      (constructor; [apply IH; exact Hs|]).
    + rewrite Forall_map in Hall. exact Hall.
    + rewrite Forall_map. exact Hall.
Qed.

Lemma sort_by_trade_date_StronglySorted (l : list Trade) :
  StronglySorted (fun a b => trade_date a <= trade_date b)
    (sort_by_trade_date l).
Proof.
  apply Sorted_StronglySorted; [|apply sort_by_trade_date_sorted].
  intros a b c Hab Hbc. lia.
Qed.

Lemma symbol_events_in_time_order (self : TradeLogService) (k : string)
  (g : list Trade) (ev : list ClosedPosition) :
  Forall (fun t => symbol t = k) g ->
  symbol_events self (k, g) = Return ev ->
  StronglySorted (fun a b => close_date a <= close_date b) ev.
Proof.
  intros Hkey Hev.
  destruct (symbol_events_pairs self k g ev Hkey Hev)
    as [pairs [-> [Hsub Hall]]].
  apply (proj1 (StronglySorted_map close_date (map snd pairs))).
  pose proof (closes_dates _ Hall) as Hdates.
  unfold datetime in *. rewrite Hdates.
  apply (subseq_StronglySorted _ _ _ (subseq_map trade_date _ _ Hsub)).
  apply (proj2 (StronglySorted_map trade_date (sort_by_trade_date g))).
  apply sort_by_trade_date_StronglySorted.
Qed.

(** X6. The entries of any one symbol come out in time order: in the
    result of position reconstruction, an entry of a symbol never has a
    later closing time than an entry of the same symbol that follows
    it. *)
Theorem entries_of_a_symbol_in_time_order (self : TradeLogService)
  (trades : list Trade) (results : list ClosedPosition) (s : string) :
  _calculate_positions_pnl self trades = Return results ->
  StronglySorted (fun a b => close_date a <= close_date b)
    (filter (fun e => String.eqb s (pos_symbol e)) results).
Proof.
  unfold _calculate_positions_pnl. rewrite for_each_process_symbol.
  destruct (map_result (symbol_events self) (group_by symbol trades))
    as [evs|] eqn:Hrun; cbn [fmap bind]; [|discriminate].
  intros H. injection H as <-. cbn [app].
  destruct (events_of_symbol self s _ evs (group_by_keys_NoDup symbol trades)
              Hrun) as [Hin Hout].
  destruct (in_dec string_dec s (map fst (group_by symbol trades)))
    as [Hs|Hs].
  - apply in_map_iff in Hs. destruct Hs as [[k g] [Hk Hg]].
    cbn in Hk. subst k.
    apply (symbol_events_in_time_order self s g);
      [eapply group_by_same_key; exact Hg | apply Hin; exact Hg].
  - rewrite (Hout Hs). constructor.
Qed.

Lemma entries_of_a_symbol_in_time_order_witness :
  exists results,
    _calculate_positions_pnl (no_tags_service two_symbol_fills)
      two_symbol_fills = Return results
    /\ StronglySorted (fun a b => close_date a <= close_date b)
         (filter (fun e => String.eqb "AAPL" (pos_symbol e)) results).
Proof.
  eexists. split; [vm_compute; reflexivity|].
  apply (entries_of_a_symbol_in_time_order
           (no_tags_service two_symbol_fills) two_symbol_fills _ "AAPL").
  vm_compute; reflexivity.
Defined.

Lemma d_ltb_asym (a b : Decimal) : d_ltb a b = true -> d_ltb b a = false.
Proof.
  unfold d_ltb. rewrite (d_cmp_antisym a b).
  destruct (d_cmp a b); cbn; congruence.
Qed.

Lemma py_min_le_l (a b : Decimal) : d_leb (py_min a b) a = true.
Proof.
  unfold py_min, d_leb. destruct (d_ltb b a) eqn:H.
  - rewrite (d_ltb_asym _ _ H). reflexivity.
  - rewrite d_ltb_irrefl. reflexivity.
Qed.

Lemma py_min_pos (a b : Decimal) :
  0 < d_coef a -> 0 < d_coef b -> 0 < d_coef (py_min a b).
Proof. intros Ha Hb. unfold py_min. destruct (d_ltb b a); assumption. Qed.

Lemma symbol_events_pairs_positive (self : TradeLogService) (k : string)
  (g : list Trade) (ev : list ClosedPosition) :
  Forall (fun t => symbol t = k) g ->
  positive_quantities g ->
  symbol_events self (k, g) = Return ev ->
  exists pairs : list (Trade * ClosedPosition),
    ev = map snd pairs
    /\ subseq (map fst pairs) (sort_by_trade_date g)
    /\ Forall (fun p =>
                 closes (fst p) (snd p)
                 /\ d_gtb (pos_quantity (snd p)) d_zero = true
                 /\ d_leb (pos_quantity (snd p)) (quantity (fst p)) = true)
         pairs.
Proof.
  intros Hkey Hpos. unfold symbol_events, process_symbol. intros H.
  destruct (symbol_loop self k (sort_by_trade_date g)
              (enumerate (sort_by_trade_date g)) _) as [st|] eqn:Hloop;
    cbn [bind] in H; [|discriminate].
  injection H as <-.
  destruct (symbol_loop_pairs lot_invariant
              (fun t e => closes t e
                          /\ d_gtb (pos_quantity e) d_zero = true
                          /\ d_leb (pos_quantity e) (quantity t) = true)
              self k (sort_by_trade_date g)
              (enumerate (sort_by_trade_date g)))
    with (3 := Hloop) as [pairs [Hp [Hsub Hall]]].
  - intros it st0 st1 Hin Hinv Hstep.
    assert (Hmem : In (snd it) g).
    { apply sort_by_trade_date_In.
      apply (In_enumerate_from _ 0%nat). exact Hin. }
    assert (Hsym : symbol (snd it) = k)
      by (rewrite Forall_forall in Hkey; apply Hkey; exact Hmem).
    assert (Hq : d_gtb (quantity (snd it)) d_zero = true)
      by (unfold positive_quantities in Hpos; rewrite Forall_forall in Hpos;
          apply Hpos; exact Hmem).
    destruct it as [i trade]. cbn [snd] in *.
    pose proof (process_trade_keeps_invariant self k (sort_by_trade_date g)
                  i trade st0 st1 Hq Hinv Hstep) as Hinv2.
    split; [exact Hinv2|].
    destruct (process_trade_closes self k (sort_by_trade_date g) (i, trade)
                st0 st1 Hsym Hstep)
      as [Hsame|[e [Hadd [Hc [Hmin Hgt]]]]]; [left; exact Hsame|].
    right. exists e. split; [exact Hadd|]. cbn [snd] in *.
    split; [exact Hc|]. rewrite Hmin. split.
    + apply d_gtb_zero. apply py_min_pos; apply d_gtb_zero; assumption.
    + apply py_min_le_l.
  - apply initial_state_invariant.
  - exists pairs. cbn [position_results app] in Hp.
    unfold enumerate in Hsub. rewrite map_snd_enumerate_from in Hsub.
    repeat split; assumption.
Qed.

(** X7. On fills with positive quantities every entry of position
    reconstruction has a positive closed quantity, not larger than the
    quantity of the SELL it closes. *)
Theorem closed_quantity_is_positive (self : TradeLogService)
  (trades : list Trade) (results : list ClosedPosition) :
  positive_quantities trades ->
  _calculate_positions_pnl self trades = Return results ->
  forall e, In e results ->
  d_gtb (pos_quantity e) d_zero = true
  /\ exists sell,
       In sell trades /\ closes sell e
       /\ d_leb (pos_quantity e) (quantity sell) = true.
Proof.
  intros Hpos. unfold _calculate_positions_pnl.
  rewrite for_each_process_symbol.
  destruct (map_result (symbol_events self) (group_by symbol trades))
    as [evs|] eqn:Hrun; cbn [fmap bind]; [|discriminate].
  intros H e He. injection H as <-. cbn [app] in He.
  apply in_concat in He. destruct He as [ev [Hev He]].
  destruct (map_result_In _ _ _ Hrun ev Hev) as [[k g] [Hg Hk]].
  assert (Hgpos : positive_quantities g).
  { pose proof (group_by_Forall _ symbol trades Hpos) as Hall.
    rewrite Forall_forall in Hall. apply (Hall _ Hg). }
  destruct (symbol_events_pairs_positive self k g ev
              (group_by_same_key _ _ _ _ Hg) Hgpos Hk)
    as [pairs [-> [Hsub Hall]]].
  apply in_map_iff in He. destruct He as [[sell e'] [He' Hp]].
  cbn in He'. subst e'.
  rewrite Forall_forall in Hall. destruct (Hall _ Hp) as [Hc [Hgt Hle]].
  cbn [fst snd] in *. split; [exact Hgt|].
  exists sell. split; [|split; assumption].
  apply (group_by_members symbol trades k g sell Hg).
  apply sort_by_trade_date_In. eapply subseq_In; [exact Hsub|].
  apply (in_map fst) in Hp. exact Hp.
Qed.

Lemma closed_quantity_is_positive_witness :
  positive_quantities two_symbol_fills
  /\ exists results,
       _calculate_positions_pnl (no_tags_service two_symbol_fills)
         two_symbol_fills = Return results
       /\ forall e, In e results ->
          d_gtb (pos_quantity e) d_zero = true
          /\ exists sell,
               In sell two_symbol_fills /\ closes sell e
               /\ d_leb (pos_quantity e) (quantity sell) = true.
Proof.
  assert (Hq : positive_quantities two_symbol_fills) by (repeat constructor).
  split; [exact Hq|].
  eexists. split; [vm_compute; reflexivity|].
  apply (closed_quantity_is_positive (no_tags_service two_symbol_fills)
           two_symbol_fills _ Hq).
  vm_compute; reflexivity.
Defined.

(* ===================================================================== *)
(** * The order in which fills are processed *)
(* ===================================================================== *)

Lemma insert_sorted_keeps_ties (x : Trade) (l : list Trade) (d : datetime) :
  StronglySorted (fun a b => trade_date a <= trade_date b) l ->
  filter (fun t => trade_date t =? d)
    (insert_sorted (fun a b => trade_date a <? trade_date b) x l)
  = filter (fun t => trade_date t =? d) l
    ++ (if trade_date x =? d then [x] else []).
Proof.
  induction 1 as [|y l Hs IH Hall]; cbn [insert_sorted filter].
  - reflexivity.
  - destruct (Z.ltb_spec (trade_date x) (trade_date y)) as [Hlt|Hge];
      cbn [filter].
    + destruct (Z.eqb_spec (trade_date x) d) as [Hx|Hx];
        [|rewrite app_nil_r; reflexivity].
      assert (Hnone : filter (fun t => trade_date t =? d) (y :: l) = []).
      { cbn [filter].
        destruct (Z.eqb_spec (trade_date y) d) as [Hy|_]; [lia|].
        rewrite Forall_forall in Hall.
        clear IH Hs. induction l as [|z l IHl]; [reflexivity|].
        cbn [filter].
        destruct (Z.eqb_spec (trade_date z) d) as [Hz|_].
        - specialize (Hall z (or_introl eq_refl)). lia.
        - apply IHl. intros t Ht. apply Hall. right. exact Ht. }
      cbn [filter] in Hnone. rewrite Hnone. reflexivity.
    + rewrite IH. destruct (trade_date y =? d); reflexivity.
Qed.

Lemma sort_by_trade_date_keeps_ties (l : list Trade) (d : datetime) :
  filter (fun t => trade_date t =? d) (sort_by_trade_date l)
  = filter (fun t => trade_date t =? d) l.
Proof.
  unfold sort_by_trade_date, stable_sort.
  assert (Hgen : forall acc,
    StronglySorted (fun a b => trade_date a <= trade_date b) acc ->
    filter (fun t => trade_date t =? d)
      (fold_left
         (fun sorted x =>
            insert_sorted (fun a b => trade_date a <? trade_date b) x sorted)
         l acc)
    = filter (fun t => trade_date t =? d) acc
      ++ filter (fun t => trade_date t =? d) l).
  { induction l as [|x l IH]; intros acc Hacc; cbn [fold_left filter].
    - rewrite app_nil_r. reflexivity.
    - rewrite IH.
      + rewrite insert_sorted_keeps_ties by exact Hacc.
        rewrite <- app_assoc. destruct (trade_date x =? d); reflexivity.
      + apply Sorted_StronglySorted; [intros a b c Hab Hbc; lia|].
        apply insert_sorted_by_date. apply StronglySorted_Sorted. exact Hacc. }
  apply (Hgen []). constructor.
Qed.

(** X8. The fills of a symbol are processed in time order, ties in the
    order in which they were given: the sorted sequence is
    non-decreasing in the timestamp, has the same fills, and the fills
    of any one timestamp appear in it in their input order. *)
Theorem fills_sorted_stably (l : list Trade) :
  Sorted (fun a b => trade_date a <= trade_date b) (sort_by_trade_date l)
  /\ Permutation (sort_by_trade_date l) l
  /\ forall d : datetime,
       filter (fun t => trade_date t =? d) (sort_by_trade_date l)
       = filter (fun t => trade_date t =? d) l.
Proof.
  split; [apply sort_by_trade_date_sorted|].
  split; [apply stable_sort_perm|].
  apply sort_by_trade_date_keeps_ties.
Qed.

(* ===================================================================== *)
(** * What position reconstruction can raise *)
(* ===================================================================== *)

Lemma _calculate_positions_pnl_raise (self : TradeLogService)
  (trades : list Trade) (e : exn) :
  _calculate_positions_pnl self trades = Raise e ->
  reconstruction_error trades e.
Proof.
  unfold _calculate_positions_pnl.
  apply for_each_raise_In. intros [sym symbol_trades] results e' Hg.
  unfold process_symbol, symbol_loop.
  destruct (for_each _ _ _) as [st|e''] eqn:Hloop; cbn [bind]; [discriminate|].
  intros H; injection H as <-.
  revert Hloop. apply for_each_raise_In.
  intros it st e0 Hit Hstep.
  destruct (process_trade_raise _ _ _ _ _ _ Hstep) as [Hdiv|[-> [Hside Hfee]]];
    [left; exact Hdiv|].
  right. split; [reflexivity|]. exists (snd it).
  split; [|split; assumption].
  apply In_enumerate_from in Hit.
  apply (proj1 (sort_by_trade_date_In _ _)) in Hit.
  exact (proj1 (group_by_members symbol trades sym symbol_trades _ Hg Hit)).
Qed.

(** The commission column is nullable.  With the commission of the
    BUY of Scenario A NULL, position reconstruction returns its one
    entry (it reads the commission of closing fills only) while the
    dashboard raises TypeError when it sums the commissions; with the
    commission of the SELL NULL both raise TypeError. *)
Example null_commission_outcomes :
  (exists entry,
     _calculate_positions_pnl (no_tags_service scenario_A)
       (map (with_commission
               (fun t => if is_BUY t then None else commission t)) scenario_A)
     = Return [entry])
  /\ dashboard_stats_of
       (map (with_commission
               (fun t => if is_BUY t then None else commission t)) scenario_A)
     = Raise TypeError
  /\ _calculate_positions_pnl (no_tags_service scenario_A)
       (map (with_commission
               (fun t => if is_BUY t then commission t else None)) scenario_A)
     = Raise TypeError
  /\ dashboard_stats_of
       (map (with_commission
               (fun t => if is_BUY t then commission t else None)) scenario_A)
     = Raise TypeError.
Proof.
  split; [eexists; vm_compute; reflexivity|].
  repeat split; vm_compute; reflexivity.
Qed.

(** C7, as the code has it.  Position reconstruction validates
    nothing: a fill whose side is not "BUY" is processed as a SELL
    whatever its side says (the result is that of the same fills with
    those sides rewritten to "SELL"), quantities are used as they come,
    and the only exceptions that can be raised are those of a Decimal
    division by zero and the TypeError of a closing fill whose
    commission is NULL, never a validation error. *)
Theorem fills_are_not_validated (self : TradeLogService)
  (trades : list Trade) :
  _calculate_positions_pnl self trades
  = _calculate_positions_pnl self (map normalise_side trades)
  /\ (forall e, _calculate_positions_pnl self trades = Raise e ->
                reconstruction_error trades e)
  /\ (closing_commissions_present trades ->
      forall e, _calculate_positions_pnl self trades = Raise e ->
                is_division_error e).
Proof.
  split; [|split].
  - symmetry. apply _calculate_positions_pnl_normalise_side.
  - intros e. apply _calculate_positions_pnl_raise.
  - intros Hfees e He.
    destruct (_calculate_positions_pnl_raise _ _ _ He)
      as [Hdiv|[_ [t [Hin [Hside Hfee]]]]]; [exact Hdiv|].
    unfold closing_commissions_present in Hfees. rewrite Forall_forall in Hfees.
    exfalso. exact (Hfees t Hin Hside Hfee).
Qed.

Lemma fills_are_not_validated_witness :
  _calculate_positions_pnl (no_tags_service cancelling_buys) cancelling_buys
  = Raise InvalidOperation
  /\ closing_commissions_present cancelling_buys
  /\ _calculate_positions_pnl (no_tags_service cancelling_buys)
       cancelling_buys
     = _calculate_positions_pnl (no_tags_service cancelling_buys)
         (map normalise_side cancelling_buys)
  /\ reconstruction_error cancelling_buys InvalidOperation
  /\ is_division_error InvalidOperation.
Proof.
  assert (H : _calculate_positions_pnl (no_tags_service cancelling_buys)
                cancelling_buys = Raise InvalidOperation)
    by (vm_compute; reflexivity).
  assert (Hfees : closing_commissions_present cancelling_buys)
    by (repeat constructor; discriminate).
  split; [exact H|]. split; [exact Hfees|].
  destruct (fills_are_not_validated (no_tags_service cancelling_buys)
              cancelling_buys) as [Hside [Herr Hdiv]].
  split; [exact Hside|].
  split; [exact (Herr InvalidOperation H) | exact (Hdiv Hfees _ H)].
Defined.

(** C7, as stated, fails.  A fill of side "HOLD" and a SELL of quantity
    -50 both violate the preconditions, yet reconstruction returns
    normally: the first is booked as a SELL of 50 (P&L 100), the second
    as a closing entry of quantity -50 (P&L -100). *)
Lemma invalid_fills_are_processed :
  existsb violates_precondition unknown_side_fills = true
  /\ existsb violates_precondition negative_quantity_fills = true
  /\ (exists entry,
        _calculate_positions_pnl (no_tags_service unknown_side_fills)
          unknown_side_fills = Return [entry]
        /\ d_eqb (pos_quantity entry) (Decimal_of_int 50) = true
        /\ d_eqb (pnl entry) (Decimal_of_int 100) = true)
  /\ (exists entry,
        _calculate_positions_pnl (no_tags_service negative_quantity_fills)
          negative_quantity_fills = Return [entry]
        /\ d_eqb (pos_quantity entry) (Decimal_of_int (-50)) = true
        /\ d_eqb (pnl entry) (Decimal_of_int (-100)) = true).
Proof.
  split; [vm_compute; reflexivity|].
  split; [vm_compute; reflexivity|].
  split; eexists; (split; [vm_compute; reflexivity|]);
    split; vm_compute; reflexivity.
Qed.

(* ===================================================================== *)
(** * The dashboard total against the entries *)
(* ===================================================================== *)

(** C2, as the code has it.  For a fill list in which every fill has
    a commission and no SELL exceeds the quantity open when it arrives,
    the dashboard's realized P&L is the sum, over the entries that
    position reconstruction returns for the same fills, of (exit price
    - entry price) * closed quantity: the P&L before commission.  Both
    computations raise the same exception when one of them raises. *)
Theorem dashboard_pnl_is_gross_pnl (self : TradeLogService)
  (trades : list Trade) :
  no_oversell trades = true ->
  commissions_present trades ->
  fmap DashboardStats.total_pnl (dashboard_stats_of trades)
  = fmap (fun results => py_sum (map gross_pnl results))
      (_calculate_positions_pnl self trades).
Proof.
  intros Hno Hfees. destruct trades as [|t trades]; [reflexivity|].
  unfold dashboard_stats_of, _calculate_positions_pnl.
  destruct (py_sum_nullable_present _ Hfees) as [fees ->]. cbn [bind].
  pose proof (symbols_in_step self (group_by symbol (t :: trades)) []
                (Decimal_of_int 0, 0) Hno
                (group_by_Forall _ symbol _
                   (closing_commissions_of_present _ Hfees))
                (conj eq_refl eq_refl)) as H.
  destruct (for_each (process_symbol self) _ []) as [results|e1];
    destruct (for_each dash_process_symbol _ _) as [[total wins]|e2];
    cbn [same_outcome fmap bind fst] in *; try contradiction.
  - destruct (int_truediv_len wins t trades) as [r Hr]. rewrite Hr.
    cbn [bind DashboardStats.total_pnl]. destruct H as [-> _]. reflexivity.
  - rewrite H. reflexivity.
Qed.

Lemma dashboard_pnl_is_gross_pnl_witness :
  no_oversell scenario_A = true
  /\ commissions_present scenario_A
  /\ fmap DashboardStats.total_pnl (dashboard_stats_of scenario_A)
     = fmap (fun results => py_sum (map gross_pnl results))
         (_calculate_positions_pnl (no_tags_service scenario_A) scenario_A).
Proof.
  assert (H : no_oversell scenario_A = true) by (vm_compute; reflexivity).
  assert (Hfees : commissions_present scenario_A)
    by (repeat constructor; discriminate).
  split; [exact H|]. split; [exact Hfees|].
  apply (dashboard_pnl_is_gross_pnl (no_tags_service scenario_A) scenario_A H
           Hfees).
Defined.

(** C2, as stated, fails.  On BUY 50 @ 10, SELL 80 @ 12 (commission 1),
    BUY 10 @ 11, SELL 10 @ 13 the dashboard reports 100 while the
    entries of position reconstruction sum to 119 (and to 120 before
    commission): the dashboard neither deducts the commission nor caps
    what it subtracts from the open quantity. *)
Lemma dashboard_pnl_differs_from_realized_pnl :
  exists stats results,
    dashboard_stats_of oversell_then_round_trip = Return stats
    /\ _calculate_positions_pnl (no_tags_service oversell_then_round_trip)
         oversell_then_round_trip = Return results
    /\ d_eqb (DashboardStats.total_pnl stats) (Decimal_of_int 100) = true
    /\ d_eqb (py_sum (map pnl results)) (Decimal_of_int 119) = true
    /\ d_eqb (py_sum (map gross_pnl results)) (Decimal_of_int 120) = true
    /\ d_eqb (DashboardStats.total_pnl stats) (py_sum (map pnl results))
       = false.
Proof.
  eexists. eexists.
  split; [vm_compute; reflexivity|].
  split; [vm_compute; reflexivity|].
  repeat split; vm_compute; reflexivity.
Qed.

(* ===================================================================== *)
(** * The dashboard rollup *)
(* ===================================================================== *)

Lemma dash_process_symbol_with_commission (f : Trade -> option Decimal)
  (item : string * list Trade) (totals : Decimal * Z) :
  dash_process_symbol (fst item, map (with_commission f) (snd item)) totals
  = dash_process_symbol item totals.
Proof.
  unfold dash_process_symbol, sort_by_trade_date. cbn [snd].
  rewrite stable_sort_map by reflexivity.
  rewrite for_each_map. reflexivity.
Qed.

Lemma dash_loop_with_commission (f : Trade -> option Decimal)
  (trades : list Trade)
  (totals : Decimal * Z) :
  for_each dash_process_symbol
    (group_by symbol (map (with_commission f) trades)) totals
  = for_each dash_process_symbol (group_by symbol trades) totals.
Proof.
  rewrite group_by_map by reflexivity. rewrite for_each_map.
  apply for_each_ext. intros item tot _.
  apply dash_process_symbol_with_commission.
Qed.

(** X9. The dashboard's realized P&L takes no commission into account:
    with the commissions of the fills replaced by any others, none of
    them NULL before or after, the dashboard returns the same
    total_pnl, and the same count, win rate, best and worst trade; it
    raises on the one list when it raises on the other. *)
Theorem dashboard_ignores_commission (f : Trade -> option Decimal)
  (trades : list Trade) :
  commissions_present trades ->
  commissions_present (map (with_commission f) trades) ->
  fmap (fun s => (DashboardStats.total_trades s, DashboardStats.total_pnl s,
                  DashboardStats.win_rate s, DashboardStats.best_trade s,
                  DashboardStats.worst_trade s))
    (dashboard_stats_of (map (with_commission f) trades))
  = fmap (fun s => (DashboardStats.total_trades s, DashboardStats.total_pnl s,
                    DashboardStats.win_rate s, DashboardStats.best_trade s,
                    DashboardStats.worst_trade s))
      (dashboard_stats_of trades).
Proof.
  intros Hfees Hfees'. destruct trades as [|t trades]; [reflexivity|].
  unfold dashboard_stats_of.
  destruct (py_sum_nullable_present _ Hfees) as [fees ->].
  destruct (py_sum_nullable_present _ Hfees') as [fees' Hsum'].
  cbn [map] in *. rewrite Hsum'. cbn [bind].
  change (with_commission f t :: map (with_commission f) trades)
    with (map (with_commission f) (t :: trades)).
  rewrite dash_loop_with_commission.
  destruct (for_each dash_process_symbol (group_by symbol (t :: trades)) _)
    as [[total wins]|e]; cbn [fmap bind]; [|reflexivity].
  unfold len. rewrite !length_map.
  destruct (int_truediv wins (Z.of_nat (List.length (t :: trades))));
    cbn [bind]; [|reflexivity].
  rewrite !map_map. reflexivity.
Qed.

Lemma dashboard_ignores_commission_witness :
  commissions_present scenario_A
  /\ commissions_present
       (map (with_commission (fun _ => Some (Decimal_of_int 5))) scenario_A)
  /\ fmap DashboardStats.total_commission
       (dashboard_stats_of
          (map (with_commission (fun _ => Some (Decimal_of_int 5)))
             scenario_A))
     = Return (Decimal_of_int 10)
  /\ fmap (fun s => (DashboardStats.total_trades s,
                     DashboardStats.total_pnl s,
                     DashboardStats.win_rate s, DashboardStats.best_trade s,
                     DashboardStats.worst_trade s))
       (dashboard_stats_of
          (map (with_commission (fun _ => Some (Decimal_of_int 5)))
             scenario_A))
     = fmap (fun s => (DashboardStats.total_trades s,
                       DashboardStats.total_pnl s,
                       DashboardStats.win_rate s, DashboardStats.best_trade s,
                       DashboardStats.worst_trade s))
         (dashboard_stats_of scenario_A).
Proof.
  assert (H1 : commissions_present scenario_A)
    by (repeat constructor; discriminate).
  assert (H2 : commissions_present
                 (map (with_commission (fun _ => Some (Decimal_of_int 5)))
                    scenario_A))
    by (repeat constructor; discriminate).
  split; [exact H1|]. split; [exact H2|].
  split; [vm_compute; reflexivity|].
  apply (dashboard_ignores_commission _ scenario_A H1 H2).
Defined.

Lemma d_cmp_scaled (a b : Decimal) (k : Z) :
  k <= Z.min (d_exp a) (d_exp b) ->
  d_cmp a b
  = Z.compare (d_coef a * 10 ^ (d_exp a - k)) (d_coef b * 10 ^ (d_exp b - k)).
Proof.
  intros Hk. unfold d_cmp, d_align.
  set (m := Z.min (d_exp a) (d_exp b)) in *.
  replace (d_exp a - k) with ((d_exp a - m) + (m - k)) by lia.
  replace (d_exp b - k) with ((d_exp b - m) + (m - k)) by lia.
  rewrite !Z.pow_add_r by lia. rewrite !Z.mul_assoc.
  apply Zmult_compare_compat_r. apply Z.lt_gt. apply pow10_pos. lia.
Qed.

Lemma d_ltb_trans (a b c : Decimal) :
  d_ltb a b = true -> d_ltb b c = true -> d_ltb a c = true.
Proof.
  set (k := Z.min (d_exp a) (Z.min (d_exp b) (d_exp c))).
  unfold d_ltb.
  rewrite (d_cmp_scaled a b k), (d_cmp_scaled b c k), (d_cmp_scaled a c k)
    by (unfold k; lia).
  destruct (Z.compare_spec (d_coef a * 10 ^ (d_exp a - k))
              (d_coef b * 10 ^ (d_exp b - k))); try discriminate.
  destruct (Z.compare_spec (d_coef b * 10 ^ (d_exp b - k))
              (d_coef c * 10 ^ (d_exp c - k))); try discriminate.
  destruct (Z.compare_spec (d_coef a * 10 ^ (d_exp a - k))
              (d_coef c * 10 ^ (d_exp c - k))); intros; (reflexivity || lia).
Qed.

Lemma py_max_default_spec (l : list Decimal) (x : Decimal) (default : Decimal) :
  In (py_max_default (x :: l) default) (x :: l)
  /\ forall y, In y (x :: l) ->
       d_leb y (py_max_default (x :: l) default) = true.
Proof.
  cbn [py_max_default].
  assert (Hgen : forall (seen : list Decimal) (best : Decimal),
    In best seen -> (forall y, In y seen -> d_ltb best y = false) ->
    In (fold_left (fun b y => if d_ltb b y then y else b) l best) (seen ++ l)
    /\ forall y, In y (seen ++ l) ->
         d_ltb (fold_left (fun b y => if d_ltb b y then y else b) l best) y
         = false).
  { induction l as [|z l IH]; intros seen best Hin Hmax; cbn [fold_left].
    - rewrite app_nil_r. split; assumption.
    - replace (seen ++ z :: l) with ((seen ++ [z]) ++ l)
        by (rewrite <- app_assoc; reflexivity).
      apply IH.
      + destruct (d_ltb best z); apply in_or_app;
          [right; left; reflexivity | left; exact Hin].
      + intros y Hy. apply in_app_or in Hy.
        destruct (d_ltb best z) eqn:Hbz.
        * destruct Hy as [Hy|[<-|[]]]; [|apply d_ltb_irrefl].
          destruct (d_ltb z y) eqn:Hzy; [|reflexivity].
          rewrite <- (Hmax y Hy). symmetry.
          apply (d_ltb_trans best z y Hbz Hzy).
        * destruct Hy as [Hy|[<-|[]]]; [apply Hmax; exact Hy | exact Hbz]. }
  destruct (Hgen [x] x (or_introl eq_refl)) as [H1 H2].
  { intros y [<-|[]]. apply d_ltb_irrefl. }
  split; [exact H1|]. intros y Hy. unfold d_leb. rewrite (H2 y Hy). reflexivity.
Qed.

Lemma py_min_default_spec (l : list Decimal) (x : Decimal) (default : Decimal) :
  In (py_min_default (x :: l) default) (x :: l)
  /\ forall y, In y (x :: l) ->
       d_leb (py_min_default (x :: l) default) y = true.
Proof.
  cbn [py_min_default].
  assert (Hgen : forall (seen : list Decimal) (best : Decimal),
    In best seen -> (forall y, In y seen -> d_ltb y best = false) ->
    In (fold_left (fun b y => if d_ltb y b then y else b) l best) (seen ++ l)
    /\ forall y, In y (seen ++ l) ->
         d_ltb y (fold_left (fun b y => if d_ltb y b then y else b) l best)
         = false).
  { induction l as [|z l IH]; intros seen best Hin Hmin; cbn [fold_left].
    - rewrite app_nil_r. split; assumption.
    - replace (seen ++ z :: l) with ((seen ++ [z]) ++ l)
        by (rewrite <- app_assoc; reflexivity).
      apply IH.
      + destruct (d_ltb z best); apply in_or_app;
          [right; left; reflexivity | left; exact Hin].
      + intros y Hy. apply in_app_or in Hy.
        destruct (d_ltb z best) eqn:Hzb.
        * destruct Hy as [Hy|[<-|[]]]; [|apply d_ltb_irrefl].
          destruct (d_ltb y z) eqn:Hyz; [|reflexivity].
          rewrite <- (Hmin y Hy). symmetry.
          apply (d_ltb_trans y z best Hyz Hzb).
        * destruct Hy as [Hy|[<-|[]]]; [apply Hmin; exact Hy | exact Hzb]. }
  destruct (Hgen [x] x (or_introl eq_refl)) as [H1 H2].
  { intros y [<-|[]]. apply d_ltb_irrefl. }
  split; [exact H1|]. intros y Hy. unfold d_leb. rewrite (H2 y Hy). reflexivity.
Qed.

(** X10. The dashboard's best_trade and worst_trade are sizes, not
    results: for a non-empty fill list they are the largest and the
    smallest price * quantity among the fills; for an empty list both
    are absent. *)
Theorem best_and_worst_trade_are_notional (trades : list Trade)
  (stats : DashboardStats.t) :
  dashboard_stats_of trades = Return stats ->
  match trades with
  | [] =>
      DashboardStats.best_trade stats = None
      /\ DashboardStats.worst_trade stats = None
  | _ :: _ =>
      exists best worst,
        DashboardStats.best_trade stats = Some best
        /\ DashboardStats.worst_trade stats = Some worst
        /\ In best (map notional trades)
        /\ In worst (map notional trades)
        /\ forall x, In x (map notional trades) ->
             d_leb x best = true /\ d_leb worst x = true
  end.
Proof.
  destruct trades as [|t trades]; unfold dashboard_stats_of.
  - intros H. injection H as <-. split; reflexivity.
  - destruct (py_sum_nullable _) as [fees|]; cbn [bind]; [|discriminate].
    destruct (for_each dash_process_symbol _ _) as [[total wins]|];
      cbn [bind]; [|discriminate].
    destruct (int_truediv wins (len (t :: trades))); cbn [bind];
      [|discriminate].
    intros H. injection H as <-.
    cbn [DashboardStats.best_trade DashboardStats.worst_trade].
    change (map (fun t0 => d_mul (price t0) (quantity t0)) (t :: trades))
      with (map notional (t :: trades)).
    cbn [map].
    destruct (py_max_default_spec (map notional trades) (notional t)
                (Decimal_of_int 0)) as [Hb1 Hb2].
    destruct (py_min_default_spec (map notional trades) (notional t)
                (Decimal_of_int 0)) as [Hw1 Hw2].
    eexists. eexists. split; [reflexivity|]. split; [reflexivity|].
    split; [exact Hb1|]. split; [exact Hw1|].
    intros x Hx. split; [apply Hb2 | apply Hw2]; exact Hx.
Qed.

Lemma best_and_worst_trade_are_notional_witness :
  exists stats,
    dashboard_stats_of two_symbol_fills = Return stats
    /\ exists best worst,
         DashboardStats.best_trade stats = Some best
         /\ DashboardStats.worst_trade stats = Some worst
         /\ In best (map notional two_symbol_fills)
         /\ In worst (map notional two_symbol_fills)
         /\ forall x, In x (map notional two_symbol_fills) ->
              d_leb x best = true /\ d_leb worst x = true.
Proof.
  eexists. split; [vm_compute; reflexivity|].
  apply (best_and_worst_trade_are_notional two_symbol_fills).
  vm_compute; reflexivity.
Defined.

Lemma dash_process_trade_raise (trade : Trade) (st : DashState) (e : exn) :
  dash_process_trade trade st = Raise e -> is_division_error e.
Proof.
  unfold dash_process_trade. destruct (is_BUY trade).
  - unfold buy_avg_price.
    destruct (d_eqb (position st) (Decimal_of_int 0)); [discriminate|].
    destruct (d_div _ _) as [q|e'] eqn:Hdiv; cbn [bind]; [discriminate|].
    intros H; injection H as <-. eapply d_div_raise; exact Hdiv.
  - destruct (d_gtb (position st) (Decimal_of_int 0)); discriminate.
Qed.

Lemma dash_loop_raise (groups : list (string * list Trade))
  (totals : Decimal * Z) (e : exn) :
  for_each dash_process_symbol groups totals = Raise e ->
  is_division_error e.
Proof.
  apply for_each_raise_inv. intros item tot e'. unfold dash_process_symbol.
  destruct (for_each dash_process_trade _ _) as [st|e''] eqn:Hloop;
    cbn [bind]; [discriminate|].
  intros H; injection H as <-. revert Hloop. apply for_each_raise_inv.
  intros trade st e0. apply dash_process_trade_raise.
Qed.

(** X11. The dashboard computation can fail in two ways only.  It
    raises TypeError exactly when the commission of some fill is NULL
    (the commissions are summed before anything else); otherwise it can
    fail only with a Decimal division error, and it does not fail on
    fills with positive quantities among which no SELL exceeds the
    quantity open when it arrives.  An oversell breaks it: on BUY 50,
    SELL 80, BUY 30 (all quantities positive, all commissions present)
    it raises DivisionByZero. *)
Theorem dashboard_failures (trades : list Trade) :
  (forall e, dashboard_stats_of trades = Raise e ->
             e = TypeError \/ is_division_error e)
  /\ (dashboard_stats_of trades = Raise TypeError
      <-> In None (map commission trades))
  /\ (positive_quantities trades -> no_oversell trades = true ->
      commissions_present trades ->
      exists stats, dashboard_stats_of trades = Return stats)
  /\ (positive_quantities oversell_then_rebuy
      /\ commissions_present oversell_then_rebuy
      /\ dashboard_stats_of oversell_then_rebuy = Raise DivisionByZero).
Proof.
  assert (Hraise : forall e, dashboard_stats_of trades = Raise e ->
            (e = TypeError /\ In None (map commission trades))
            \/ is_division_error e).
  { intros e. destruct trades as [|t trades]; [discriminate|].
    unfold dashboard_stats_of.
    destruct (py_sum_nullable _) as [fees|e0] eqn:Hsum; cbn [bind].
    - destruct (for_each dash_process_symbol _ _) as [[total wins]|e']
        eqn:Hloop; cbn [bind].
      + destruct (int_truediv_len wins t trades) as [r ->]. discriminate.
      + intros H; injection H as <-. right. eapply dash_loop_raise; exact Hloop.
    - intros H; injection H as <-. left.
      apply py_sum_nullable_Raise in Hsum. exact Hsum. }
  split; [|split; [|split]].
  - intros e He. destruct (Hraise e He) as [[-> _]|Hdiv]; auto.
  - split.
    + intros He. destruct (Hraise _ He) as [[_ Hin]|[Hdiv|Hdiv]];
        [exact Hin | discriminate | discriminate].
    + intros Hin. destruct trades as [|t trades]; [destruct Hin|].
      unfold dashboard_stats_of.
      rewrite (py_sum_nullable_None _ Hin). reflexivity.
  - intros Hq Hno Hfees.
    destruct trades as [|t trades]; [eexists; reflexivity|].
    unfold dashboard_stats_of.
    destruct (py_sum_nullable_present _ Hfees) as [fees ->]. cbn [bind].
    destruct (_calculate_positions_pnl_returns (no_tags_service [])
                (t :: trades) Hq (closing_commissions_of_present _ Hfees))
      as [results Hrun].
    unfold _calculate_positions_pnl in Hrun.
    pose proof (symbols_in_step (no_tags_service [])
                  (group_by symbol (t :: trades)) []
                  (Decimal_of_int 0, 0) Hno
                  (group_by_Forall _ symbol _
                     (closing_commissions_of_present _ Hfees))
                  (conj eq_refl eq_refl)) as Hsim.
    rewrite Hrun in Hsim.
    destruct (for_each dash_process_symbol _ _) as [[total wins]|e];
      cbn [same_outcome bind] in *; [|contradiction].
    destruct (int_truediv_len wins t trades) as [r ->]. cbn [bind].
    eexists; reflexivity.
  - split; [repeat constructor|].
    split; [repeat constructor; discriminate | vm_compute; reflexivity].
Qed.

Lemma dashboard_failures_witness :
  dashboard_stats_of oversell_then_rebuy = Raise DivisionByZero
  /\ (DivisionByZero = TypeError \/ is_division_error DivisionByZero)
  /\ In None (map commission (map (with_commission (fun _ => None)) scenario_A))
  /\ dashboard_stats_of (map (with_commission (fun _ => None)) scenario_A)
     = Raise TypeError
  /\ positive_quantities scenario_A
  /\ no_oversell scenario_A = true
  /\ commissions_present scenario_A
  /\ exists stats, dashboard_stats_of scenario_A = Return stats.
Proof.
  assert (H : dashboard_stats_of oversell_then_rebuy = Raise DivisionByZero)
    by (vm_compute; reflexivity).
  assert (Hnull : In None (map commission
                             (map (with_commission (fun _ => None)) scenario_A)))
    by (left; reflexivity).
  assert (Hq : positive_quantities scenario_A) by (repeat constructor).
  assert (Hno : no_oversell scenario_A = true) by (vm_compute; reflexivity).
  assert (Hfees : commissions_present scenario_A)
    by (repeat constructor; discriminate).
  destruct (dashboard_failures oversell_then_rebuy) as [Herr _].
  destruct (dashboard_failures
              (map (with_commission (fun _ => None)) scenario_A))
    as [_ [Htype _]].
  destruct (dashboard_failures scenario_A) as [_ [_ [Hret _]]].
  split; [exact H|]. split; [exact (Herr _ H)|].
  split; [exact Hnull|]. split; [exact (proj2 Htype Hnull)|].
  split; [exact Hq|]. split; [exact Hno|]. split; [exact Hfees|].
  exact (Hret Hq Hno Hfees).
Defined.

Lemma dash_process_trade_wins (trade : Trade) (st st' : DashState) :
  dash_process_trade trade st = Return st' ->
  winning_trades st <= winning_trades st'
  /\ winning_trades st'
     <= winning_trades st + (if is_BUY trade then 0 else 1).
Proof.
  unfold dash_process_trade. destruct (is_BUY trade).
  - destruct (buy_avg_price _ _ _); cbn [bind]; intros H; [|discriminate].
    injection H as <-. cbn [winning_trades]. lia.
  - destruct (d_gtb (position st) (Decimal_of_int 0)); intros H;
      injection H as <-; cbn [winning_trades]; [|lia].
    destruct (d_gtb _ _); lia.
Qed.

Lemma dash_symbol_loop_wins (l : list Trade) :
  forall st st',
  for_each dash_process_trade l st = Return st' ->
  winning_trades st <= winning_trades st'
  /\ winning_trades st'
     <= winning_trades st + len (filter (fun t => negb (is_BUY t)) l).
Proof.
  unfold len.
  induction l as [|t l IH]; intros st st' H; cbn [for_each] in H.
  - injection H as <-. cbn. lia.
  - destruct (dash_process_trade t st) as [st1|] eqn:H1; cbn [bind] in H;
      [|discriminate].
    apply dash_process_trade_wins in H1. apply IH in H.
    cbn [filter]. destruct (is_BUY t); cbn [negb List.length] in *; lia.
Qed.

Lemma dash_groups_wins (groups : list (string * list Trade)) :
  forall totals totals',
  for_each dash_process_symbol groups totals = Return totals' ->
  snd totals <= snd totals'
  /\ snd totals'
     <= snd totals
        + len (filter (fun t => negb (is_BUY t))
                 (List.concat (map snd groups))).
Proof.
  unfold len.
  induction groups as [|[k g] groups IH]; intros totals totals' H;
    cbn [for_each] in H.
  - injection H as <-. cbn. lia.
  - destruct (dash_process_symbol (k, g) totals) as [t1|] eqn:H1;
      cbn [bind] in H; [|discriminate].
    apply IH in H. unfold dash_process_symbol in H1. cbn [snd] in H1.
    destruct (for_each dash_process_trade _ _) as [st|] eqn:Hloop;
      cbn [bind] in H1; [|discriminate].
    injection H1 as <-. apply dash_symbol_loop_wins in Hloop.
    cbn [winning_trades snd] in *. unfold len in Hloop.
    rewrite (Permutation_filter_length (fun t => negb (is_BUY t))
               (sort_by_trade_date g) g (stable_sort_perm _ g)) in Hloop.
    cbn [map snd List.concat]. rewrite filter_app, length_app. lia.
Qed.

(** The open lot of the dashboard evolves by itself: from two states
    with the same lot a step ends alike, with the same lot again and
    the same number of wins added. *)
Lemma dash_step_sim (trade : Trade) (a b : DashState) :
  same_lot a b ->
  same_outcome
    (fun a' b' =>
       same_lot a' b'
       /\ winning_trades a' - winning_trades a
          = winning_trades b' - winning_trades b)
    (dash_process_trade trade a) (dash_process_trade trade b).
Proof.
  intros [Hpos Havg]. unfold dash_process_trade. rewrite Hpos, Havg.
  destruct (is_BUY trade).
  - destruct (buy_avg_price _ _ _); cbn [bind same_outcome]; [|reflexivity].
    unfold same_lot. cbn. repeat split; lia.
  - destruct (d_gtb (position b) (Decimal_of_int 0)); cbn [same_outcome].
    + unfold same_lot. cbn. destruct (d_gtb _ (Decimal_of_int 0));
        repeat split; lia.
    + unfold same_lot. repeat split; auto; lia.
Qed.

Lemma dash_loop_sim (l : list Trade) :
  forall a b : DashState,
  same_lot a b ->
  same_outcome
    (fun a' b' =>
       same_lot a' b'
       /\ winning_trades a' - winning_trades a
          = winning_trades b' - winning_trades b)
    (for_each dash_process_trade l a) (for_each dash_process_trade l b).
Proof.
  induction l as [|t l IH]; intros a b Hab; cbn [for_each same_outcome].
  - split; [exact Hab | lia].
  - pose proof (dash_step_sim t a b Hab) as Hstep.
    destruct (dash_process_trade t a) as [a1|];
      destruct (dash_process_trade t b) as [b1|];
      cbn [same_outcome bind] in *; try contradiction; [|exact Hstep].
    destruct Hstep as [Hlot Hwins]. specialize (IH a1 b1 Hlot).
    destruct (for_each dash_process_trade l a1);
      destruct (for_each dash_process_trade l b1);
      cbn [same_outcome] in *; try contradiction; [|exact IH].
    destruct IH as [Hlot' Hwins']. split; [exact Hlot' | lia].
Qed.

(** A step counts a win exactly for a fill that is not a BUY, finds a
    position above 0 and books a P&L above 0. *)
Lemma dash_step_win (trade : Trade) (st st' : DashState) :
  dash_process_trade trade st = Return st' ->
  (winning_trades st' = winning_trades st + 1
   /\ is_BUY trade = false
   /\ d_gtb (position st) d_zero = true
   /\ d_gtb (dash_pnl trade st) d_zero = true)
  \/ (winning_trades st' = winning_trades st
      /\ (is_BUY trade = true
          \/ d_gtb (position st) d_zero = false
          \/ d_gtb (dash_pnl trade st) d_zero = false)).
Proof.
  unfold dash_process_trade, dash_pnl. fold d_zero.
  destruct (is_BUY trade).
  - destruct (buy_avg_price _ _ _); cbn [bind]; intros H; [|discriminate].
    injection H as <-. right. split; [reflexivity | left; reflexivity].
  - destruct (d_gtb (position st) d_zero); intros H; injection H as <-.
    + cbn [winning_trades].
      destruct (d_gtb (d_mul (d_sub (price trade) (dash_avg_price st))
                         (py_min (quantity trade) (position st))) d_zero);
        [left | right].
      * repeat split; reflexivity.
      * split; [reflexivity | right; right; reflexivity].
    + right. split; [reflexivity | right; left; reflexivity].
Qed.

(** The dashboard loop over the first [k] fills of a symbol, started
    without wins: its count of winning trades is the number of winning
    fills among them. *)
Lemma dash_loop_winners (fills : list Trade) :
  forall k : nat, (k <= List.length fills)%nat ->
  forall st,
  for_each dash_process_trade (firstn k fills) (dash_start (d_zero, 0))
  = Return st ->
  exists ws : list nat,
    StronglySorted Nat.lt ws
    /\ (forall i, In i ws <-> (i < k)%nat /\ dash_winner fills i)
    /\ winning_trades st = len ws.
Proof.
  induction k as [|k IH]; intros Hk st Hrun.
  - cbn in Hrun. injection Hrun as <-. exists [].
    split; [constructor|]. split; [|reflexivity].
    intros i. split; [intros [] | intros [H _]; lia].
  - destruct (nth_error fills k) as [trade|] eqn:Hnth;
      [|apply nth_error_None in Hnth; lia].
    rewrite (firstn_snoc _ _ _ Hnth), for_each_app in Hrun.
    destruct (for_each dash_process_trade (firstn k fills)
                (dash_start (d_zero, 0))) as [st_k|] eqn:Hpre;
      cbn [bind for_each] in Hrun; [|discriminate].
    destruct (dash_process_trade trade st_k) as [st1|] eqn:Hstep;
      cbn [bind] in Hrun; [|discriminate].
    injection Hrun as <-.
    destruct (IH ltac:(lia) st_k eq_refl) as [ws [Hsorted [Hmem Hcount]]].
    destruct (dash_step_win trade st_k st1 Hstep)
      as [[Hw [Hside [Hgt Hwin]]]|[Hw Hnot]].
    + exists (ws ++ [k]). split; [|split].
      * apply StronglySorted_snoc; [exact Hsorted|].
        apply Forall_forall. intros i Hi. apply Hmem in Hi. tauto.
      * intros i. rewrite in_app_iff, Hmem. cbn [In]. split.
        -- intros [[Hi Hwi]|[<-|[]]]; [split; [lia|exact Hwi]|].
           split; [lia|]. exists trade, st_k. auto.
        -- intros [Hi Hwi].
           destruct (Nat.eq_dec i k) as [->|Hne]; [right; left; reflexivity|].
           left. split; [lia|exact Hwi].
      * rewrite Hw, Hcount. unfold len. rewrite length_app. cbn [List.length].
        lia.
    + exists ws. split; [exact Hsorted|]. split; [|lia].
      intros i. rewrite Hmem. split; [intros [Hi Hwi]; split; [lia|exact Hwi]|].
      intros [Hi Hwi]. split; [|exact Hwi].
      destruct (Nat.eq_dec i k) as [->|Hne]; [|lia]. exfalso.
      destruct Hwi as [t0 [st0 [Ht0 [Hbuy [Hloop [Hopen Hpos]]]]]].
      rewrite Hpre in Hloop. injection Hloop as <-.
      rewrite Hnth in Ht0. injection Ht0 as <-.
      destruct Hnot as [H|[H|H]]; congruence.
Qed.

Lemma dash_symbol_winners (item : string * list Trade)
  (totals totals' : Decimal * Z) :
  dash_process_symbol item totals = Return totals' ->
  exists ws : list nat,
    StronglySorted Nat.lt ws
    /\ (forall i, In i ws <-> dash_winner (sort_by_trade_date (snd item)) i)
    /\ snd totals' = snd totals + len ws.
Proof.
  unfold dash_process_symbol.
  change {| position := Decimal_of_int 0;
            dash_avg_price := Decimal_of_int 0;
            dash_total_pnl := fst totals;
            winning_trades := snd totals |} with (dash_start totals).
  set (fills := sort_by_trade_date (snd item)).
  destruct (for_each dash_process_trade fills (dash_start totals))
    as [st|] eqn:Hloop; cbn [bind]; [|discriminate].
  intros H. injection H as <-. cbn [snd].
  pose proof (dash_loop_sim fills (dash_start totals) (dash_start (d_zero, 0))
                (conj eq_refl eq_refl)) as Hsim.
  rewrite Hloop in Hsim.
  destruct (for_each dash_process_trade fills (dash_start (d_zero, 0)))
    as [st0|] eqn:Hloop0; cbn [same_outcome] in Hsim; [|contradiction].
  destruct Hsim as [_ Hwins]. cbn [dash_start winning_trades snd] in Hwins.
  destruct (dash_loop_winners fills (List.length fills) (le_n _) st0)
    as [ws [Hsorted [Hmem Hcount]]].
  { rewrite firstn_all. exact Hloop0. }
  exists ws. split; [exact Hsorted|]. split; [|lia].
  intros i. rewrite Hmem. split; [tauto|]. intros Hwi. split; [|exact Hwi].
  destruct Hwi as [t0 [_ [Ht0 _]]]. apply nth_error_Some. congruence.
Qed.

Lemma dash_groups_winners (groups : list (string * list Trade)) :
  forall totals totals' : Decimal * Z,
  for_each dash_process_symbol groups totals = Return totals' ->
  exists winners : list (list nat),
    Forall2
      (fun group ws =>
         StronglySorted Nat.lt ws
         /\ forall i,
              In i ws <-> dash_winner (sort_by_trade_date (snd group)) i)
      groups winners
    /\ snd totals' = snd totals + len (List.concat winners).
Proof.
  induction groups as [|item groups IH]; intros totals totals' H;
    cbn [for_each] in H.
  - injection H as <-. exists []. split; [constructor | cbn; lia].
  - destruct (dash_process_symbol item totals) as [t1|] eqn:H1;
      cbn [bind] in H; [|discriminate].
    destruct (dash_symbol_winners item totals t1 H1)
      as [ws [Hsorted [Hmem Hcount]]].
    destruct (IH t1 totals' H) as [winners [Hall Hrest]].
    exists (ws :: winners). split; [constructor; [split; assumption|exact Hall]|].
    cbn [List.concat]. unfold len in *. rewrite length_app. lia.
Qed.

(** X22. The dashboard counts fills, not round trips.  total_trades is
    the number of fills and total_commission the sum of their
    commissions.  The winning trades are, symbol by symbol, the fills
    that are not a BUY, meet a position above 0 in the dashboard's own
    running lot and book (price - average price) * min(quantity,
    position) above 0; the win rate is their number taken over the
    number of all fills, BUY fills included, and their number is at most
    the number of fills that are not a BUY. *)
Theorem dashboard_counts_fills (trades : list Trade)
  (stats : DashboardStats.t) :
  dashboard_stats_of trades = Return stats ->
  DashboardStats.total_trades stats = len trades
  /\ py_sum_nullable (map commission trades)
     = Return (DashboardStats.total_commission stats)
  /\ exists winners : list (list nat),
       dash_winners trades winners
       /\ len (List.concat winners)
          <= len (filter (fun t => negb (is_BUY t)) trades)
       /\ (trades <> [] ->
           DashboardStats.win_rate stats
           = round2 (float_of_ratio (len (List.concat winners)) (len trades)
                     * float_of_ratio 100 1)%float).
Proof.
  unfold dashboard_stats_of, dash_winners. destruct trades as [|t trades].
  - intros H. injection H as <-. cbn. repeat split.
    exists []. split; [constructor|]. split; [cbn; lia | congruence].
  - remember (t :: trades) as fills eqn:Hfills.
    destruct (py_sum_nullable (map commission fills)) as [fees|];
      cbn [bind]; [|discriminate].
    destruct (for_each dash_process_symbol (group_by symbol fills)
                (Decimal_of_int 0, 0)) as [[total wins]|] eqn:Hloop;
      cbn [bind]; [|discriminate].
    unfold int_truediv.
    assert (Hlen : 0 < len fills)
      by (rewrite Hfills; unfold len; cbn [List.length]; lia).
    destruct (Z.eqb_spec (len fills) 0) as [E|_]; [lia|].
    destruct (Z.ltb_spec 0 (len fills)) as [_|E]; [|lia].
    cbn [bind]. intros H. injection H as <-.
    cbn [DashboardStats.total_trades DashboardStats.total_commission
         DashboardStats.win_rate py_mul_int py_round2 as_float].
    split; [reflexivity|]. split; [reflexivity|].
    destruct (dash_groups_winners _ _ _ Hloop) as [winners [Hall Hcount]].
    cbn [snd] in Hcount. rewrite Z.add_0_l in Hcount. subst wins.
    exists winners. split; [exact Hall|]. split; [|reflexivity].
    apply dash_groups_wins in Hloop. cbn [snd] in Hloop. unfold len in *.
    rewrite (Permutation_filter_length _ _ _
               (group_by_partition symbol fills)) in Hloop.
    lia.
Qed.

Lemma dashboard_counts_fills_witness :
  exists stats,
    dashboard_stats_of scenario_A = Return stats
    /\ DashboardStats.total_trades stats = 2
    /\ DashboardStats.win_rate stats = 50%float
    /\ DashboardStats.total_trades stats = len scenario_A.
Proof.
  eexists. split; [vm_compute; reflexivity|].
  split; [reflexivity|]. split; [reflexivity|].
  apply (dashboard_counts_fills scenario_A _ eq_refl).
Defined.

(** X25. A winning trade of the dashboard is a win before commission.
    On a fill list in which every fill has a commission and no SELL
    exceeds the quantity open when it arrives, the dashboard returns
    whenever position reconstruction does, and its win rate is the
    number of entries of position reconstruction whose (exit price -
    entry price) * closed quantity is above 0, taken over the number of
    all fills: an entry that the commission turns into a loss still
    counts as a win. *)
Theorem dashboard_wins_are_gross_wins (self : TradeLogService)
  (trades : list Trade) (results : list ClosedPosition) :
  no_oversell trades = true ->
  commissions_present trades ->
  trades <> [] ->
  _calculate_positions_pnl self trades = Return results ->
  exists stats,
    dashboard_stats_of trades = Return stats
    /\ DashboardStats.win_rate stats
       = round2 (float_of_ratio (len (filter gross_win results)) (len trades)
                 * float_of_ratio 100 1)%float.
Proof.
  intros Hno Hfees Hne. destruct trades as [|t trades]; [congruence|].
  clear Hne. unfold dashboard_stats_of, _calculate_positions_pnl.
  destruct (py_sum_nullable_present _ Hfees) as [fees ->]. cbn [bind].
  pose proof (symbols_in_step self (group_by symbol (t :: trades)) []
                (Decimal_of_int 0, 0) Hno
                (group_by_Forall _ symbol _
                   (closing_commissions_of_present _ Hfees))
                (conj eq_refl eq_refl)) as H.
  destruct (for_each (process_symbol self) _ []) as [r|e1];
    destruct (for_each dash_process_symbol _ _) as [[total wins]|e2];
    cbn [same_outcome fmap bind fst snd] in *; try contradiction;
    intros Hrun; [|discriminate].
  injection Hrun as <-. destruct H as [_ ->].
  unfold int_truediv.
  assert (Hlen : 0 < len (t :: trades))
    by (unfold len; cbn [List.length]; lia).
  destruct (Z.eqb_spec (len (t :: trades)) 0) as [E|_]; [lia|].
  destruct (Z.ltb_spec 0 (len (t :: trades))) as [_|E]; [|lia].
  cbn [bind]. eexists. split; reflexivity.
Qed.

Lemma dashboard_wins_are_gross_wins_witness :
  no_oversell scenario_A = true
  /\ commissions_present scenario_A
  /\ _calculate_positions_pnl (no_tags_service scenario_A) scenario_A
     = Return [scenario_A_entry]
  /\ len (filter gross_win [scenario_A_entry]) = 1
  /\ exists stats,
       dashboard_stats_of scenario_A = Return stats
       /\ DashboardStats.win_rate stats
          = round2 (float_of_ratio (len (filter gross_win [scenario_A_entry]))
                      (len scenario_A)
                    * float_of_ratio 100 1)%float.
Proof.
  assert (Hno : no_oversell scenario_A = true) by (vm_compute; reflexivity).
  assert (Hfees : commissions_present scenario_A)
    by (repeat constructor; discriminate).
  assert (Hrun : _calculate_positions_pnl (no_tags_service scenario_A)
                   scenario_A = Return [scenario_A_entry])
    by (vm_compute; reflexivity).
  split; [exact Hno|]. split; [exact Hfees|]. split; [exact Hrun|].
  split; [vm_compute; reflexivity|].
  apply (dashboard_wins_are_gross_wins (no_tags_service scenario_A) scenario_A
           [scenario_A_entry] Hno Hfees); [discriminate | exact Hrun].
Defined.

(* ===================================================================== *)
(** * The entry point and the period selector *)
(* ===================================================================== *)

(** X12. Whatever the data base, the user and the period, the win/loss
    entry point returns the all-zero breakdown and three empty views:
    when there are closing entries the breakdown raises and the handler
    substitutes the empty analysis, and without closing entries the
    analysis is empty anyway. *)
Theorem win_loss_analysis_is_always_empty (self : TradeLogService)
  (uid : Z) (time_period : string) :
  get_win_loss_analysis self uid time_period
  = {| WinLossAnalysis.overall :=
         {| WinLossBreakdown.wins := 0;
            WinLossBreakdown.losses := 0;
            WinLossBreakdown.breakeven := 0;
            WinLossBreakdown.win_rate := PrimFloat.zero;
            WinLossBreakdown.avg_win := Decimal_of_int 0;
            WinLossBreakdown.avg_loss := Decimal_of_int 0;
            WinLossBreakdown.profit_factor := PrimFloat.zero;
            WinLossBreakdown.expectancy := Decimal_of_int 0 |};
       WinLossAnalysis.by_timeframe := [];
       WinLossAnalysis.by_symbol := [];
       WinLossAnalysis.by_strategy := [];
       WinLossAnalysis.time_period := time_period |}.
Proof. rewrite get_win_loss_analysis_is_empty. reflexivity. Qed.

Lemma filter_all {A} (p : A -> bool) (l : list A) :
  Forall (fun x => p x = true) l -> filter p l = l.
Proof.
  induction 1 as [|x l Hx _ IH]; cbn [filter]; [reflexivity|].
  rewrite Hx, IH. reflexivity.
Qed.

Lemma _get_cutoff_date_unknown (self : TradeLogService)
  (time_period : string) :
  ~ In time_period known_periods ->
  _get_cutoff_date self time_period = Return datetime_min.
Proof.
  intros Hnot. unfold _get_cutoff_date.
  repeat match goal with
  | |- context [String.eqb time_period ?s] =>
      destruct (String.eqb_spec time_period s) as [->|_];
      [exfalso; apply Hnot; cbn; tauto|]
  end.
  reflexivity.
Qed.

(** X13. A period selector that is not one of the six known values is
    not rejected: the cutoff is the smallest datetime, so the query
    selects the same trades as for "all". *)
Theorem unknown_period_selects_all (self : TradeLogService) (uid : Z)
  (time_period : string) :
  ~ In time_period known_periods ->
  Forall (fun t => datetime_min <= trade_date t) (trades (db self)) ->
  query_period_trades self uid time_period
  = query_period_trades self uid "all".
Proof.
  intros Hnot Hdates. unfold query_period_trades.
  destruct (String.eqb_spec time_period "all") as [->|_];
    [exfalso; apply Hnot; cbn; tauto|].
  cbn [negb String.eqb Ascii.eqb Bool.eqb].
  rewrite (_get_cutoff_date_unknown self time_period Hnot). cbn [bind].
  rewrite filter_all; [reflexivity|].
  apply Forall_forall. intros t Ht. unfold query_user_trades in Ht.
  apply filter_In in Ht. destruct Ht as [Ht _].
  rewrite Forall_forall in Hdates. apply Z.leb_le. apply Hdates. exact Ht.
Qed.

Lemma unknown_period_selects_all_witness :
  ~ In "2y" known_periods
  /\ Forall (fun t => datetime_min <= trade_date t)
       (trades (db two_date_service))
  /\ query_period_trades two_date_service 7 "2y"
     = query_period_trades two_date_service 7 "all".
Proof.
  assert (Hnot : ~ In "2y" known_periods).
  { cbn. intros H. repeat (destruct H as [H|H]; [discriminate|]). exact H. }
  assert (Hd : Forall (fun t => datetime_min <= trade_date t)
                 (trades (db two_date_service))).
  { repeat constructor; vm_compute; discriminate. }
  split; [exact Hnot|]. split; [exact Hd|].
  apply (unknown_period_selects_all two_date_service 7 "2y" Hnot Hd).
Defined.

Lemma insert_sorted_first {A} (ltb : A -> A -> bool) (x : A) (l : list A) :
  Forall (fun y => ltb x y = true) l -> insert_sorted ltb x l = x :: l.
Proof.
  intros H. destruct H as [|y l Hy _]; cbn [insert_sorted]; [reflexivity|].
  rewrite Hy. reflexivity.
Qed.

Lemma Forall_filter_keep {A} (P : A -> Prop) (p : A -> bool) (l : list A) :
  Forall P l -> Forall P (filter p l).
Proof.
  induction 1 as [|x l Hx _ IH]; cbn [filter]; [constructor|].
  destruct (p x); [constructor; assumption | assumption].
Qed.

Lemma filter_insert_sorted (p : Trade -> bool) (x : Trade) (l : list Trade) :
  StronglySorted (fun a b => trade_date a <= trade_date b) l ->
  filter p (insert_sorted (fun a b => trade_date a <? trade_date b) x l)
  = if p x
    then insert_sorted (fun a b => trade_date a <? trade_date b) x (filter p l)
    else filter p l.
Proof.
  induction 1 as [|y l Hs IH Hall]; cbn [insert_sorted filter].
  - destruct (p x); reflexivity.
  - destruct (Z.ltb_spec (trade_date x) (trade_date y)) as [Hlt|Hge];
      cbn [filter].
    + destruct (p x) eqn:Hpx; [|reflexivity].
      rewrite insert_sorted_first; [reflexivity|].
      assert (Hall' : Forall (fun z => (trade_date x <? trade_date z) = true)
                        (y :: l)).
      { constructor; [apply Z.ltb_lt; exact Hlt|].
        eapply Forall_impl; [|exact Hall]. intros z Hz. cbn beta in Hz.
        apply Z.ltb_lt. lia. }
      apply (Forall_filter_keep _ p (y :: l) Hall').
    + rewrite IH. destruct (p y) eqn:Hpy; destruct (p x) eqn:Hpx;
        cbn [insert_sorted]; try reflexivity.
      destruct (Z.ltb_spec (trade_date x) (trade_date y)); [lia|reflexivity].
Qed.

(** Sorting by date and selecting commute. *)
Lemma sort_by_trade_date_filter (p : Trade -> bool) (l : list Trade) :
  sort_by_trade_date (filter p l) = filter p (sort_by_trade_date l).
Proof.
  unfold sort_by_trade_date, stable_sort.
  assert (Hgen : forall acc,
    StronglySorted (fun a b => trade_date a <= trade_date b) acc ->
    fold_left
      (fun sorted x =>
         insert_sorted (fun a b => trade_date a <? trade_date b) x sorted)
      (filter p l) (filter p acc)
    = filter p
        (fold_left
           (fun sorted x =>
              insert_sorted (fun a b => trade_date a <? trade_date b) x sorted)
           l acc)).
  { induction l as [|x l IH]; intros acc Hacc; cbn [fold_left filter].
    - reflexivity.
    - assert (Hins : StronglySorted (fun a b => trade_date a <= trade_date b)
                       (insert_sorted
                          (fun a b => trade_date a <? trade_date b) x acc)).
      { apply Sorted_StronglySorted; [intros a b c Hab Hbc; lia|].
        apply insert_sorted_by_date. apply StronglySorted_Sorted. exact Hacc. }
      rewrite <- (IH _ Hins), filter_insert_sorted by exact Hacc.
      destruct (p x); reflexivity. }
  apply (Hgen []). constructor.
Qed.

Lemma filter_narrower (cs cl : datetime) (l : list Trade) :
  cl <= cs ->
  filter (fun t => cs <=? trade_date t) (filter (fun t => cl <=? trade_date t) l)
  = filter (fun t => cs <=? trade_date t) l.
Proof.
  intros Hle. induction l as [|x l IH]; cbn [filter]; [reflexivity|].
  destruct (Z.leb_spec cs (trade_date x)) as [Hs|Hs].
  - destruct (Z.leb_spec cl (trade_date x)); [|lia].
    cbn [filter]. destruct (Z.leb_spec cs (trade_date x)); [|lia].
    rewrite IH. reflexivity.
  - destruct (cl <=? trade_date x); cbn [filter];
      [destruct (Z.leb_spec cs (trade_date x)); [lia|]|]; exact IH.
Qed.

Lemma narrower_window (cs cl : datetime) (rows : list Trade) :
  cl <= cs ->
  sort_by_trade_date (filter (fun t => cs <=? trade_date t) rows)
  = filter (fun t => cs <=? trade_date t)
      (sort_by_trade_date (filter (fun t => cl <=? trade_date t) rows)).
Proof.
  intros Hle. rewrite <- sort_by_trade_date_filter, filter_narrower by exact Hle.
  reflexivity.
Qed.

Lemma datetime_sub_days_value (now : datetime) (n : Z) (c : datetime) :
  datetime_sub_days now n = Return c -> c = now - n * us_per_day.
Proof.
  unfold datetime_sub_days. destruct (_ && _); [|discriminate].
  intros H; injection H as <-. reflexivity.
Qed.

(** X14. The period windows are nested.  When the queries for a shorter
    and for a longer period both succeed (1m within 3m within 6m within
    1y, and any period within "all"), the trades of the shorter period
    are exactly those trades of the longer period that are dated at or
    after the shorter period's cutoff, in the same order. *)
Theorem shorter_period_within_longer (self : TradeLogService) (uid : Z)
  (short long : string) (in_short in_long : list Trade) :
  In (short, long) nested_periods ->
  query_period_trades self uid short = Return in_short ->
  query_period_trades self uid long = Return in_long ->
  exists cutoff,
    _get_cutoff_date self short = Return cutoff
    /\ in_short = filter (fun t => cutoff <=? trade_date t) in_long.
Proof.
  intros Hpair. unfold query_period_trades.
  cbn in Hpair.
  repeat (destruct Hpair as [Hpair|Hpair];
          [injection Hpair as <- <-|]); try contradiction;
    cbn [String.eqb Ascii.eqb Bool.eqb negb bind];
    unfold _get_cutoff_date; cbn [String.eqb Ascii.eqb Bool.eqb];
    repeat match goal with
    | |- context [datetime_sub_days ?now ?n] =>
        let c := fresh "c" in let H := fresh "Hc" in
        destruct (datetime_sub_days now n) as [c|] eqn:H;
        [apply datetime_sub_days_value in H | cbn [bind]; discriminate]
    end;
    cbn [bind]; intros Hs Hl; injection Hs as <-; injection Hl as <-;
    eexists; (split; [reflexivity|]);
    try (apply narrower_window; subst; unfold us_per_day; lia);
    apply sort_by_trade_date_filter.
Qed.

Lemma shorter_period_within_longer_witness :
  In ("1m", "3m") nested_periods
  /\ exists in_short in_long,
       query_period_trades two_date_service 7 "1m" = Return in_short
       /\ query_period_trades two_date_service 7 "3m" = Return in_long
       /\ exists cutoff,
            _get_cutoff_date two_date_service "1m" = Return cutoff
            /\ in_short = filter (fun t => cutoff <=? trade_date t) in_long.
Proof.
  assert (Hp : In ("1m", "3m") nested_periods) by (left; reflexivity).
  split; [exact Hp|].
  eexists. eexists.
  split; [vm_compute; reflexivity|]. split; [vm_compute; reflexivity|].
  apply (shorter_period_within_longer two_date_service 7 "1m" "3m" _ _ Hp);
    vm_compute; reflexivity.
Defined.

(* ===================================================================== *)
(** * Strategy buckets *)
(* ===================================================================== *)

Lemma list_sum_cons (x : nat) (l : list nat) :
  list_sum (x :: l) = (x + list_sum l)%nat.
Proof. reflexivity. Qed.

Lemma length_concat_dict_append {V} (k : string) (v : V)
  (d : list (string * list V)) :
  List.length (List.concat (map snd (dict_append k v d)))
  = S (List.length (List.concat (map snd d))).
Proof.
  induction d as [|[k' vs] d IH]; cbn [dict_append]; [reflexivity|].
  destruct (String.eqb k k'); cbn [map snd List.concat];
    rewrite !length_app.
  - cbn. lia.
  - rewrite IH. lia.
Qed.

Lemma length_add_to_strategy_groups
  (d : list (string * list ClosedPosition)) (pos : ClosedPosition) :
  List.length (List.concat (map snd (add_to_strategy_groups d pos)))
  = (List.length (List.concat (map snd d))
     + Nat.max 1 (List.length (tags pos)))%nat.
Proof.
  unfold add_to_strategy_groups. destruct (tags pos) as [|t ts] eqn:Htags.
  - cbn [truthy]. rewrite length_concat_dict_append. cbn. lia.
  - cbn [truthy].
    assert (Hgen : forall (ts' : list string) d',
      List.length
        (List.concat
           (map snd (fold_left (fun g tag => dict_append tag pos g) ts' d')))
      = (List.length (List.concat (map snd d')) + List.length ts')%nat).
    { induction ts' as [|t' ts' IH]; intros d'; cbn [fold_left].
      - cbn. lia.
      - rewrite IH, length_concat_dict_append. cbn. lia. }
    rewrite Hgen. cbn [List.length]. lia.
Qed.

(** X15. Strategy buckets fan out.  The bucket of a name holds, in
    order, every entry once for each occurrence of the name among the
    entry's tags, and every entry without tags when the name is
    "No Strategy"; no bucket is empty; and the buckets together hold
    one element per tag of each entry (one for an entry without tags),
    which is at least the number of entries. *)
Theorem strategy_buckets_fan_out (positions : list ClosedPosition) :
  (forall k, dict_get k (strategy_groups positions)
             = flat_map (strategy_contribution k) positions)
  /\ nonempty_groups (strategy_groups positions)
  /\ List.length (List.concat (map snd (strategy_groups positions)))
     = list_sum
         (map (fun pos => Nat.max 1 (List.length (tags pos))) positions)
  /\ (List.length positions
      <= List.length (List.concat (map snd (strategy_groups positions))))%nat.
Proof.
  split; [intros k; apply strategy_groups_get|].
  split; [apply strategy_groups_nonempty|].
  assert (Hgen : forall d,
    List.length
      (List.concat (map snd (fold_left add_to_strategy_groups positions d)))
    = (List.length (List.concat (map snd d))
       + list_sum
           (map (fun pos => Nat.max 1 (List.length (tags pos))) positions))%nat).
  { induction positions as [|pos ps IH]; intros d; cbn [fold_left map list_sum].
    - cbn. lia.
    - rewrite IH, length_add_to_strategy_groups, list_sum_cons. lia. }
  assert (Hsum : List.length
                   (List.concat (map snd (strategy_groups positions)))
                 = list_sum
                     (map (fun pos => Nat.max 1 (List.length (tags pos)))
                        positions)).
  { unfold strategy_groups. rewrite Hgen. reflexivity. }
  split; [exact Hsum|]. rewrite Hsum.
  clear. induction positions as [|pos ps IH]; cbn [map List.length];
    [cbn; lia|]. rewrite list_sum_cons. lia.
Qed.

(* ===================================================================== *)
(** * The fill behind each entry *)
(* ===================================================================== *)

Lemma map_result_Forall2 {A B} (f : A -> result B) (l : list A) :
  forall ys, map_result f l = Return ys ->
  Forall2 (fun x y => f x = Return y) l ys.
Proof.
  induction l as [|x l IH]; intros ys H; cbn [map_result] in H.
  - injection H as <-. constructor.
  - destruct (f x) as [y|] eqn:Hx; cbn [bind] in H; [|discriminate].
    destruct (map_result f l) as [ys'|]; cbn [bind] in H; [|discriminate].
    injection H as <-. constructor; [exact Hx | apply IH; reflexivity].
Qed.

Lemma Forall2_In_r {A B} (R : A -> B -> Prop) (l : list A) (l' : list B)
  (y : B) :
  Forall2 R l l' -> In y l' -> exists x, In x l /\ R x y.
Proof.
  induction 1 as [|x y' l l' Hxy _ IH]; intros Hin; [destruct Hin|].
  destruct Hin as [<-|Hin].
  - exists x. split; [left; reflexivity | exact Hxy].
  - destruct (IH Hin) as [x' [Hx' Hr]]. exists x'. split; [right|]; assumption.
Qed.

(** One step on the fill at index [i]: it appends nothing when the
    fill is a BUY or finds nothing open, and otherwise appends the entry
    of that fill, which then has a BUY before it. *)
Lemma process_trade_emits (self : TradeLogService) (sym : string)
  (fills : list Trade) (i : nat) (trade : Trade) (st st' : LoopState) :
  nth_error fills i = Some trade ->
  open_only_after_buy fills i st ->
  process_trade self sym fills (i, trade) st = Return st' ->
  open_only_after_buy fills (S i) st'
  /\ ((position_results st' = position_results st
       /\ (is_BUY trade = true \/ d_gtb (position_qty st) d_zero = false))
      \/ (exists e,
            position_results st' = position_results st ++ [e]
            /\ is_BUY trade = false
            /\ d_gtb (position_qty st) d_zero = true
            /\ opened_at self sym fills i e)).
Proof.
  intros Hnth Hinv. unfold process_trade, open_only_after_buy in *.
  rewrite (firstn_snoc _ _ _ Hnth), filter_app. cbn [filter].
  destruct (is_BUY trade) eqn:Hside.
  - destruct (buy_avg_price _ _ _); cbn [bind]; intros H; [|discriminate].
    injection H as <-. split; [|left; split; [reflexivity | left; reflexivity]].
    intros _ Hnil. apply app_eq_nil in Hnil. destruct Hnil; discriminate.
  - fold d_zero. rewrite app_nil_r.
    destruct (d_gtb (position_qty st) d_zero) eqn:Hgt.
    + destruct (closing_entry _ _ _ _ _ _ _) as [entry|] eqn:Hentry;
        cbn [bind]; intros H; [|discriminate].
      injection H as <-. specialize (Hinv eq_refl).
      split; [intros _; exact Hinv|].
      right. exists entry. split; [reflexivity|].
      split; [reflexivity|]. split; [reflexivity|].
      apply closing_entry_Return in Hentry. destruct Hentry as [fee [_ ->]].
      pose proof (last_opening_trade fills i) as Hlast.
      unfold opened_at, entry_for.
      cbn [pos_symbol close_date exit_price tags hold_time].
      destruct (last_opt (filter is_BUY (firstn i fills))) as [b|] eqn:Hb.
      * destruct Hlast as [j Hj]. exists trade, j, b. auto 8.
      * exfalso. apply Hinv. unfold last_opt in Hb.
        destruct (rev (filter is_BUY (firstn i fills))) eqn:Hrev;
          [|discriminate].
        rewrite <- (rev_involutive (filter is_BUY (firstn i fills))), Hrev.
        reflexivity.
    + intros H. injection H as <-.
      split; [intros Hopen; congruence|].
      left. split; [reflexivity | right; reflexivity].
Qed.

(** The loop over the first [k] fills: its entries are those of the
    emitting fills among them, one each and in order. *)
Lemma symbol_loop_pinned (self : TradeLogService) (sym : string)
  (fills : list Trade) :
  forall k : nat, (k <= List.length fills)%nat ->
  forall st,
  symbol_loop self sym fills (firstn k (enumerate fills)) (initial_state [])
  = Return st ->
  open_only_after_buy fills k st
  /\ exists emitting : list nat,
       StronglySorted Nat.lt emitting
       /\ (forall i, In i emitting <-> (i < k)%nat /\ emits self sym fills i)
       /\ Forall2 (opened_at self sym fills) emitting (position_results st).
Proof.
  induction k as [|k IH]; intros Hk st Hrun.
  - cbn in Hrun. injection Hrun as <-. split.
    + intros H. apply d_gtb_zero in H. cbn in H. lia.
    + exists []. split; [constructor|]. split; [|constructor].
      intros i. split; [intros [] | intros [H _]; lia].
  - destruct (nth_error fills k) as [trade|] eqn:Hnth;
      [|apply nth_error_None in Hnth; lia].
    rewrite (firstn_enumerate_snoc _ _ _ Hnth) in Hrun.
    unfold symbol_loop in Hrun. rewrite for_each_app in Hrun.
    destruct (for_each (process_trade self sym fills)
                (firstn k (enumerate fills)) (initial_state []))
      as [st_k|] eqn:Hpre; cbn [bind for_each] in Hrun; [|discriminate].
    destruct (process_trade self sym fills (k, trade) st_k) as [st1|] eqn:Hstep;
      cbn [bind] in Hrun; [|discriminate].
    injection Hrun as <-.
    destruct (IH ltac:(lia) st_k Hpre) as [Hinv [emitting [Hsorted [Hmem Hall]]]].
    destruct (process_trade_emits self sym fills k trade st_k st1 Hnth Hinv Hstep)
      as [Hinv1 [[Hsame Hnot]|[e [Hadd [Hside [Hgt He]]]]]].
    + split; [exact Hinv1|]. exists emitting. split; [exact Hsorted|].
      split; [|rewrite Hsame; exact Hall].
      intros i. rewrite Hmem. split; [intros [Hi Hem]; split; [lia|exact Hem]|].
      intros [Hi Hem]. split; [|exact Hem].
      destruct (Nat.eq_dec i k) as [->|Hne]; [|lia]. exfalso.
      destruct Hem as [sell [st0 [Hsell [Hbuy [Hloop Hopen]]]]].
      unfold symbol_loop in Hloop. rewrite Hpre in Hloop.
      injection Hloop as <-. rewrite Hnth in Hsell. injection Hsell as <-.
      destruct Hnot; congruence.
    + split; [exact Hinv1|]. exists (emitting ++ [k]). split; [|split].
      * apply StronglySorted_snoc; [exact Hsorted|].
        apply Forall_forall. intros i Hi. apply Hmem in Hi. tauto.
      * intros i. rewrite in_app_iff, Hmem. cbn [In]. split.
        -- intros [[Hi Hem]|[<-|[]]]; [split; [lia|exact Hem]|].
           split; [lia|]. exists trade, st_k. auto.
        -- intros [Hi Hem].
           destruct (Nat.eq_dec i k) as [->|Hne]; [right; left; reflexivity|].
           left. split; [lia|exact Hem].
      * rewrite Hadd. apply Forall2_app; [exact Hall|].
        constructor; [exact He|constructor].
Qed.

Lemma symbol_events_pinned (self : TradeLogService) (sym : string)
  (g : list Trade) (entries : list ClosedPosition) :
  symbol_events self (sym, g) = Return entries ->
  one_entry_per_emitting_fill opened_at self sym (sort_by_trade_date g) entries.
Proof.
  unfold symbol_events, process_symbol. intros H.
  destruct (symbol_loop self sym (sort_by_trade_date g)
              (enumerate (sort_by_trade_date g)) _) as [st|] eqn:Hloop;
    cbn [bind] in H; [|discriminate].
  injection H as <-.
  destruct (symbol_loop_pinned self sym (sort_by_trade_date g)
              (List.length (sort_by_trade_date g)) (le_n _) st)
    as [_ [emitting [Hsorted [Hmem Hall]]]].
  { rewrite firstn_all2
      by (unfold enumerate; rewrite length_enumerate_from; lia).
    exact Hloop. }
  exists emitting. split; [exact Hsorted|]. split; [|exact Hall].
  intros i. rewrite Hmem. split; [tauto|]. intros Hem. split; [|exact Hem].
  destruct Hem as [sell [_ [Hsell _]]].
  apply nth_error_Some. congruence.
Qed.

(** The result of position reconstruction, symbol by symbol and fill
    by fill. *)
Lemma positions_pnl_pinned (self : TradeLogService) (trades : list Trade)
  (results : list ClosedPosition) :
  _calculate_positions_pnl self trades = Return results ->
  entries_by_symbol (one_entry_per_emitting_fill opened_at self) trades results.
Proof.
  unfold _calculate_positions_pnl. rewrite for_each_process_symbol.
  destruct (map_result (symbol_events self) (group_by symbol trades))
    as [evs|] eqn:Hrun; cbn [fmap bind]; [|discriminate].
  intros H. injection H as <-. cbn [app].
  exists evs. split; [reflexivity|].
  apply map_result_Forall2 in Hrun.
  eapply Forall2_impl; [|exact Hrun].
  intros [sym g] entries Hev. cbn [fst snd].
  apply symbol_events_pinned. exact Hev.
Qed.

Lemma opened_at_attributed_at (self : TradeLogService) (sym : string)
  (fills : list Trade) (i : nat) (e : ClosedPosition) :
  opened_at self sym fills i e -> attributed_at self sym fills i e.
Proof.
  intros [sell [j [b [Hsell [Hsym [Hdate [Hprice [Hlast [Htags Hhold]]]]]]]]].
  exists sell. repeat (split; [assumption|]).
  left. exists j, b. auto.
Qed.

(** The most recent BUY before an index is one fill. *)
Lemma is_last_buy_before_unique (fills : list Trade) (i j j' : nat)
  (b b' : Trade) :
  is_last_buy_before fills i j b -> is_last_buy_before fills i j' b' ->
  j = j' /\ b = b'.
Proof.
  intros [Hj [Hb [Hbuy Hnone]]] [Hj' [Hb' [Hbuy' Hnone']]].
  assert (E : j = j').
  { destruct (Nat.lt_trichotomy j j') as [Hlt|[E|Hlt]]; [|exact E|].
    - specialize (Hnone j' b' (conj Hlt Hj') Hb'). congruence.
    - specialize (Hnone' j b (conj Hlt Hj) Hb). congruence. }
  subst j'. split; [reflexivity | congruence].
Qed.

(** The rule leaves no choice: two entries attributed to the fill at
    one index agree in symbol, timestamp, exit price, tags and holding
    time. *)
Lemma attributed_at_determined (self : TradeLogService) (sym : string)
  (fills : list Trade) (i : nat) (e e' : ClosedPosition) :
  attributed_at self sym fills i e -> attributed_at self sym fills i e' ->
  pos_symbol e = pos_symbol e'
  /\ close_date e = close_date e'
  /\ exit_price e = exit_price e'
  /\ tags e = tags e'
  /\ hold_time e = hold_time e'.
Proof.
  intros [sell [Hsell [Hsym [Hdate [Hprice Hrule]]]]]
         [sell' [Hsell' [Hsym' [Hdate' [Hprice' Hrule']]]]].
  rewrite Hsell in Hsell'. injection Hsell' as <-.
  repeat (split; [congruence|]).
  destruct Hrule as [[j [b [Hlast [Htags Hhold]]]]|[Hnone [Htags Hhold]]];
    destruct Hrule' as [[j' [b' [Hlast' [Htags' Hhold']]]]|[Hnone' [Htags' Hhold']]].
  - destruct (is_last_buy_before_unique _ _ _ _ _ _ Hlast Hlast') as [_ <-].
    split; congruence.
  - destruct Hlast as [Hj [Hb [Hbuy _]]].
    specialize (Hnone' j b Hj Hb). congruence.
  - destruct Hlast' as [Hj [Hb [Hbuy _]]].
    specialize (Hnone j' b' Hj Hb). congruence.
  - split; congruence.
Qed.

(** C8. Position reconstruction returns on fills with positive
    quantities (and a commission where one is read), and its result is
    made of the entries of each instrument: the fills of the instrument
    are put in time order, every fill of that sequence that is not a BUY
    and finds a quantity open emits exactly one entry, the entries
    follow in the order of their fills, and the entry of a fill has the
    tags of the most recent BUY strictly before that fill in the
    sequence and for holding time the fill's timestamp minus that
    BUY's timestamp; without such a BUY the tags are empty and the
    holding time is zero. *)
Theorem tags_from_most_recent_buy (self : TradeLogService)
  (trades : list Trade) :
  (positive_quantities trades -> closing_commissions_present trades ->
   exists results, _calculate_positions_pnl self trades = Return results)
  /\ forall results,
       _calculate_positions_pnl self trades = Return results ->
       entries_by_symbol
         (fun sym fills entries =>
            Sorted (fun a b => trade_date a <= trade_date b) fills
            /\ one_entry_per_emitting_fill attributed_at self sym fills entries)
         trades results.
Proof.
  split; [apply _calculate_positions_pnl_returns|].
  intros results Hrun.
  destruct (positions_pnl_pinned self trades results Hrun)
    as [per_symbol [Hres Hall]].
  exists per_symbol. split; [exact Hres|].
  eapply Forall2_impl; [|exact Hall]. cbn beta.
  intros group entries [emitting [Hsorted [Hmem Hent]]].
  split; [apply sort_by_trade_date_sorted|].
  exists emitting. split; [exact Hsorted|]. split; [exact Hmem|].
  eapply Forall2_impl; [|exact Hent].
  intros i e. apply opened_at_attributed_at.
Qed.

Lemma tags_from_most_recent_buy_witness :
  positive_quantities same_time_fills
  /\ closing_commissions_present same_time_fills
  /\ exists results,
       _calculate_positions_pnl same_time_service same_time_fills
       = Return results
       /\ map tags results = [["first"]; ["second"]]
       /\ map hold_time results = [us_per_day; 0]
       /\ entries_by_symbol
            (fun sym fills entries =>
               Sorted (fun a b => trade_date a <= trade_date b) fills
               /\ one_entry_per_emitting_fill attributed_at same_time_service
                    sym fills entries)
            same_time_fills results.
Proof.
  split; [repeat constructor|].
  split; [repeat constructor; discriminate|].
  eexists. split; [vm_compute; reflexivity|].
  split; [reflexivity|]. split; [reflexivity|].
  apply (proj2 (tags_from_most_recent_buy same_time_service same_time_fills)).
  vm_compute; reflexivity.
Defined.

(** X21. Every entry has an opening BUY.  Whatever the fills, the
    entries that position reconstruction returns for an instrument are
    those of the fills that are not a BUY and find a quantity open, one
    entry for each such fill and in their order, and each such fill has
    a BUY of the instrument before it in time order: the entry has the
    tags of the most recent such BUY and for holding time the time
    elapsed since that BUY, which is never negative.  The fallback of
    the code for a closing fill without opening trade (no tags, zero
    holding time) is never taken. *)
Theorem every_entry_has_an_opening_buy (self : TradeLogService)
  (trades : list Trade) (results : list ClosedPosition) :
  _calculate_positions_pnl self trades = Return results ->
  (forall e, In e results -> 0 <= hold_time e)
  /\ entries_by_symbol (one_entry_per_emitting_fill opened_at self)
       trades results.
Proof.
  intros Hrun. pose proof (positions_pnl_pinned self trades results Hrun) as Hp.
  split; [|exact Hp].
  destruct Hp as [per_symbol [-> Hall]]. intros e He.
  apply in_concat in He. destruct He as [entries [Hentries He]].
  destruct (Forall2_In_r _ _ _ _ Hall Hentries)
    as [group [_ [emitting [_ [_ Hent]]]]].
  destruct (Forall2_In_r _ _ _ _ Hent He) as [i [_ Hopen]].
  destruct Hopen
    as [sell [j [b [Hi [_ [_ [_ [[Hji [Hj _]] [_ ->]]]]]]]]].
  pose proof (StronglySorted_nth_error _ _
                (sort_by_trade_date_StronglySorted (snd group))
                j i b sell Hji Hj Hi) as Hle.
  cbn beta in Hle. unfold datetime in *. lia.
Qed.

Lemma every_entry_has_an_opening_buy_witness :
  _calculate_positions_pnl tagged_service scenario_A
  = Return [tagged_scenario_A_entry]
  /\ (forall e, In e [tagged_scenario_A_entry] -> 0 <= hold_time e)
  /\ entries_by_symbol (one_entry_per_emitting_fill opened_at tagged_service)
       scenario_A [tagged_scenario_A_entry].
Proof.
  assert (H : _calculate_positions_pnl tagged_service scenario_A
              = Return [tagged_scenario_A_entry])
    by (vm_compute; reflexivity).
  split; [exact H|].
  apply (every_entry_has_an_opening_buy tagged_service scenario_A _ H).
Defined.

(* ===================================================================== *)
(** * The CSV import *)
(* ===================================================================== *)

Lemma prefix_append (s1 s2 l : string) :
  String.prefix (s1 ++ s2) l = true -> String.prefix s1 l = true.
Proof.
  revert l. induction s1 as [|c s1 IH]; intros l H.
  - destruct l; reflexivity.
  - destruct l as [|d l]; cbn in *; [discriminate|].
    destruct (ascii_dec c d); [apply IH; exact H | discriminate].
Qed.

Lemma header_line_is_trades_line (line : string) :
  is_header_line line = true -> is_trades_line line = true.
Proof. apply (prefix_append "Trades," "Header,"). Qed.

Lemma data_line_is_trades_line (line : string) :
  is_data_line line = true -> is_trades_line line = true.
Proof. apply (prefix_append "Trades," "Data,"). Qed.

(** Inside the section the loop keeps the header and data lines up to
    the first line that does not start with [Trades,]. *)
Lemma select_trade_lines_started (lines : list string) :
  forall trade_lines,
  select_trade_lines lines true trade_lines
  = trade_lines
    ++ filter (fun line => is_header_line line || is_data_line line)
         (take_while is_trades_line lines).
Proof.
  induction lines as [|line rest IH]; intros acc; cbn [select_trade_lines].
  - cbn. rewrite app_nil_r. reflexivity.
  - cbn [take_while andb].
    destruct (is_header_line line) eqn:Hh.
    + rewrite (header_line_is_trades_line _ Hh). cbn [filter]. rewrite Hh.
      cbn [orb]. rewrite IH, <- app_assoc. reflexivity.
    + destruct (is_data_line line) eqn:Hd.
      * rewrite (data_line_is_trades_line _ Hd). cbn [filter].
        rewrite Hh, Hd. cbn [orb]. rewrite IH, <- app_assoc. reflexivity.
      * destruct (is_trades_line line); cbn [negb filter].
        -- rewrite Hh, Hd. cbn [orb]. apply IH.
        -- rewrite app_nil_r. reflexivity.
Qed.

Lemma select_trade_lines_spec (lines : list string) :
  forall trade_lines,
  select_trade_lines lines false trade_lines
  = trade_lines ++ trades_section lines.
Proof.
  induction lines as [|line rest IH]; intros acc;
    cbn [select_trade_lines]; unfold trades_section; cbn [drop_while].
  - rewrite app_nil_r. reflexivity.
  - destruct (is_header_line line) eqn:Hh; cbn [negb andb].
    + rewrite select_trade_lines_started, <- app_assoc. reflexivity.
    + apply IH.
Qed.

(** X16. The line selection of the import keeps exactly the trades
    section of the file: the first header line, and after it the header
    and data lines among the lines that start with [Trades,], up to the
    first line that does not.  Data lines ahead of the first header, and
    everything after the first foreign line, are left out. *)
Theorem trade_lines_are_the_trades_section (lines : list string) :
  csv_trade_lines lines = trades_section lines.
Proof.
  unfold csv_trade_lines. rewrite select_trade_lines_spec. reflexivity.
Qed.

Lemma subseq_refl {A} (l : list A) : subseq l l.
Proof. induction l; constructor; assumption. Qed.

Lemma subseq_filter_take_while {A} (p q : A -> bool) (l : list A) :
  subseq (filter p (take_while q l)) l.
Proof.
  induction l as [|x l IH]; cbn [take_while]; [constructor|].
  destruct (q x); cbn [filter]; [|apply subseq_nil_l].
  destruct (p x); constructor; exact IH.
Qed.

Lemma trades_section_subseq (lines : list string) :
  subseq (trades_section lines) lines.
Proof.
  unfold trades_section.
  induction lines as [|line rest IH]; cbn [drop_while]; [constructor|].
  destruct (is_header_line line); cbn [negb].
  - apply subseq_take. apply subseq_filter_take_while.
  - apply subseq_skip. exact IH.
Qed.

Lemma drop_while_nil {A} (p : A -> bool) (l : list A) :
  drop_while p l = [] <-> Forall (fun x => p x = true) l.
Proof.
  induction l as [|x l IH]; cbn [drop_while]; [split; constructor|].
  destruct (p x) eqn:Hx; split; intros H.
  - constructor; [exact Hx | apply IH; exact H].
  - apply IH. inversion H; assumption.
  - discriminate.
  - inversion H; congruence.
Qed.

Lemma drop_while_head {A} (p : A -> bool) (l : list A) (x : A) (l' : list A) :
  drop_while p l = x :: l' -> p x = false.
Proof.
  induction l as [|y l IH]; cbn [drop_while]; [discriminate|].
  destruct (p y) eqn:Hy; [exact IH|]. intros H. injection H as <- _. exact Hy.
Qed.

(** X17. What the line selection yields: nothing exactly when the file
    has no header line of the trades section; otherwise a header line
    first; only header and data lines; and the selected lines are lines
    of the file in file order. *)
Theorem selected_trade_lines (lines : list string) :
  (csv_trade_lines lines = []
   <-> Forall (fun line => is_header_line line = false) lines)
  /\ (forall first rest,
        csv_trade_lines lines = first :: rest -> is_header_line first = true)
  /\ Forall (fun line => is_header_line line = true \/ is_data_line line = true)
       (csv_trade_lines lines)
  /\ subseq (csv_trade_lines lines) lines.
Proof.
  unfold csv_trade_lines. rewrite select_trade_lines_spec. cbn [app].
  repeat split.
  - intros H. unfold trades_section in H.
    destruct (drop_while _ lines) eqn:Hd; [|discriminate].
    apply drop_while_nil in Hd. eapply Forall_impl; [|exact Hd].
    cbn beta. intros line Hl. destruct (is_header_line line); [discriminate|reflexivity].
  - intros H. unfold trades_section.
    replace (drop_while (fun line => negb (is_header_line line)) lines)
      with (@nil string); [reflexivity|].
    symmetry. apply drop_while_nil. eapply Forall_impl; [|exact H].
    cbn beta. intros line ->. reflexivity.
  - intros first rest H. unfold trades_section in H.
    destruct (drop_while _ lines) as [|h t] eqn:Hd; [discriminate|].
    injection H as <- _. apply drop_while_head in Hd.
    destruct (is_header_line h); [reflexivity|discriminate].
  - unfold trades_section.
    destruct (drop_while _ lines) as [|h t] eqn:Hd; [constructor|].
    constructor.
    + left. apply drop_while_head in Hd.
      destruct (is_header_line h); [reflexivity|discriminate].
    + apply Forall_forall. intros line Hin. apply filter_In in Hin.
      destruct Hin as [_ Hk]. apply orb_true_iff in Hk. exact Hk.
  - apply trades_section_subseq.
Qed.

Lemma import_rows_fold (py : PyLibrary) (account_id : Z)
  (numbered : list (nat * Row)) :
  forall imported_trades errors,
  fold_left (import_row py account_id) numbered (imported_trades, errors)
  = (imported_trades ++ trades_of_rows py account_id (map snd numbered),
     errors ++ errors_of_rows py numbered).
Proof.
  induction numbered as [|[k row] numbered IH]; intros imp errs;
    cbn [fold_left map snd].
  - cbn. rewrite !app_nil_r. reflexivity.
  - unfold import_row at 2. unfold trades_of_rows, errors_of_rows.
    cbn [flat_map fst snd].
    destruct (_parse_ibkr_csv_row py row) as [msg|trade_data];
      rewrite IH; unfold trades_of_rows, errors_of_rows;
      cbn [app]; rewrite <- ?app_assoc; reflexivity.
Qed.

Lemma import_rows_spec (py : PyLibrary) (account_id : Z) (rows : list Row) :
  import_rows py account_id rows
  = (trades_of_rows py account_id rows,
     errors_of_rows py (enumerate_from 1 rows)).
Proof.
  unfold import_rows. rewrite import_rows_fold, map_snd_enumerate_from.
  reflexivity.
Qed.

Lemma length_rows_split (py : PyLibrary) (account_id : Z) (rows : list Row) :
  forall start,
  (List.length (trades_of_rows py account_id rows)
   + List.length (errors_of_rows py (enumerate_from start rows))
   = List.length rows)%nat.
Proof.
  induction rows as [|row rows IH]; intros start; [reflexivity|].
  unfold trades_of_rows, errors_of_rows in *.
  cbn [enumerate_from flat_map fst snd].
  specialize (IH (S start)).
  destruct (_parse_ibkr_csv_row py row); cbn [app];
    rewrite ?length_app; cbn [List.length]; lia.
Qed.

Lemma trades_of_rows_account (py : PyLibrary) (account_id : Z)
  (rows : list Row) :
  Forall (fun t => fst t = account_id) (trades_of_rows py account_id rows).
Proof.
  apply Forall_forall. intros t Hin. unfold trades_of_rows in Hin.
  apply in_flat_map in Hin. destruct Hin as [row [_ Hin]].
  destruct (_parse_ibkr_csv_row py row); [destruct Hin|].
  destruct Hin as [<-|[]]. reflexivity.
Qed.

Lemma truthy_len {A} (l : list A) : truthy l = (0 <? len l).
Proof.
  destruct l; [reflexivity|]. unfold len. cbn [truthy List.length].
  symmetry. apply Z.ltb_lt. lia.
Qed.

(** X18. The import accounts for every row.  When it returns, the
    counts are the lengths of the lists of added trades and of
    messages, every added trade is booked on the requested account, and
    the session is committed exactly when a trade was imported.  With a
    trades section in the file, every row of the reader is either
    imported or reported: the two counts add up to the number of rows.
    Without one, nothing is added and the summary reports one error,
    although no row was read. *)
Theorem import_accounts_for_every_row (py : PyLibrary)
  (self : TradeLogService) (lines : list string) (account_id uid : Z)
  (out : ImportOutcome py) :
  import_from_csv py self lines account_id uid = Ok out ->
  let summary := import_result out in
  CSVImportResult.imported_count summary = len (added out)
  /\ CSVImportResult.error_count summary
     = len (CSVImportResult.errors summary)
  /\ Forall (fun t => fst t = account_id) (added out)
  /\ committed out = (0 <? CSVImportResult.imported_count summary)
  /\ (csv_trade_lines lines <> [] ->
      CSVImportResult.imported_count summary
      + CSVImportResult.error_count summary
      = len (DictReader py (csv_trade_lines lines)))
  /\ (csv_trade_lines lines = [] ->
      added out = [] /\ summary = no_trades_section).
Proof.
  unfold import_from_csv. intros H.
  destruct (query_account self account_id uid); [|discriminate].
  destruct (csv_trade_lines lines) as [|first rest] eqn:Hsel; cbn [truthy negb] in H.
  - injection H as <-. cbn.
    repeat split; try reflexivity; try constructor. congruence.
  - rewrite import_rows_spec in H. injection H as <-.
    cbn [import_result added committed CSVImportResult.imported_count
         CSVImportResult.error_count CSVImportResult.errors].
    repeat split.
    + apply trades_of_rows_account.
    + apply truthy_len.
    + intros _. unfold len. rewrite <- Nat2Z.inj_add.
      rewrite (length_rows_split py account_id _ 1%nat). reflexivity.
    + discriminate.
    + discriminate.
Qed.

Lemma import_accounts_for_every_row_witness :
  exists out,
    import_from_csv sample_library one_account_service sample_statement 1 7
    = Ok out
    /\ CSVImportResult.imported_count (import_result out) = 2
    /\ CSVImportResult.error_count (import_result out) = 1
    /\ CSVImportResult.imported_count (import_result out)
       + CSVImportResult.error_count (import_result out)
       = len (DictReader sample_library (csv_trade_lines sample_statement)).
Proof.
  eexists. split; [reflexivity|].
  split; [reflexivity|]. split; [reflexivity|].
  apply (import_accounts_for_every_row sample_library one_account_service
           sample_statement 1 7 _ eq_refl).
  discriminate.
Defined.

Lemma errors_of_rows_In (py : PyLibrary) (rows : list Row) (e : string) :
  forall start,
  In e (errors_of_rows py (enumerate_from start rows)) ->
  exists (k : nat) (row : Row) (msg : string),
    nth_error rows k = Some row
    /\ _parse_ibkr_csv_row py row = inl msg
    /\ e = ("Row " ++ str_of_int (Z.of_nat (start + k)) ++ ": " ++ msg)%string.
Proof.
  induction rows as [|row rows IH]; intros start Hin; [destruct Hin|].
  unfold errors_of_rows in Hin. cbn [enumerate_from flat_map fst snd] in Hin.
  apply in_app_or in Hin. destruct Hin as [Hin|Hin].
  - destruct (_parse_ibkr_csv_row py row) as [msg|] eqn:Hrow; [|destruct Hin].
    destruct Hin as [<-|[]]. exists 0%nat, row, msg.
    rewrite Nat.add_0_r. repeat split; [exact Hrow].
  - destruct (IH (S start) Hin) as [k [row' [msg [Hk [Hrow He]]]]].
    exists (S k), row', msg. repeat split; [exact Hk | exact Hrow |].
    rewrite He. rewrite Nat.add_succ_r. reflexivity.
Qed.

Lemma parse_failure_is_wrapped (py : PyLibrary) (row : Row) (msg : string) :
  _parse_ibkr_csv_row py row = inl msg ->
  begins_with "Invalid data in CSV row: " msg.
Proof.
  unfold _parse_ibkr_csv_row, wrap_invalid_row.
  destruct (parse_row_body py row) as [m|]; [|discriminate].
  intros H. injection H as <-. exists m. reflexivity.
Qed.

(** X19. With a trades section in the file, the added trades are those
    of the rows that parse, in file order, and the messages are those of
    the rows that do not, in file order.  The message of a row is
    "Row k: " followed by the parser's message, where k counts the rows
    of the reader from 1, imported rows included, and the parser's
    message always begins with "Invalid data in CSV row: ". *)
Theorem import_reports_rows_by_number (py : PyLibrary)
  (self : TradeLogService) (lines : list string) (account_id uid : Z)
  (out : ImportOutcome py) :
  import_from_csv py self lines account_id uid = Ok out ->
  csv_trade_lines lines <> [] ->
  let rows := DictReader py (csv_trade_lines lines) in
  added out = trades_of_rows py account_id rows
  /\ CSVImportResult.errors (import_result out)
     = errors_of_rows py (enumerate_from 1 rows)
  /\ forall e, In e (CSVImportResult.errors (import_result out)) ->
       exists (k : nat) (row : Row) (msg : string),
         nth_error rows k = Some row
         /\ _parse_ibkr_csv_row py row = inl msg
         /\ begins_with "Invalid data in CSV row: " msg
         /\ e = ("Row " ++ str_of_int (Z.of_nat k + 1) ++ ": " ++ msg)%string.
Proof.
  unfold import_from_csv. intros H Hsel.
  destruct (query_account self account_id uid); [|discriminate].
  destruct (csv_trade_lines lines) as [|first rest] eqn:Hlines; [congruence|].
  cbn [truthy negb] in H. rewrite import_rows_spec in H. injection H as <-.
  cbn [import_result added CSVImportResult.errors].
  repeat split.
  intros e Hin. apply errors_of_rows_In in Hin.
  destruct Hin as [k [row [msg [Hk [Hrow He]]]]].
  exists k, row, msg. repeat split; [exact Hk | exact Hrow | |].
  - eapply parse_failure_is_wrapped. exact Hrow.
  - rewrite He. replace (Z.of_nat (1 + k)) with (Z.of_nat k + 1) by lia.
    reflexivity.
Qed.

Lemma import_reports_rows_by_number_witness :
  exists out,
    import_from_csv sample_library one_account_service sample_statement 1 7
    = Ok out
    /\ CSVImportResult.errors (import_result out)
       = ["Row 3: Invalid data in CSV row: Not a stock trade"]
    /\ CSVImportResult.errors (import_result out)
       = errors_of_rows sample_library
           (enumerate_from 1
              (DictReader sample_library (csv_trade_lines sample_statement))).
Proof.
  eexists. split; [reflexivity|]. split; [reflexivity|].
  apply (import_reports_rows_by_number sample_library one_account_service
           sample_statement 1 7 _ eq_refl).
  discriminate.
Defined.

Lemma cell_differs_false (x : option string) (s : string) :
  cell_differs x s = false <-> x = Some s.
Proof.
  destruct x as [s'|]; cbn; split; intros H; try discriminate.
  - apply negb_false_iff, String.eqb_eq in H. congruence.
  - injection H as ->. rewrite String.eqb_refl. reflexivity.
Qed.

(** X20. The row parser.  Every failure carries a message that begins
    with "Invalid data in CSV row: ", the parser's own two rejections
    included, since they are raised inside the handler that wraps: a row
    whose Header cell is not "Data" fails with "Invalid data in CSV
    row: Not a trade data row" whatever its other cells, and a data row
    whose asset category is not "Stocks" with "... Not a stock trade".
    A row that parses is a stock data row; its side is BUY exactly when
    the quantity read is greater than zero and SELL otherwise (a zero
    quantity is a SELL), the stored quantity is the absolute value, the
    exchange is empty and the order type is MKT. *)
Theorem parsed_rows (py : PyLibrary) (row : Row) :
  (forall msg, _parse_ibkr_csv_row py row = inl msg ->
     begins_with "Invalid data in CSV row: " msg)
  /\ (row_get row "Header" None <> Some "Data" ->
      _parse_ibkr_csv_row py row
      = inl "Invalid data in CSV row: Not a trade data row")
  /\ (row_get row "Header" None = Some "Data" ->
      row_get row "Asset Category" None <> Some "Stocks" ->
      _parse_ibkr_csv_row py row
      = inl "Invalid data in CSV row: Not a stock trade")
  /\ (forall trade_data, _parse_ibkr_csv_row py row = inr trade_data ->
      row_get row "Header" None = Some "Data"
      /\ row_get row "Asset Category" None = Some "Stocks"
      /\ TradeData.exchange trade_data = ""
      /\ TradeData.order_type trade_data = "MKT"
      /\ exists quantity is_long,
           Decimal_of_str py (str_of_cell (row_get row "Quantity" (Some "0")))
           = inr quantity
           /\ Decimal_abs py quantity = inr (TradeData.quantity trade_data)
           /\ Decimal_gt_zero py quantity = inr is_long
           /\ TradeData.side trade_data = if is_long then "BUY" else "SELL").
Proof.
  split; [intros msg; apply parse_failure_is_wrapped|].
  unfold _parse_ibkr_csv_row, parse_row_body.
  split; [|split].
  - intros Hh.
    destruct (cell_differs (row_get row "Header" None) "Data") eqn:Hc;
      [reflexivity|]. apply cell_differs_false in Hc. contradiction.
  - intros Hh Ha. rewrite (proj2 (cell_differs_false _ _) Hh).
    destruct (cell_differs (row_get row "Asset Category" None) "Stocks") eqn:Hc;
      [reflexivity|]. apply cell_differs_false in Hc. contradiction.
  - intros trade_data H.
    destruct (cell_differs (row_get row "Header" None) "Data") eqn:Hh;
      [discriminate|].
    destruct (cell_differs (row_get row "Asset Category" None) "Stocks") eqn:Ha;
      [discriminate|].
    apply cell_differs_false in Hh, Ha.
    destruct (Decimal_of_str py (str_of_cell (row_get row "Quantity" (Some "0"))))
      as [|quantity] eqn:Hq; [discriminate|].
    destruct (Decimal_of_str py (str_of_cell (row_get row "T. Price" (Some "0"))))
      as [|price]; [discriminate|].
    destruct (Decimal_of_str py (str_of_cell (row_get row "Comm/Fee" (Some "0"))))
      as [|fee]; [discriminate|].
    cbn [and_then] in H.
    destruct (Decimal_abs py fee) as [|commission]; [discriminate|].
    cbn [and_then] in H.
    destruct (strptime_cell py (row_get row "Date/Time" (Some "")))
      as [|trade_date]; [discriminate|].
    destruct (strip_cell py (row_get row "Symbol" (Some "")))
      as [|sym]; [discriminate|].
    cbn [and_then] in H.
    destruct (Decimal_abs py quantity) as [|abs_quantity] eqn:Habs;
      [discriminate|].
    destruct (Decimal_gt_zero py quantity) as [|is_long] eqn:Hgt;
      [discriminate|].
    cbn in H. injection H as <-. cbn.
    repeat split; try assumption.
    exists quantity, is_long. repeat split; assumption.
Qed.

(* ===================================================================== *)
(** * Deleting a trade *)
(* ===================================================================== *)

Lemma filter_filter_comm {A} (p q : A -> bool) (l : list A) :
  filter p (filter q l) = filter q (filter p l).
Proof.
  induction l as [|x l IH]; [reflexivity|]. cbn [filter].
  destruct (p x) eqn:Hp, (q x) eqn:Hq; cbn [filter];
    rewrite ?Hp, ?Hq, IH; reflexivity.
Qed.

Lemma query_user_trades_after_delete (self : TradeLogService) (trade : Trade)
  (uid : Z) :
  query_user_trades (with_db self (db_delete_trade (db self) trade)) uid
  = filter (fun t => negb (trade_pk t =? trade_pk trade))
      (query_user_trades self uid).
Proof.
  unfold query_user_trades, with_db, db_delete_trade.
  cbn [db trades trade_accounts]. apply filter_filter_comm.
Qed.

Lemma find_filter_negb {A} (p : A -> bool) (l : list A) :
  find p (filter (fun x => negb (p x)) l) = None.
Proof.
  induction l as [|x l IH]; [reflexivity|]. cbn [filter].
  destruct (p x) eqn:Hp; cbn [negb find]; [exact IH|].
  rewrite Hp. exact IH.
Qed.

Lemma query_user_trade_Some (self : TradeLogService) (id uid : Z)
  (trade : Trade) :
  query_user_trade self id uid = Some trade ->
  In trade (query_user_trades self uid) /\ trade_pk trade = id.
Proof.
  unfold query_user_trade. intros H. apply find_some in H.
  destruct H as [Hin Hpk]. split; [exact Hin | lia].
Qed.

(** X23. Deleting a trade.  The call fails with 404 "Trade not found"
    exactly when the user has no trade with the given id, a trade of
    another user included.  When it succeeds, the trades of every user
    are what they were minus the trades with that id, in the same
    order, the accounts and tags are untouched, the association rows
    that remain are those of other trades, and deleting the same id
    again fails with 404. *)
Theorem delete_trade_outcome (self : TradeLogService) (id uid : Z) :
  match delete_trade self id uid with
  | HTTPError e =>
      e = {| status_code := 404; detail := "Trade not found" |}
      /\ forall t, In t (query_user_trades self uid) -> trade_pk t <> id
  | Ok s =>
      (exists t, In t (query_user_trades self uid) /\ trade_pk t = id)
      /\ trade_accounts s = trade_accounts (db self)
      /\ trade_tags s = trade_tags (db self)
      /\ trade_tag_associations s
         = filter (fun ta => negb (trade_id ta =? id))
             (trade_tag_associations (db self))
      /\ (forall u,
            query_user_trades (with_db self s) u
            = filter (fun t => negb (trade_pk t =? id))
                (query_user_trades self u))
      /\ delete_trade (with_db self s) id uid
         = HTTPError {| status_code := 404; detail := "Trade not found" |}
  end.
Proof.
  unfold delete_trade.
  destruct (query_user_trade self id uid) as [trade|] eqn:Hq.
  - destruct (query_user_trade_Some _ _ _ _ Hq) as [Hin Hpk].
    split; [exists trade; split; assumption|].
    split; [reflexivity|]. split; [reflexivity|].
    split; [cbn [db_delete_trade trade_tag_associations]; rewrite Hpk;
            reflexivity|].
    split.
    + intros u. rewrite query_user_trades_after_delete, Hpk. reflexivity.
    + unfold query_user_trade. rewrite query_user_trades_after_delete, Hpk.
      rewrite (find_filter_negb (fun t => trade_pk t =? id)). reflexivity.
  - split; [reflexivity|]. intros t Hin Hpk.
    unfold query_user_trade in Hq.
    apply (find_none _ _ Hq) in Hin. cbn beta in Hin. lia.
Qed.

Lemma owner_of_account (accounts : list TradeAccount) (a b : TradeAccount) :
  NoDup (map account_pk accounts) ->
  In a accounts -> In b accounts -> account_pk a = account_pk b -> a = b.
Proof.
  induction accounts as [|c accounts IH]; intros Hnd Ha Hb Hpk; [destruct Ha|].
  cbn [map] in Hnd. apply NoDup_cons_iff in Hnd. destruct Hnd as [Hc Hnd].
  destruct Ha as [<-|Ha], Hb as [<-|Hb].
  - reflexivity.
  - exfalso. apply Hc. rewrite Hpk. apply in_map. exact Hb.
  - exfalso. apply Hc. rewrite <- Hpk. apply in_map. exact Ha.
  - apply IH; assumption.
Qed.

Lemma trade_of_key (rows : list Trade) (a b : Trade) :
  NoDup (map trade_pk rows) ->
  In a rows -> In b rows -> trade_pk a = trade_pk b -> a = b.
Proof.
  induction rows as [|c rows IH]; intros Hnd Ha Hb Hpk; [destruct Ha|].
  cbn [map] in Hnd. apply NoDup_cons_iff in Hnd. destruct Hnd as [Hc Hnd].
  destruct Ha as [<-|Ha], Hb as [<-|Hb].
  - reflexivity.
  - exfalso. apply Hc. rewrite Hpk. apply in_map. exact Hb.
  - exfalso. apply Hc. rewrite <- Hpk. apply in_map. exact Ha.
  - apply IH; assumption.
Qed.

Lemma query_user_trades_In (self : TradeLogService) (uid : Z) (t : Trade) :
  In t (query_user_trades self uid) <->
  In t (trades (db self))
  /\ exists a, In a (trade_accounts (db self))
               /\ account_pk a = account_id t /\ user_id a = uid.
Proof.
  unfold query_user_trades. rewrite filter_In, existsb_exists.
  split; intros [Hin [a [Ha Hm]]]; (split; [exact Hin|]); exists a;
    (split; [exact Ha|]).
  - apply andb_true_iff in Hm. lia.
  - apply andb_true_iff. lia.
Qed.

(** X24. Users are isolated from each other's deletions.  Under the key
    constraints of the schema (unique account ids, unique trade ids), a
    deletion by one user leaves the trades of every other user as they
    were, and with them what the dashboard computes for that user. *)
Theorem delete_trade_leaves_other_users (self : TradeLogService)
  (id uid other : Z) (s : Session) :
  unique_keys (db self) ->
  delete_trade self id uid = Ok s ->
  other <> uid ->
  query_user_trades (with_db self s) other = query_user_trades self other
  /\ get_dashboard_stats (with_db self s) other
     = get_dashboard_stats self other.
Proof.
  intros [Hacc Htr] Hdel Hother.
  assert (Hsame : query_user_trades (with_db self s) other
                  = query_user_trades self other).
  { unfold delete_trade in Hdel.
    destruct (query_user_trade self id uid) as [trade|] eqn:Hq; [|discriminate].
    injection Hdel as <-. rewrite query_user_trades_after_delete.
    apply filter_all. apply Forall_forall. intros t Ht.
    destruct (Z.eqb_spec (trade_pk t) (trade_pk trade)) as [Hpk|]; [|reflexivity].
    exfalso. apply query_user_trade_Some in Hq. destruct Hq as [Hmine _].
    apply query_user_trades_In in Ht, Hmine.
    destruct Ht as [Hin [a [Ha [Hak Hau]]]].
    destruct Hmine as [Hin' [b [Hb [Hbk Hbu]]]].
    assert (t = trade) by (eapply trade_of_key; eassumption). subst t.
    assert (a = b) by (eapply owner_of_account; try eassumption; congruence).
    subst a. congruence. }
  split; [exact Hsame|]. unfold get_dashboard_stats. rewrite Hsame. reflexivity.
Qed.

Lemma delete_trade_leaves_other_users_witness :
  unique_keys (db two_user_service)
  /\ (exists s, delete_trade two_user_service 2 7 = Ok s
                /\ query_user_trades (with_db two_user_service s) 8
                   = query_user_trades two_user_service 8).
Proof.
  assert (Hk : unique_keys (db two_user_service)).
  { split; cbn; repeat constructor; cbn; intuition discriminate. }
  split; [exact Hk|].
  eexists. split; [reflexivity|].
  apply (delete_trade_leaves_other_users two_user_service 2 7 8 _ Hk eq_refl).
  discriminate.
Defined.
